(** * The code generator service of the likeadmin back end

    A shallow embedding of [app/service/gen.js] (class [GenService]), of the
    constants of [app/extend/config.js] it reads and of the helpers of
    [app/util/index.js] it calls, of the actions of
    [app/controller/gen/gen.js] that answer through [baseController], and of
    [listToTree], followed by the properties of the schema importer, the
    column classifier, the synchronizer, the renderer, the packager, the
    actions and the tree helper.

    Conventions of the embedding.
    - A JavaScript primitive is a [jsval]; a plain object is a finite map from
      property names to values, read with [prop], which yields [JUndef] for
      a missing property exactly as a property read does.
    - An awaited call of an [async] method is a call in the [result] monad:
      a rejection is [Err].  A call that is not awaited yields a promise
      object ([promise]).
    - Strings are byte strings; table and column names are taken to be
      ASCII, on which [toLowerCase] and [toUpperCase] act letter by letter.
    - Numbers are integers ([Z]); [NaN] only arises in [parseInt] and is
      the [None] of its result. *)

From Stdlib Require Import ZArith String Ascii List Bool Lia.
From stdpp Require Import base option strings pretty gmap list.

Open Scope string_scope.
Open Scope Z_scope.

(** ** JavaScript values, objects and errors *)

Inductive jsval : Type :=
| JUndef
| JNull
| JBool (b : bool)
| JNum (n : Z)
| JStr (s : string).

#[global] Instance jsval_eq_dec : EqDecision jsval := ltac:(solve_decision).

(** [a === b] on primitives. *)
Definition strict_eq (a b : jsval) : bool := bool_decide (a = b).

(** The truthiness test of [if (v)], [!v] and [a || b]. *)
Definition truthy (v : jsval) : bool :=
  match v with
  | JUndef | JNull => false
  | JBool b => b
  | JNum n => negb (n =? 0)
  | JStr s => negb (String.eqb s "")
  end.

Abbreviation jsobj := (gmap string jsval).

(** [o.k]: the value of property [k], [undefined] when [o] has none. *)
Definition prop (o : jsobj) (k : string) : jsval := default JUndef (o !! k).

(** An object literal [{ k1: v1, ... }]. *)
Definition object (l : list (string * jsval)) : jsobj := list_to_map l.

Inductive error : Type :=
| Error (message : string)
| TypeError (message : string).

Definition message (e : error) : string :=
  match e with Error m | TypeError m => m end.

(** [`${err}`] and ['...' + err]. *)
Definition error_toString (e : error) : string :=
  match e with
  | Error m => "Error: " ++ m
  | TypeError m => "TypeError: " ++ m
  end.

Inductive result (A : Type) : Type :=
| Ok (a : A)
| Err (e : error).
Arguments Ok {A} a.
Arguments Err {A} e.

Definition bind {A B} (r : result A) (k : A -> result B) : result B :=
  match r with Ok a => k a | Err e => Err e end.

Notation "'let?' x := r 'in' k" := (bind r (fun x => k))
  (at level 10, x pattern, r at level 100, k at level 200).

Definition is_ok {A} (r : result A) : bool :=
  match r with Ok _ => true | Err _ => false end.

(** Calling a string method on [v]: a [TypeError] unless [v] is a string. *)
Definition as_string (v : jsval) : result string :=
  match v with
  | JStr s => Ok s
  | _ => Err (TypeError "not a string")
  end.

(** ** String primitives *)

Module Str.

(** [s.indexOf(sub)], [None] for [-1]. *)
Definition indexOf (sub s : string) : option nat := String.index 0 sub s.

(** [s.indexOf(sub, from)]. *)
Definition indexOfFrom (sub : string) (from : nat) (s : string) : option nat :=
  String.index from sub s.

Definition includes (sub s : string) : bool :=
  match indexOf sub s with Some _ => true | None => false end.

(** [s.substring(a, b)]; the two ends are swapped when [b < a]. *)
Definition substring (a b : nat) (s : string) : string :=
  String.substring (Nat.min a b) (Nat.max a b - Nat.min a b) s.

(** [s.slice(a)] for [0 <= a]. *)
Definition slice (a : nat) (s : string) : string :=
  String.substring a (String.length s - a) s.

Definition startsWith (p s : string) : bool := String.prefix p s.

Definition endsWith (suf s : string) : bool :=
  (String.length suf <=? String.length s)%nat &&
  String.eqb (slice (String.length s - String.length suf) s) suf.

Definition lower (c : ascii) : ascii :=
  let n := nat_of_ascii c in
  if ((65 <=? n) && (n <=? 90))%nat then ascii_of_nat (n + 32) else c.

Definition upper (c : ascii) : ascii :=
  let n := nat_of_ascii c in
  if ((97 <=? n) && (n <=? 122))%nat then ascii_of_nat (n - 32) else c.

Fixpoint toLowerCase (s : string) : string :=
  match s with
  | EmptyString => EmptyString
  | String c s' => String (lower c) (toLowerCase s')
  end.

Fixpoint toUpperCase (s : string) : string :=
  match s with
  | EmptyString => EmptyString
  | String c s' => String (upper c) (toUpperCase s')
  end.

(** [s.split(sep)] for a one-character separator: never empty. *)
Fixpoint split (sep : ascii) (s : string) : list string :=
  match s with
  | EmptyString => [EmptyString]
  | String c s' =>
      if Ascii.eqb c sep then EmptyString :: split sep s'
      else match split sep s' with
           | w :: ws => String c w :: ws
           | [] => [String c EmptyString]
           end
  end.

(** [words.join('')]. *)
Definition join (words : list string) : string := String.concat "" words.

(** The replacement patterns of [String.prototype.replace] when the
    pattern is a string: [$$], [$&], [$`] and [$']; every other [$]
    stands for itself. *)
Fixpoint expand (before matched after repl : string) : string :=
  match repl with
  | String "$" (String c r as rest) =>
      if Ascii.eqb c "$" then String "$" (expand before matched after r)
      else if Ascii.eqb c "&" then matched ++ expand before matched after r
      else if Ascii.eqb c "`" then before ++ expand before matched after r
      else if Ascii.eqb c "'" then after ++ expand before matched after r
      else String "$" (expand before matched after rest)
  | String c rest => String c (expand before matched after rest)
  | EmptyString => EmptyString
  end.

(** [s.replace(pat, repl)] with a string pattern: the first occurrence
    only. *)
Definition replace (pat repl s : string) : string :=
  match indexOf pat s with
  | None => s
  | Some i =>
      let before := String.substring 0 i s in
      let after := slice (i + String.length pat) s in
      before ++ expand before pat after repl ++ after
  end.

Definition is_space (c : ascii) : bool :=
  let n := nat_of_ascii c in
  ((n =? 32) || ((9 <=? n) && (n <=? 13)))%nat.

Definition digit (c : ascii) : option Z :=
  let n := nat_of_ascii c in
  if ((48 <=? n) && (n <=? 57))%nat then Some (Z.of_nat (n - 48)) else None.

Fixpoint skip_spaces (s : string) : string :=
  match s with
  | String c s' => if is_space c then skip_spaces s' else s
  | EmptyString => EmptyString
  end.

(** The longest run of decimal digits at the head of [s], read from an
    accumulator; [None] when there is no digit. *)
Fixpoint digits (acc : option Z) (s : string) : option Z :=
  match s with
  | String c s' =>
      match digit c with
      | Some d => digits (Some (10 * default 0 acc + d)) s'
      | None => acc
      end
  | EmptyString => acc
  end.

(** [parseInt(s, 10)]; [None] is [NaN]. *)
Definition parseInt (s : string) : option Z :=
  match skip_spaces s with
  | String "-" s' => Z.opp <$> digits None s'
  | String "+" s' => digits None s'
  | s' => digits None s'
  end.

(** The string without the white space at its two ends. *)
Definition trim (s : string) : string :=
  String.rev (skip_spaces (String.rev (skip_spaces s))).

(** The value of a digit of the radix, letters in either case. *)
Definition digit_in (radix : Z) (c : ascii) : option Z :=
  let n := Z.of_nat (nat_of_ascii c) in
  let d := if (48 <=? n) && (n <=? 57) then Some (n - 48)
           else if (97 <=? n) && (n <=? 102) then Some (n - 87)
           else if (65 <=? n) && (n <=? 70) then Some (n - 55)
           else None in
  match d with
  | Some v => if v <? radix then Some v else None
  | None => None
  end.

(** The value of a string that consists of digits of the radix; [None]
    when it holds another character. *)
Fixpoint all_digits (radix acc : Z) (s : string) : option Z :=
  match s with
  | EmptyString => Some acc
  | String c s' =>
      match digit_in radix c with
      | Some d => all_digits radix (radix * acc + d) s'
      | None => None
      end
  end.

(** The value of a non-empty string of digits of the radix. *)
Definition numeral (radix : Z) (s : string) : option Z :=
  match s with
  | EmptyString => None
  | _ => all_digits radix 0 s
  end.

(** The decimal digits at the head of [s], and what follows them. *)
Fixpoint span_digits (s : string) : string * string :=
  match s with
  | String c s' =>
      match digit c with
      | Some _ => let '(ds, rest) := span_digits s' in (String c ds, rest)
      | None => (EmptyString, s)
      end
  | EmptyString => (EmptyString, EmptyString)
  end.

(** An unsigned decimal literal other than [Infinity], as a mantissa [m]
    and an exponent [k] of ten: digits, an optional point with digits, at
    least one digit in all, and an optional exponent part.  [None] when
    [s] is no such literal. *)
Definition unsignedDecimal (s : string) : option (Z * Z) :=
  let '(whole, rest) := span_digits s in
  let '(fraction, rest) :=
    match rest with
    | String "." rest' => span_digits rest'
    | _ => (EmptyString, rest)
    end in
  if ((String.length whole =? 0) && (String.length fraction =? 0))%nat then None
  else
    let m := default 0 (all_digits 10 0 (whole ++ fraction)) in
    let places := Z.of_nat (String.length fraction) in
    match rest with
    | EmptyString => Some (m, - places)
    | String c rest' =>
        if Ascii.eqb c "e" || Ascii.eqb c "E" then
          match rest' with
          | String "+" ds => (fun e => (m, e - places)) <$> numeral 10 ds
          | String "-" ds => (fun e => (m, - e - places)) <$> numeral 10 ds
          | ds => (fun e => (m, e - places)) <$> numeral 10 ds
          end
        else None
    end.

End Str.

(** ** Constants of [app/extend/config.js] *)

Module config.

Definition dbTablePrefix : string := "la_".

Module genConfig.
Definition packageName : string := "gencode".
Definition isRemoveTablePrefix : bool := true.
Definition genRootPath : string := "/tmp/target".
End genConfig.

Definition nodeConstants : jsobj :=
  object [ ("typeString", JStr "string"); ("typeFloat", JStr "float64");
           ("typeInt", JStr "int"); ("typeDate", JStr "core.TsTime") ].

(** The flag constant is declared under the key [qequire]; the service
    reads [genConstants.require]. *)
Definition genConstants : jsobj :=
  object [ ("UTF8", JStr "utf-8"); ("tplCrud", JStr "crud");
           ("tplTree", JStr "tree"); ("queryLike", JStr "LIKE");
           ("queryEq", JStr "="); ("qequire", JNum 1) ].

Module sqlConstants.
Definition columnTypeStr : list string :=
  [ "char"; "varchar"; "nvarchar"; "varchar2" ].
Definition columnTypeText : list string :=
  [ "tinytext"; "text"; "mediumtext"; "longtext" ].
Definition columnTypeTime : list string :=
  [ "datetime"; "time"; "date"; "timestamp" ].
Definition columnTypeNumber : list string :=
  [ "tinyint"; "smallint"; "mediumint"; "int"; "integer";
    "bit"; "bigint"; "float"; "double"; "decimal" ].
Definition columnTimeName : list string :=
  [ "create_time"; "update_time"; "delete_time"; "start_time"; "end_time" ].
Definition columnNameNotAdd : list string :=
  [ "id"; "is_delete"; "create_time"; "update_time"; "delete_time" ].
Definition columnNameNotEdit : list string :=
  [ "is_delete"; "create_time"; "update_time"; "delete_time" ].
Definition columnNameNotList : list string :=
  [ "id"; "intro"; "content"; "is_delete"; "delete_time" ].
Definition columnNameNotQuery : list string :=
  [ "is_delete"; "create_time"; "update_time"; "delete_time" ].
End sqlConstants.

Definition htmlConstants : jsobj :=
  object [ ("htmlInput", JStr "input"); ("htmlTextarea", JStr "textarea");
           ("htmlSelect", JStr "select"); ("htmlRadio", JStr "radio");
           ("htmlDatetime", JStr "datetime");
           ("htmlImageUpload", JStr "imageUpload");
           ("htmlFileUpload", JStr "fileUpload");
           ("htmlEditor", JStr "editor") ].

End config.

(** ** Helpers of [app/util/index.js] *)

Module util.

(** [contains(src, elem)] for an array of strings [src]:
    [src.includes(elem)], which no value other than a string satisfies. *)
Definition contains (src : list string) (elem : jsval) : bool :=
  match elem with
  | JStr s => bool_decide (s ∈ src)
  | _ => false
  end.

(** [words[i].charAt(0).toUpperCase() + words[i].slice(1)]. *)
Definition capitalize (w : string) : string :=
  match w with
  | EmptyString => EmptyString
  | String c w' => String (Str.upper c) w'
  end.

Definition toCamelCase (s : string) : string :=
  match Str.split "_" s with
  | [] => EmptyString
  | w :: ws => Str.join (w :: map capitalize ws)
  end.

(** [words[i][0].toUpperCase() + words[i].slice(1)]: [words[i][0]] is
    [undefined] for an empty word, and the method call throws. *)
Definition capitalize_strict (w : string) : result string :=
  match w with
  | EmptyString => Err (TypeError "Cannot read properties of undefined (reading 'toUpperCase')")
  | String c w' => Ok (String (Str.upper c) w')
  end.

Fixpoint capitalize_all (ws : list string) : result (list string) :=
  match ws with
  | [] => Ok []
  | w :: ws' =>
      let? w' := capitalize_strict w in
      let? r := capitalize_all ws' in
      Ok (w' :: r)
  end.

Definition toPascalCase (str : string) : result string :=
  let? words := capitalize_all (Str.split "_" str) in
  Ok (Str.join words).

End util.

(** ** The column classifier and the table initialiser of [GenService] *)

Import config.

(** [getDbType]: the declared type without its parenthesised part. *)
Definition getDbType (columnType : string) : string :=
  match Str.indexOf "(" columnType with
  | None => columnType
  | Some index => Str.substring 0 index columnType
  end.

(** [getColumnLength]: the number that opens the parenthesised part, [0]
    when there is none. *)
Definition getColumnLength (columnType : string) : Z :=
  match Str.indexOf "(" columnType with
  | None => 0
  | Some index =>
      match Str.indexOfFrom ")" index columnType with
      | None => 0
      | Some endIndex =>
          let lengthStr := Str.substring (index + 1) endIndex columnType in
          match Str.parseInt lengthStr with
          | None => 0
          | Some length => length
          end
      end
  end.

Section Classifier.

(** [Math.floor(Date.now() / 1000)] at the time of the call. *)
Variable now : Z.

(** The object literal that opens [initColumn] (lines 447 to 462). *)
Definition baseColumn (tableId : jsval) (column : jsobj)
    (columnType : string) (columnLen : Z) : jsobj :=
  object [ ("tableId", tableId);
           ("columnName", prop column "columnName");
           ("columnComment", prop column "columnComment");
           ("columnType", JStr columnType);
           ("columnLength", JNum columnLen);
           ("javaField", prop column "columnName");
           ("javaType", prop nodeConstants "typeString");
           ("queryType", prop genConstants "queryEq");
           ("sort", prop column "sort");
           ("isPk", prop column "isPk");
           ("isIncrement", prop column "isIncrement");
           ("isRequired", prop column "isRequired");
           ("createTime", JNum now);
           ("updateTime", JNum now) ].

(** The widget and the logical type by SQL type (lines 465 to 488).
    [columnType] is the type without its parenthesised part. *)
Definition typePass (columnType : string) (columnLen : Z) (col : jsobj) : jsobj :=
  if util.contains (sqlConstants.columnTypeStr ++ sqlConstants.columnTypeText)
                   (JStr columnType)
  then
    if (500 <=? columnLen) || util.contains sqlConstants.columnTypeText (JStr columnType)
    then <["htmlType" := prop htmlConstants "htmlTextarea"]> col
    else <["htmlType" := prop htmlConstants "htmlInput"]> col
  else if util.contains sqlConstants.columnTypeTime (JStr columnType) then
    <["htmlType" := prop htmlConstants "htmlDatetime"]>
      (<["javaType" := prop nodeConstants "typeDate"]> col)
  else if util.contains sqlConstants.columnTimeName (prop col "columnName") then
    <["htmlType" := prop htmlConstants "htmlDatetime"]>
      (<["javaType" := prop nodeConstants "typeDate"]> col)
  else if util.contains sqlConstants.columnTypeNumber (JStr columnType) then
    let col := <["htmlType" := prop htmlConstants "htmlInput"]> col in
    if Str.includes "," columnType
    then <["javaType" := prop nodeConstants "typeFloat"]> col
    else <["javaType" := prop nodeConstants "typeInt"]> col
  else col.

(** The requiredness and the four visibility flags (lines 491 to 511). *)
Definition flagPass (col : jsobj) : jsobj :=
  let col :=
    if util.contains sqlConstants.columnNameNotEdit (prop col "columnName")
    then <["isRequired" := JNum 0]> col else col in
  let col :=
    if negb (util.contains sqlConstants.columnNameNotAdd (prop col "columnName"))
    then <["isInsert" := prop genConstants "require"]> col else col in
  let col :=
    if negb (util.contains sqlConstants.columnNameNotEdit (prop col "columnName"))
    then <["isRequired" := prop genConstants "require"]>
           (<["isEdit" := prop genConstants "require"]> col)
    else col in
  let col :=
    if negb (util.contains sqlConstants.columnNameNotList (prop col "columnName"))
       && strict_eq (prop col "isPk") (JNum 0)
    then <["isList" := prop genConstants "require"]> col else col in
  let col :=
    if negb (util.contains sqlConstants.columnNameNotQuery (prop col "columnName"))
       && strict_eq (prop col "isPk") (JNum 0)
    then <["isQuery" := prop genConstants "require"]> col else col in
  col.

(** The query operator and the widget by column name (lines 516 to
    531). *)
Definition namePass (lowerColName : string) (col : jsobj) : jsobj :=
  let col :=
    if Str.endsWith "name" lowerColName
       || util.contains [ "title"; "mobile" ] (JStr lowerColName)
    then <["queryType" := prop genConstants "queryLike"]> col else col in
  let col :=
    if Str.endsWith "status" lowerColName
       || util.contains [ "is_show"; "is_disable" ] (JStr lowerColName)
    then <["htmlType" := prop htmlConstants "htmlRadio"]> col
    else if Str.endsWith "type" lowerColName || Str.endsWith "sex" lowerColName
    then <["htmlType" := prop htmlConstants "htmlSelect"]> col
    else if Str.endsWith "image" lowerColName
    then <["htmlType" := prop htmlConstants "htmlImageUpload"]> col
    else if Str.endsWith "file" lowerColName
    then <["htmlType" := prop htmlConstants "htmlFileUpload"]> col
    else if Str.endsWith "content" lowerColName
    then <["htmlType" := prop htmlConstants "htmlEditor"]> col
    else col in
  col.

(** [initColumn(tableId, column)], awaited.  [column] is one row of
    [getDbTableColumnsQueryByName]; the body is taken in its four
    parts, in the order of the source. *)
Definition initColumn (tableId : jsval) (column : jsobj) : result jsobj :=
  let? rawType := as_string (prop column "columnType") in
  let columnType := getDbType rawType in
  let columnLen := getColumnLength rawType in
  let col := baseColumn tableId column columnType columnLen in
  let col := typePass columnType columnLen col in
  let col := flagPass col in
  let? columnName := as_string (prop col "columnName") in
  let lowerColName := Str.toLowerCase columnName in
  Ok (namePass lowerColName col).

(** [toClassName]: the table name without the configured prefix, through
    [util.toCamelCase]. *)
Definition toClassName (name : string) : string :=
  let tablePrefix := dbTablePrefix in
  let name :=
    if genConfig.isRemoveTablePrefix
       && negb (String.eqb tablePrefix "")
       && Str.startsWith tablePrefix name
    then Str.slice (String.length tablePrefix) name
    else name in
  util.toCamelCase name.

(** [toModuleName]: [names[names.length - 1]] of [name.split('_')]. *)
Definition toModuleName (name : string) : string :=
  let names := Str.split "_" name in
  List.last names EmptyString.

(** [initTable(table)], awaited.  [table] is one row of
    [getDbTablesQueryByNames]. *)
Definition initTable (table : jsobj) : result jsobj :=
  let? tableName := as_string (prop table "tableName") in
  let? tableComment := as_string (prop table "tableComment") in
  Ok (object [ ("tableName", JStr tableName);
               ("tableComment", JStr tableComment);
               ("authorName", JStr "");
               ("entityName", JStr (toClassName tableName));
               ("moduleName", JStr (toModuleName tableName));
               ("functionName", JStr (Str.replace "表" "" tableComment));
               ("createTime", JNum now);
               ("updateTime", JNum now) ]).

End Classifier.

(** ** The metadata store behind the models [GenTable] and [GenTableColumn] *)

(** Modelled from the spec: the model declarations ([app/model/genTable.js],
    [app/model/genTableColumn.js]) are not among the sources.  Following the
    data model of the specification, each model is a table of records keyed
    by an auto-increment [id]; [create] appends a record, [update] overwrites
    the properties it is given, [destroy] removes records for good. *)
Record store : Type := {
  GenTable : list jsobj;
  GenTableColumn : list jsobj;
  nextTableId : Z;
  nextColumnId : Z
}.

(** The writes a call can send to the database. *)
Inductive write : Type :=
| Create (model : string) (values : jsobj)
| Update (model : string) (values : jsobj) (id : jsval)
| Destroy (model : string) (column : string) (keys : list jsval)
| Commit.

(** Arguments bound to a raw query through [replacements]. *)
Inductive sqlarg : Type :=
| SqlVal (v : jsval)
| SqlList (l : list string).

(** Stateful code: a computation reads and writes a state (the store, the
    archives piped to the file system) and either returns or throws. *)
Definition M (S A : Type) : Type := S -> result A * S.

Definition ret {S A} (a : A) : M S A := fun s => (Ok a, s).
Definition throw {S A} (e : error) : M S A := fun s => (Err e, s).
Definition lift {S A} (r : result A) : M S A := fun s => (r, s).
Definition get_state {S} : M S S := fun s => (Ok s, s).

Definition mbind {S A B} (m : M S A) (k : A -> M S B) : M S B :=
  fun s => match m s with
           | (Ok a, s') => k a s'
           | (Err e, s') => (Err e, s')
           end.

(** [try { m } catch (err) { h err }]. *)
Definition try_catch {S A} (m : M S A) (h : error -> M S A) : M S A :=
  fun s => match m s with
           | (Ok a, s') => (Ok a, s')
           | (Err e, s') => h e s'
           end.

Notation "'do!' x <- m ; k" := (mbind m (fun x => k))
  (at level 10, x pattern, m at level 100, k at level 200).
Notation "m ;; k" := (mbind m (fun _ => k))
  (at level 100, k at level 200, right associativity).

(** [String(v)], as in a template literal and as a property key. *)
Definition toString (v : jsval) : string :=
  match v with
  | JUndef => "undefined"
  | JNull => "null"
  | JBool true => "true"
  | JBool false => "false"
  | JNum n => pretty n
  | JStr s => s
  end.

(** The numeric value an [ORDER BY] compares. *)
Definition order_key (v : jsval) : Z :=
  match v with
  | JNum n => n
  | JStr s => default 0 (Str.parseInt s)
  | _ => 0
  end.

(** Insertion by [ORDER BY key ASC], before the rows of the same key. *)
Fixpoint insert_by (key : string) (row : jsobj) (rows : list jsobj) : list jsobj :=
  match rows with
  | [] => [row]
  | r :: rest =>
      if order_key (prop row key) <=? order_key (prop r key)
      then row :: rows
      else r :: insert_by key row rest
  end.

Definition order_by (key : string) (rows : list jsobj) : list jsobj :=
  foldr (fun row acc => insert_by key row acc) [] rows.

(** [where: { column: keys }]: the record's value is one of the keys. *)
Definition matches (column : string) (keys : list jsval) (row : jsobj) : bool :=
  bool_decide (prop row column ∈ keys).

(** The record [Model.update(values, ...)] leaves: the properties of
    [values] that are not [undefined] replace those of the record. *)
Definition assign_defined (values row : jsobj) : jsobj :=
  filter (fun kv => kv.2 <> JUndef) values ∪ row.

(** The rows survive a rollback; the auto-increment counters do not go
    back. *)
Definition rollback (before after : store) : store :=
  {| GenTable := GenTable before;
     GenTableColumn := GenTableColumn before;
     nextTableId := nextTableId after;
     nextColumnId := nextColumnId after |}.

Section Service.

Variable now : Z.

(** [sequelize.query(text, { replacements })] on the live schema. *)
Variable query : string -> list (string * sqlarg) -> result (list jsobj).

(** The writes the database refuses (a violated constraint, a lost
    connection), given the records it holds. *)
Variable refused : store -> write -> bool.

Definition database_error : error := Error "SequelizeDatabaseError".

(** *** Model operations *)

Definition GenTable_create (values : jsobj) : M store jsobj :=
  fun s =>
    if refused s (Create "GenTable" values) then (Err database_error, s)
    else
      let row := <["id" := JNum (nextTableId s)]> values in
      (Ok row, {| GenTable := GenTable s ++ [row];
                  GenTableColumn := GenTableColumn s;
                  nextTableId := nextTableId s + 1;
                  nextColumnId := nextColumnId s |}).

Definition GenTableColumn_create (values : jsobj) : M store jsobj :=
  fun s =>
    if refused s (Create "GenTableColumn" values) then (Err database_error, s)
    else
      let row := <["id" := JNum (nextColumnId s)]> values in
      (Ok row, {| GenTable := GenTable s;
                  GenTableColumn := GenTableColumn s ++ [row];
                  nextTableId := nextTableId s;
                  nextColumnId := nextColumnId s + 1 |}).

(** [GenTableColumn.update(values, { where: { id } })]. *)
Definition GenTableColumn_update (values : jsobj) (id : jsval) : M store unit :=
  fun s =>
    if refused s (Update "GenTableColumn" values id) then (Err database_error, s)
    else
      (Ok tt, {| GenTable := GenTable s;
                 GenTableColumn :=
                   map (fun row => if matches "id" [id] row
                                   then assign_defined values row else row)
                       (GenTableColumn s);
                 nextTableId := nextTableId s;
                 nextColumnId := nextColumnId s |}).

(** [GenTable.destroy({ where: { column: keys } })]. *)
Definition GenTable_destroy (column : string) (keys : list jsval) : M store unit :=
  fun s =>
    if refused s (Destroy "GenTable" column keys) then (Err database_error, s)
    else
      (Ok tt, {| GenTable := filter (fun row => negb (matches column keys row)) (GenTable s);
                 GenTableColumn := GenTableColumn s;
                 nextTableId := nextTableId s;
                 nextColumnId := nextColumnId s |}).

Definition GenTableColumn_destroy (column : string) (keys : list jsval) : M store unit :=
  fun s =>
    if refused s (Destroy "GenTableColumn" column keys) then (Err database_error, s)
    else
      (Ok tt, {| GenTable := GenTable s;
                 GenTableColumn :=
                   filter (fun row => negb (matches column keys row)) (GenTableColumn s);
                 nextTableId := nextTableId s;
                 nextColumnId := nextColumnId s |}).

(** [Model.findOne({ where: { column: key } })]. *)
Definition findOne (rows : list jsobj) (column : string) (key : jsval) : option jsobj :=
  List.find (matches column [key]) rows.

(** [Model.findOne({ where, order: [['id', 'DESC']], limit: 1 })]. *)
Definition findLast (rows : list jsobj) (column : string) (key : jsval) : option jsobj :=
  List.find (matches column [key]) (rev (order_by "id" rows)).

(** [Model.findAll({ where: { column: key }, order: [['sort', 'ASC']] })]. *)
Definition findAll (rows : list jsobj) (column : string) (key : jsval) : list jsobj :=
  order_by "sort" (filter (fun row => matches column [key] row) rows).

(** [model.transaction(async t => body)]: the writes of [body] all carry
    the transaction, which is committed when [body] returns and rolled
    back when it throws. *)
Definition transaction {A} (body : M store A) : M store A :=
  fun s =>
    match body s with
    | (Ok a, s') =>
        if refused s' Commit then (Err database_error, rollback s s')
        else (Ok a, s')
    | (Err e, s') => (Err e, rollback s s')
    end.

(** *** Queries on the live schema *)

Definition dq : string := String (ascii_of_nat 34) EmptyString.
Definition nl : string := String (ascii_of_nat 10) EmptyString.

(** A number in a template literal; [None] is [NaN]. *)
Definition number_toString (n : option Z) : string :=
  match n with Some z => pretty z | None => "NaN" end.

(** The [whereStr] of [getDbTablesQuery]. *)
Definition whereStr (tableName tableComment : jsval) : string :=
  let whereStr := "" in
  let whereStr :=
    if truthy tableName
    then whereStr ++ "AND lower(table_name) like lower(" ++ dq ++ "%"
                  ++ toString tableName ++ "%" ++ dq ++ ")"
    else whereStr in
  let whereStr :=
    if truthy tableComment
    then whereStr ++ "AND lower(table_comment) like lower(" ++ dq ++ "%"
                  ++ toString tableComment ++ "%" ++ dq ++ ")"
    else whereStr in
  whereStr.

(** The text of the counting query of [getDbTablesQuery]. *)
Definition countSql (tableName tableComment : jsval) : string :=
  nl ++ "        SELECT COUNT(*) AS total" ++
  nl ++ "        FROM information_schema.tables" ++
  nl ++ "        WHERE table_schema = DATABASE()" ++
  nl ++ "        AND table_name NOT LIKE 'qrtz_%'" ++
  nl ++ "        AND table_name NOT LIKE 'gen_%'" ++
  nl ++ "        AND table_name NOT IN (SELECT table_name FROM la_gen_table)" ++
  nl ++ "        " ++ whereStr tableName tableComment ++
  nl ++ "      ".

(** The text of the listing query of [getDbTablesQuery]. *)
Definition listSql (tableName tableComment : jsval) (limit offset : option Z) : string :=
  nl ++ "        SELECT table_name AS tableName, table_comment AS tableComment, DATE_FORMAT(create_time, '%Y-%m-%d %H:%i:%s') AS createTime, update_time AS updateTime" ++
  nl ++ "        FROM information_schema.tables" ++
  nl ++ "        WHERE table_schema = DATABASE()" ++
  nl ++ "        AND table_name NOT LIKE 'qrtz_%'" ++
  nl ++ "        AND table_name NOT LIKE 'gen_%'" ++
  nl ++ "        AND table_name NOT IN (SELECT table_name FROM la_gen_table)" ++
  nl ++ "        " ++ whereStr tableName tableComment ++
  nl ++ "        LIMIT " ++ number_toString limit ++ " OFFSET " ++ number_toString offset.

(** The raw queries [getDbTablesQuery] sends, each with its bound
    arguments. *)
Definition getDbTablesQuery_sent (tableName tableComment : jsval)
    (limit offset : option Z) : list (string * list (string * sqlarg)) :=
  [ (countSql tableName tableComment, []);
    (listSql tableName tableComment limit offset, []) ].

(** [getDbTablesQuery]: the total and the page of rows. *)
Definition getDbTablesQuery (tableName tableComment : jsval)
    (limit offset : option Z) : result (jsval * list jsobj) :=
  let attempt :=
    let? countResult := query (countSql tableName tableComment) [] in
    let? totalCount :=
      match countResult with
      | first :: _ => Ok (prop first "total")
      | [] => Err (TypeError "Cannot read properties of undefined (reading 'total')")
      end in
    let? queryResult := query (listSql tableName tableComment limit offset) [] in
    Ok (totalCount, queryResult) in
  match attempt with
  | Ok r => Ok r
  | Err _ => Err (Error "Failed to get database tables query.")
  end.

Definition tablesByNamesSql : string :=
  nl ++ "        SELECT table_name AS tableName, table_comment AS tableComment, create_time AS createTime, update_time AS updateTime" ++
  nl ++ "        FROM information_schema.tables" ++
  nl ++ "        WHERE table_schema = DATABASE()" ++
  nl ++ "          AND table_name NOT LIKE 'qrtz_%'" ++
  nl ++ "          AND table_name NOT LIKE 'gen_%'" ++
  nl ++ "          AND table_name IN (:tableNames)" ++
  nl ++ "      ".

(** The raw query [getDbTablesQueryByNames] sends. *)
Definition getDbTablesQueryByNames_sent (tableNames : list string)
    : list (string * list (string * sqlarg)) :=
  [ (tablesByNamesSql, [ ("tableNames", SqlList tableNames) ]) ].

Definition getDbTablesQueryByNames (tableNames : list string) : result (list jsobj) :=
  match query tablesByNamesSql [ ("tableNames", SqlList tableNames) ] with
  | Ok rows => Ok rows
  | Err _ => Err (Error "Failed to get database tables query by names.")
  end.

Definition columnsByNameSql : string :=
  nl ++ "      SELECT column_name AS columnName," ++
  nl ++ "        (CASE WHEN (is_nullable = " ++ dq ++ "no" ++ dq ++ " AND column_key != "
     ++ dq ++ "PRI" ++ dq ++ ") THEN " ++ dq ++ "1" ++ dq ++ " ELSE " ++ dq ++ "0" ++ dq
     ++ " END) AS isRequired," ++
  nl ++ "        (CASE WHEN column_key = " ++ dq ++ "PRI" ++ dq ++ " THEN " ++ dq ++ "1" ++ dq
     ++ " ELSE " ++ dq ++ "0" ++ dq ++ " END) AS isPk," ++
  nl ++ "        ordinal_position AS sort, column_comment AS columnComment," ++
  nl ++ "        (CASE WHEN extra = " ++ dq ++ "auto_increment" ++ dq ++ " THEN " ++ dq ++ "1" ++ dq
     ++ " ELSE " ++ dq ++ "0" ++ dq ++ " END) AS isIncrement, column_type AS columnType" ++
  nl ++ "      FROM information_schema.columns" ++
  nl ++ "      WHERE table_schema = DATABASE() AND table_name = :tableName" ++
  nl ++ "      ORDER BY ordinal_position" ++
  nl ++ "    ".

Definition getDbTableColumnsQueryByName (tableName : jsval) : result (list jsobj) :=
  query columnsByNameSql [ ("tableName", SqlVal tableName) ].

(** [parseInt(v, 10)] on a request parameter. *)
Definition parseInt10 (v : jsval) : option Z := Str.parseInt (toString v).

(** A JavaScript number as far as the model follows it: an integer that
    a double holds exactly, [NaN], or any other number (a fraction, a larger
    integer, an infinity). *)
Inductive number : Type :=
| Int (z : Z)
| NaN
| Other.

Definition maxSafeInteger : Z := 9007199254740991.

Definition number_of_Z (z : Z) : number :=
  if Z.abs z <=? maxSafeInteger then Int z else Other.

(** The number [m * 10 ^ k]. *)
Definition number_of_decimal (m k : Z) : number :=
  if m =? 0 then Int 0
  else if 0 <=? k then number_of_Z (m * 10 ^ k)
  else if m mod 10 ^ (- k) =? 0 then number_of_Z (m / 10 ^ (- k))
  else Other.

Definition number_opp (n : number) : number :=
  match n with Int z => Int (- z) | _ => n end.

(** [Number(s)] on a string, the conversion that arithmetic applies: white
    space at the two ends is dropped; the empty string is [0]; then a
    binary, octal or hexadecimal literal without sign, or a signed decimal
    literal, and [NaN] for everything else.  A string with a character
    outside ASCII is not followed. *)
Definition stringToNumber (s : string) : number :=
  if negb (forallb (fun c => (nat_of_ascii c <? 128)%nat) (list_ascii_of_string s))
  then Other
  else
    let unsigned (literal : string) : number :=
      if String.eqb literal "Infinity" then Other
      else match Str.unsignedDecimal literal with
           | Some (m, k) => number_of_decimal m k
           | None => NaN
           end in
    let radix (r : Z) (ds : string) : number :=
      match Str.numeral r ds with
      | Some z => number_of_Z z
      | None => NaN
      end in
    match Str.trim s with
    | EmptyString => Int 0
    | String "0" (String "x" ds) | String "0" (String "X" ds) => radix 16 ds
    | String "0" (String "o" ds) | String "0" (String "O" ds) => radix 8 ds
    | String "0" (String "b" ds) | String "0" (String "B" ds) => radix 2 ds
    | String "+" literal => unsigned literal
    | String "-" literal => number_opp (unsigned literal)
    | literal => unsigned literal
    end.

(** [Number(v)]. *)
Definition Number (v : jsval) : number :=
  match v with
  | JUndef => NaN
  | JNull => Int 0
  | JBool b => Int (if b then 1 else 0)
  | JNum n => number_of_Z n
  | JStr s => stringToNumber s
  end.

(** The number a request parameter stands for in arithmetic; [None] is
    [NaN].  The model has integers only: where [Number] is [Other] it does
    not follow the code, and what is stated of the limit and the offset of
    a request is stated for the requests of [in_range]. *)
Definition toNumber (v : jsval) : option Z :=
  match Number v with
  | Int z => Some z
  | NaN | Other => None
  end.

(** The requests whose page parameters stay within the numbers of the
    model: both convert to an integer or to [NaN], and the limit and the
    offset computed from them are integers that a double holds exactly. *)
Definition in_range (listReq : jsobj) : bool :=
  let pageSize := prop listReq "pageSize" in
  let pageNo := prop listReq "pageNo" in
  let exact (n : number) := match n with Other => false | _ => true end in
  let safe (n : option Z) :=
    match n with Some z => Z.abs z <=? maxSafeInteger | None => true end in
  exact (Number pageSize) && exact (Number pageNo)
  && safe (parseInt10 pageSize)
  && safe (match toNumber pageSize, toNumber pageNo with
           | Some size, Some no => Some (size * (no - 1))
           | _, _ => None
           end).

(** [dbTables(listReq)]: the paginated listing of the live tables. *)
Definition dbTables (listReq : jsobj) : result jsobj * list jsobj :=
  let pageSize := prop listReq "pageSize" in
  let pageNo := prop listReq "pageNo" in
  let tableName := prop listReq "tableName" in
  let tableComment := prop listReq "tableComment" in
  let limit := parseInt10 pageSize in
  let offset :=
    match toNumber pageSize, toNumber pageNo with
    | Some size, Some no => Some (size * (no - 1))
    | _, _ => None
    end in
  match getDbTablesQuery tableName tableComment limit offset with
  | Err e => (Err e, [])
  | Ok (total, data) =>
      (Ok (object [ ("pageNo", pageNo); ("pageSize", pageSize); ("count", total) ]), data)
  end.

(** The raw queries a call of [dbTables] sends. *)
Definition dbTables_sent (listReq : jsobj) : list (string * list (string * sqlarg)) :=
  let pageSize := prop listReq "pageSize" in
  let pageNo := prop listReq "pageNo" in
  getDbTablesQuery_sent (prop listReq "tableName") (prop listReq "tableComment")
    (parseInt10 pageSize)
    (match toNumber pageSize, toNumber pageNo with
     | Some size, Some no => Some (size * (no - 1))
     | _, _ => None
     end).

(** *** [importTable] *)

(** The inner loop of [importTable]: one record per live column. *)
Fixpoint importColumns (genTableId : jsval) (columns : list jsobj) : M store unit :=
  match columns with
  | [] => ret tt
  | column_j :: rest =>
      do! column <- lift (initColumn now genTableId column_j);
      try_catch (GenTableColumn_create column)
        (fun err => throw (Error ("ImportTable Create column err: " ++ error_toString err))) ;;
      importColumns genTableId rest
  end.

(** The body of the transaction of [importTable]: one table record per
    live table, then its column records. *)
Fixpoint importTables (dbTbs : list jsobj) : M store unit :=
  match dbTbs with
  | [] => ret tt
  | dbTb :: rest =>
      do! genTable <- lift (initTable now dbTb);
      do! result <- try_catch (GenTable_create genTable)
        (fun err => throw (Error ("ImportTable Create table err: " ++ error_toString err)));
      let genTableId := prop result "id" in
      do! columns <- lift (getDbTableColumnsQueryByName (prop dbTb "tableName"));
      importColumns genTableId columns ;;
      importTables rest
  end.

Definition importTable (tableNames : list string) : M store unit :=
  do! dbTbs <- try_catch (lift (getDbTablesQueryByNames tableNames))
                 (fun _ => throw (Error "ImportTable Find tables err"));
  if (length dbTbs =? 0)%nat then throw (Error "表不存在!")
  else
    try_catch (transaction (importTables dbTbs))
      (fun _ => throw (Error "ImportTable Transaction err")).

(** *** [delTable] *)

Definition delTable (ids : list jsval) : M store unit :=
  try_catch
    (transaction
       (GenTable_destroy "id" ids ;;
        GenTableColumn_destroy "tableId" ids))
    (fun _ => throw (Error "DelTable Transaction failed")).

(** *** [syncTable] *)

(** The value of a call of an [async] method that is not awaited: a
    promise object.  What the method resolves to is not reachable through
    the properties of the promise, which has none of its own to begin
    with. *)
Definition promise {A} (settled : result A) : jsobj := ∅.

(** [prevColMap[key] = row]: the key [__proto__] sets the prototype and
    adds no property. *)
Definition assign (key : string) (row : jsobj) (map : gmap string jsobj) : gmap string jsobj :=
  if String.eqb key "__proto__" then map else <[key := row]> map.

(** The loop that fills [prevColMap]. *)
Definition buildPrevColMap (genTableCols : list jsobj) : gmap string jsobj :=
  foldl (fun map row => assign (toString (prop row "columnName")) row map) ∅ genTableCols.

(** [prevColMap.hasOwnProperty(key)]: the method is the inherited one
    unless a stored column is itself called [hasOwnProperty]. *)
Definition hasOwnProperty (map : gmap string jsobj) (key : string) : result bool :=
  match map !! "hasOwnProperty" with
  | Some _ => Err (TypeError "prevColMap.hasOwnProperty is not a function")
  | None => Ok (bool_decide (is_Some (map !! key)))
  end.

(** The record handed to [GenTableColumn.update] for a column present on
    both sides: lines 231 to 241 of the loop. *)
Definition mergeColumn (col prevCol : jsobj) : jsobj :=
  let col := <["id" := prop prevCol "id"]> col in
  let col :=
    if strict_eq (prop col "isList") (JNum 0)
    then <["queryType" := prop prevCol "queryType"]>
           (<["dictType" := prop prevCol "dictType"]> col)
    else col in
  let col :=
    if (strict_eq (prop prevCol "isRequired") (JNum 1)
        && strict_eq (prop prevCol "isPk") (JNum 0)
        && strict_eq (prop prevCol "isInsert") (JNum 1))
       || strict_eq (prop prevCol "isEdit") (JNum 1)
    then <["isRequired" := prop prevCol "isRequired"]>
           (<["htmlType" := prop prevCol "htmlType"]> col)
    else col in
  col.

(** The first loop of the transaction of [syncTable].  [initColumn] is
    called without [await], so [col] is the promise. *)
Fixpoint syncColumns (id : jsval) (prevColMap : gmap string jsobj)
    (columns : list jsobj) : M store unit :=
  match columns with
  | [] => ret tt
  | column_i :: rest =>
      let col := promise (initColumn now id column_i) in
      let key := toString (prop column_i "columnName") in
      do! known <- lift (hasOwnProperty prevColMap key);
      (if known : bool then
         let prevCol := default ∅ (prevColMap !! key) in
         let col := mergeColumn col prevCol in
         GenTableColumn_update col (prop prevCol "id")
       else
         throw (TypeError "col.save is not a function")) ;;
      syncColumns id prevColMap rest
  end.

(** The ids of the stored columns that the live table no longer has. *)
Definition delColIds (prevColMap : gmap string jsobj) (columns : list jsobj) : list jsval :=
  let colNames := map (fun col => prop col "columnName") columns in
  map (fun prevCol => prop prevCol "id")
      (filter (fun prevCol => negb (bool_decide (prop prevCol "columnName" ∈ colNames)))
              (map snd (map_to_list prevColMap))).

Definition syncTable (id : jsval) : M store unit :=
  try_catch
    (do! s <- get_state;
     match findOne (GenTable s) "id" id with
     | None => throw (Error "生成数据不存在！")
     | Some genTable =>
         let genTableCols := findAll (GenTableColumn s) "tableId" id in
         if (length genTableCols <=? 0)%nat then throw (Error "旧数据异常！")
         else
           let prevColMap := buildPrevColMap genTableCols in
           do! columns <- lift (getDbTableColumnsQueryByName (prop genTable "tableName"));
           if (length columns <=? 0)%nat
           then throw (Error "同步结构失败，原表结构不存在！")
           else
             transaction
               (syncColumns id prevColMap columns ;;
                GenTableColumn_destroy "id" (delColIds prevColMap columns))
     end)
    (fun _ => throw (Error "SyncTable Transaction err")).

(** *** Rendering and packaging *)

(** The helpers of [app/util/templateUtil.js], which is not among the
    sources: the variable context, the template identifiers of a
    generation mode, and the rendering of one template. *)
Variable Vars : Type.
Variable prepareVars : jsobj -> list jsobj -> jsobj -> list jsobj -> result Vars.
Variable getTemplatePaths : jsval -> result (list string).
Variable render : string -> Vars -> result string.

(** [res[key] = value] on an object whose keys are read back in
    insertion order. *)
Fixpoint set_entry (key value : string) (res : list (string * string))
    : list (string * string) :=
  match res with
  | [] => [(key, value)]
  | (k, v) :: rest =>
      if String.eqb k key then (k, value) :: rest
      else (k, v) :: set_entry key value rest
  end.

Definition getTablePriCol (columns : list jsobj) : option jsobj :=
  List.find (fun col => strict_eq (prop col "isPk") (JNum 1)) columns.

(** [getSubTableInfo]: [Ok None] is the bare [return]. *)
Definition getSubTableInfo (s : store) (genTable : jsobj)
    : result (option (jsobj * list jsobj)) :=
  if negb (truthy (prop genTable "tableName")) || negb (truthy (prop genTable "subTableFk"))
  then Ok None
  else
    let attempt :=
      match findOne (GenTable s) "tableName" (prop genTable "tableName") with
      | None => Err (Error "子表记录丢失！")
      | Some table =>
          let? cols := getDbTableColumnsQueryByName (prop genTable "tableName") in
          match getTablePriCol cols with
          | None => Err (TypeError "Cannot read properties of undefined (reading 'columnType')")
          | Some priCol =>
              let? pkCol := initColumn now (prop table "id") priCol in
              Ok (Some (pkCol, cols))
          end
      end in
    match attempt with
    | Ok data => Ok data
    | Err err => Err (Error ("getSubTableInfo error: " ++ error_toString err))
    end.

(** The loop of [renderCodeByTable] over the template identifiers. *)
Fixpoint renderAll (vars : Vars) (tplPaths : list string) (res : list (string * string))
    : result (list (string * string)) :=
  match tplPaths with
  | [] => Ok res
  | tplPath :: rest =>
      let? code := render tplPath vars in
      renderAll vars rest (set_entry tplPath code res)
  end.

Definition renderCodeByTable (s : store) (genTable : jsobj)
    : result (list (string * string)) :=
  let columns := findAll (GenTableColumn s) "tableId" (prop genTable "id") in
  let? data := getSubTableInfo s genTable in
  match data with
  | None => Err (TypeError "Cannot read properties of undefined (reading 'pkCol')")
  | Some (pkCol, cols) =>
      let? vars := prepareVars genTable columns pkCol cols in
      let? tplPaths := getTemplatePaths (prop genTable "genTpl") in
      renderAll vars tplPaths []
  end.

Definition previewCode (s : store) (id : jsval) : result (list (string * string)) :=
  match findOne (GenTable s) "id" id with
  | None => Err (Error "记录丢失！")
  | Some genTable =>
      let? tplCodeMap := renderCodeByTable s genTable in
      Ok (foldl (fun res entry => set_entry (Str.replace ".tpl" "" entry.1) entry.2 res)
                [] tplCodeMap)
  end.

Definition fmtMap : list (string * string) :=
  [ ("nodecode/model.js.tpl", "nodecode/%s/model.js");
    ("nodecode/controller.js.tpl", "nodecode/%s/controller.js");
    ("nodecode/service.js.tpl", "nodecode/%s/service.js");
    ("nodecode/route.js.tpl", "nodecode/%s/route.js");
    ("vue/api.ts.tpl", "vue/%s/api.ts");
    ("vue/edit.vue.tpl", "vue/%s/edit.vue");
    ("vue/index.vue.tpl", "vue/%s/index.vue");
    ("vue/index-tree.vue.tpl", "vue/%s/index-tree.vue") ].

Fixpoint lookup_entry (key : string) (entries : list (string * string)) : option string :=
  match entries with
  | [] => None
  | (k, v) :: rest => if String.eqb k key then Some v else lookup_entry key rest
  end.

(** The loop of [getFilePaths]. *)
Fixpoint filePathsOf (tplCodeMap : list (string * string)) (moduleName : jsval)
    (filePath : list (string * string)) : result (list (string * string)) :=
  match tplCodeMap with
  | [] => Ok filePath
  | (tplPath, code) :: rest =>
      match lookup_entry tplPath fmtMap with
      | None => Err (TypeError "Cannot read properties of undefined (reading 'replace')")
      | Some fmt =>
          let file := Str.replace "%s" (toString moduleName) fmt in
          filePathsOf rest moduleName (set_entry file code filePath)
      end
  end.

Definition getFilePaths (tplCodeMap : list (string * string)) (moduleName : jsval)
    : result (list (string * string)) :=
  match filePathsOf tplCodeMap moduleName [] with
  | Ok filePath => Ok filePath
  | Err err => Err (Error ("getFilePaths error: " ++ message err))
  end.

(** [genZip]: a new write stream on [zipPath] and a new archive, holding
    the files of this one table, piped into it.  The state records, by
    path, the archive last piped into a write stream opened on that path:
    what the code asks of the file system.  Whether the stream can be
    opened, and when its bytes are on the disk, is up to the file system:
    the method awaits [archive.finalize()] alone, and neither waits for the
    stream nor sees an error of it. *)
Definition genZip (zipPath : string) (tplCodeMap : list (string * string))
    (moduleName : jsval) : M (gmap string (list (string * string))) unit :=
  fun fs =>
    match getFilePaths tplCodeMap moduleName with
    | Ok filePaths => (Ok tt, <[zipPath := filePaths]> fs)
    | Err err => (Err (Error ("genZip error: " ++ message err)), fs)
    end.

Definition genZipCode (s : store) (zipPath : string) (tableName : jsval)
    : M (gmap string (list (string * string))) unit :=
  try_catch
    (match findLast (GenTable s) "tableName" tableName with
     | None => throw (Error "记录丢失！")
     | Some genTable =>
         do! tplCodeMap <- lift (renderCodeByTable s genTable);
         genZip zipPath tplCodeMap (prop genTable "moduleName")
     end)
    (fun err => throw (Error ("genZipCode error: " ++ message err))).

(** For the statements: the files that a call of [genZipCode] which
    returns packs for the table [tableName]. *)
Definition tableFiles (s : store) (tableName : jsval) : option (list (string * string)) :=
  match findLast (GenTable s) "tableName" tableName with
  | None => None
  | Some genTable =>
      match renderCodeByTable s genTable with
      | Err _ => None
      | Ok tplCodeMap =>
          match getFilePaths tplCodeMap (prop genTable "moduleName") with
          | Ok filePaths => Some filePaths
          | Err _ => None
          end
      end
  end.

(** The loop of [downloadCode]. *)
Fixpoint genZipCodes (s : store) (zipPath : string) (tableNames : list string)
    : M (gmap string (list (string * string))) unit :=
  match tableNames with
  | [] => ret tt
  | tableName :: rest =>
      genZipCode s zipPath (JStr tableName) ;;
      genZipCodes s zipPath rest
  end.

Definition downloadCode (s : store) (zipPath : string) (tableNames : list string)
    : M (gmap string (list (string * string))) string :=
  try_catch
    (genZipCodes s zipPath tableNames ;; ret zipPath)
    (fun err => throw (Error ("DownloadCode error: " ++ message err))).

End Service.

(** ** Predicates used in the statements *)

(** One of the name rules of [namePass] replaces the widget. *)
Definition nameOverride (lowerColName : string) : bool :=
  Str.endsWith "status" lowerColName
  || util.contains [ "is_show"; "is_disable" ] (JStr lowerColName)
  || Str.endsWith "type" lowerColName || Str.endsWith "sex" lowerColName
  || Str.endsWith "image" lowerColName
  || Str.endsWith "file" lowerColName
  || Str.endsWith "content" lowerColName.

(** A word in which the separator does not occur. *)
Definition sep_free (sep : ascii) (w : string) : Prop :=
  forall a b, w <> a ++ String sep b.

(** The records of [s] are still there, in place, in [s']. *)
Definition grows (s s' : store) : Prop :=
  GenTable s `prefix_of` GenTable s' /\ GenTableColumn s `prefix_of` GenTableColumn s'.

(** [row] is the record a [create] leaves for [values]: [values] with an
    [id]. *)
Definition record_of (values row : jsobj) : Prop :=
  row = <["id" := prop row "id"]> values.

(** Every live column of [columns] has its classified record under the
    table [genTableId]. *)
Definition columns_persisted (now : Z) (genTableId : jsval) (columns : list jsobj)
    (s' : store) : Prop :=
  Forall (fun column =>
            exists col row, initColumn now genTableId column = Ok col /\
                            record_of col row /\ row ∈ GenTableColumn s') columns.

(** Every live table of [dbTbs] has its record, and every live column of
    that table its record under the id of the table's record. *)
Definition tables_persisted (now : Z)
    (query : string -> list (string * sqlarg) -> result (list jsobj))
    (dbTbs : list jsobj) (s' : store) : Prop :=
  Forall (fun dbTb =>
            exists genTable row columns,
              initTable now dbTb = Ok genTable /\
              record_of genTable row /\ row ∈ GenTable s' /\
              getDbTableColumnsQueryByName query (prop dbTb "tableName") = Ok columns /\
              columns_persisted now (prop row "id") columns s') dbTbs.

(** Nothing in the live schema stands in the way of the import of
    [dbTbs]: [initTable] returns for every live table, the column query
    returns for it, and [initColumn] returns for every live column. *)
Definition importable (now : Z)
    (query : string -> list (string * sqlarg) -> result (list jsobj))
    (dbTbs : list jsobj) : Prop :=
  Forall (fun dbTb =>
            exists genTable columns,
              initTable now dbTb = Ok genTable /\
              getDbTableColumnsQueryByName query (prop dbTb "tableName") = Ok columns /\
              Forall (fun column =>
                        forall genTableId, exists col,
                          initColumn now genTableId column = Ok col) columns)
         dbTbs.

(** ** A sample schema, store and template set for the examples *)

(** One row of [getDbTableColumnsQueryByName]. *)
Definition liveColumn (name type : string) (isPk isRequired : jsval) (sort : Z) : jsobj :=
  object [ ("columnName", JStr name); ("isRequired", isRequired); ("isPk", isPk);
           ("sort", JNum sort); ("columnComment", JStr ""); ("isIncrement", JStr "0");
           ("columnType", JStr type) ].

(** The two ways a driver can hand over the flags of the column query:
    as the numbers the service compares them with, or as the text the
    [CASE] expressions of the query produce. *)
Definition numeric_flag (b : bool) : jsval := JNum (if b then 1 else 0).
Definition text_flag (b : bool) : jsval := JStr (if b then "1" else "0").

Definition sample_tables : list jsobj :=
  [ object [ ("tableName", JStr "demo_order"); ("tableComment", JStr "订单表") ];
    object [ ("tableName", JStr "la_shop_goods"); ("tableComment", JStr "商品表") ];
    object [ ("tableName", JStr "la_user_tag"); ("tableComment", JStr "标签表") ] ].

Definition sample_columns (flag : bool -> jsval) (tableName : string) : list jsobj :=
  if String.eqb tableName "demo_order" then
    [ liveColumn "id" "int(11)" (flag true) (flag false) 1;
      liveColumn "order_no" "varchar(32)" (flag false) (flag true) 2;
      liveColumn "status" "tinyint(1)" (flag false) (flag true) 3;
      liveColumn "remark" "text" (flag false) (flag false) 4;
      liveColumn "create_time" "datetime" (flag false) (flag true) 5 ]
  else if String.eqb tableName "la_shop_goods" then
    [ liveColumn "id" "int(11)" (flag true) (flag false) 1;
      liveColumn "goods_name" "varchar(64)" (flag false) (flag true) 2;
      liveColumn "content" "text" (flag false) (flag false) 3 ]
  else if String.eqb tableName "la_user_tag" then
    [ liveColumn "id" "int(11)" (flag true) (flag false) 1;
      liveColumn "title" "varchar(32)" (flag false) (flag true) 2 ]
  else [].

(** A live schema answering the two parameterised queries. *)
Definition sample_query (flag : bool -> jsval) (text : string)
    (args : list (string * sqlarg)) : result (list jsobj) :=
  match args with
  | [ (_, SqlList names) ] =>
      Ok (filter (fun t => bool_decide (toString (prop t "tableName") ∈ names)) sample_tables)
  | [ (_, SqlVal (JStr name)) ] => Ok (sample_columns flag name)
  | _ => Ok []
  end.

(** A database that refuses nothing. *)
Definition accept_all (s : store) (w : write) : bool := false.

(** A database that refuses the records of the column [remark]. *)
Definition refuse_remark (s : store) (w : write) : bool :=
  match w with
  | Create _ values => bool_decide (prop values "columnName" = JStr "remark")
  | _ => false
  end.

Definition empty_store : store :=
  {| GenTable := []; GenTableColumn := []; nextTableId := 1; nextColumnId := 1 |}.

(** The stored record of the column [content] of [la_shop_goods], with a
    widget, a dictionary and an operator set by hand. *)
Definition stored_content : jsobj :=
  object [ ("id", JNum 11); ("tableId", JNum 1); ("columnName", JStr "content");
           ("columnType", JStr "varchar"); ("htmlType", JStr "select");
           ("dictType", JStr "content_kind"); ("queryType", JStr "LIKE");
           ("sort", JNum 3); ("isPk", JNum 0); ("isRequired", JNum 1);
           ("isInsert", JNum 1); ("isEdit", JNum 1); ("isList", JNum 0);
           ("isQuery", JNum 1) ].

Definition live_content : jsobj :=
  liveColumn "content" "text" (JStr "0") (JStr "0") 3.

(** The record [syncTable] hands to [GenTableColumn.update] for
    [content]. *)
Definition merged_content : jsobj :=
  object [ ("id", JNum 11); ("htmlType", JStr "select"); ("isRequired", JNum 1) ].

Definition flat_note : jsobj :=
  object [ ("id", JNum 3); ("tableName", JStr "la_flat_note");
           ("entityName", JStr "flatNote"); ("moduleName", JStr "note");
           ("genTpl", JStr "crud") ].

Definition sample_store : store :=
  {| GenTable :=
       [ object [ ("id", JNum 1); ("tableName", JStr "la_shop_goods");
                  ("entityName", JStr "shopGoods"); ("moduleName", JStr "goods");
                  ("genTpl", JStr "tree"); ("subTableFk", JStr "goods_id") ];
         object [ ("id", JNum 2); ("tableName", JStr "la_user_tag");
                  ("entityName", JStr "userTag"); ("moduleName", JStr "tag");
                  ("genTpl", JStr "tree"); ("subTableFk", JStr "tag_id") ];
         flat_note ];
     GenTableColumn :=
       [ object [ ("id", JNum 9); ("tableId", JNum 1); ("columnName", JStr "id");
                  ("columnType", JStr "int"); ("htmlType", JStr "input");
                  ("queryType", JStr "="); ("sort", JNum 1); ("isPk", JNum 1);
                  ("isRequired", JNum 0); ("isInsert", JNum 0); ("isEdit", JNum 1);
                  ("isList", JNum 0); ("isQuery", JNum 0) ];
         object [ ("id", JNum 10); ("tableId", JNum 1); ("columnName", JStr "goods_name");
                  ("columnType", JStr "varchar"); ("htmlType", JStr "input");
                  ("queryType", JStr "LIKE"); ("sort", JNum 2); ("isPk", JNum 0);
                  ("isRequired", JNum 1); ("isInsert", JNum 1); ("isEdit", JNum 1);
                  ("isList", JNum 1); ("isQuery", JNum 1) ];
         stored_content ];
     nextTableId := 4;
     nextColumnId := 12 |}.

(** A template set of two templates whose rendering names the entity. *)
Definition sample_prepareVars (genTable : jsobj) (columns : list jsobj) (pkCol : jsobj)
    (cols : list jsobj) : result jsobj := Ok genTable.
Definition sample_getTemplatePaths (genTpl : jsval) : result (list string) :=
  Ok [ "nodecode/model.js.tpl"; "vue/api.ts.tpl" ].
Definition sample_render (tplPath : string) (vars : jsobj) : result string :=
  Ok (tplPath ++ " of " ++ toString (prop vars "entityName")).

(** The path the controller passes to [downloadCode]. *)
Definition zipPath : string := "app/public/downloads/file.zip".

(** A table-name filter that closes the quoted pattern it is spliced
    into. *)
Definition injected_filter : string := "%" ++ dq ++ ") OR (" ++ dq ++ dq ++ "=" ++ dq.

Definition listing_request : jsobj :=
  object [ ("pageNo", JStr "1"); ("pageSize", JStr "10");
           ("tableName", JStr injected_filter); ("tableComment", JStr injected_filter) ].

(** ** The listing of the imported tables, [list] of [GenService] *)

(** A condition of a [where] clause on one property. *)
Inductive condition : Type :=
| OpLike (pattern : string)
| OpGte (bound : jsval)
| OpLte (bound : jsval).

(** The [whereClause] that [list] builds from the request. *)
Definition listWhere (listReq : jsobj) : gmap string condition :=
  let tableName := prop listReq "tableName" in
  let tableComment := prop listReq "tableComment" in
  let startTime := prop listReq "startTime" in
  let endTime := prop listReq "endTime" in
  let whereClause : gmap string condition := ∅ in
  let whereClause :=
    if truthy tableName
    then <["tableName" := OpLike ("%" ++ toString tableName ++ "%")]> whereClause
    else whereClause in
  let whereClause :=
    if truthy tableComment
    then <["tableComment" := OpLike ("%" ++ toString tableComment ++ "%")]> whereClause
    else whereClause in
  let whereClause :=
    if truthy startTime then <["createTime" := OpGte startTime]> whereClause
    else whereClause in
  let whereClause :=
    if truthy endTime then <["createTime" := OpLte endTime]> whereClause
    else whereClause in
  whereClause.

Section Listing.

(** [GenTable.findAndCountAll({ where, limit, offset })]: the count and the
    page of records. *)
Variable findAndCountAll :
  gmap string condition -> option Z -> option Z -> result (jsval * list jsobj).

(** [list(listReq)]: the page object and its [lists]. *)
Definition GenService_list (listReq : jsobj) : result (jsobj * list jsobj) :=
  let pageSize := prop listReq "pageSize" in
  let pageNo := prop listReq "pageNo" in
  let limit := parseInt10 pageSize in
  let offset :=
    match toNumber pageSize, toNumber pageNo with
    | Some size, Some no => Some (size * (no - 1))
    | _, _ => None
    end in
  match findAndCountAll (listWhere listReq) limit offset with
  | Ok (count, genResp) =>
      Ok (object [ ("pageNo", pageNo); ("pageSize", pageSize); ("count", count) ], genResp)
  | Err err => Err (Error ("GenService.list error: " ++ error_toString err))
  end.

End Listing.

(** ** The response of a controller *)

(** The [data] of a uniform response: the empty string, or the map of a
    code preview. *)
Inductive payload : Type :=
| NoData
| CodeData (files : list (string * string)).

(** What an action assigns to [ctx.body]: the uniform object, a text, or
    a read stream on the file at a path.  What the stream yields is what
    the disk holds at that path when it is read, if anything. *)
Inductive body : Type :=
| JsonBody (code : jsval) (data : payload) (message : jsval)
| TextBody (text : string)
| FileBody (path : string).

(** The response as the actions assign it: [ctx.status], [ctx.body] and
    the headers set with [ctx.set].  What the framework derives from these
    assignments is not part of it. *)
Record response : Type := {
  status : jsval;
  responseBody : option body;
  headers : list (string * string)
}.

Definition empty_response : response :=
  {| status := JUndef; responseBody := None; headers := [] |}.

(** A destructuring default: [d] stands for an [undefined] property. *)
Definition or_default (v d : jsval) : jsval :=
  if strict_eq v JUndef then d else v.

(** [result({ code, data, message, status })] of [baseController]; [data]
    is given apart from the three primitive options. *)
Definition baseController_result (options : jsobj) (data : payload) (ctx : response)
    : response :=
  let code := or_default (prop options "code") (JNum 200) in
  let message := or_default (prop options "message") (JStr "请求成功") in
  let status := or_default (prop options "status") (JNum 200) in
  let message :=
    if negb (strict_eq code (JNum 200))
    then (if strict_eq message (JStr "请求成功") then JStr "请求失败" else message)
    else message in
  {| status := status;
     responseBody := Some (JsonBody code data message);
     headers := headers ctx |}.

(** The [catch] block of every method of [GenController]. *)
Definition internal_error (ctx : response) : response :=
  {| status := JNum 500;
     responseBody := Some (TextBody "Internal Server Error");
     headers := headers ctx |}.

Section GenController.

Variable now : Z.
Variable query : string -> list (string * sqlarg) -> result (list jsobj).
Variable refused : store -> write -> bool.
Variable Vars : Type.
Variable prepareVars : jsobj -> list jsobj -> jsobj -> list jsobj -> result Vars.
Variable getTemplatePaths : jsval -> result (list string).
Variable render : string -> Vars -> result string.

(** [GenController.delTable]: [ids] is the property of the request
    body. *)
Definition controller_delTable (ids : list jsval) (ctx : response) (s : store)
    : response * store :=
  match delTable refused ids s with
  | (Ok _, s') => (baseController_result ∅ NoData ctx, s')
  | (Err _, s') => (internal_error ctx, s')
  end.

(** [GenController.syncTable]: [id] is the property of the query. *)
Definition controller_syncTable (id : jsval) (ctx : response) (s : store)
    : response * store :=
  match syncTable now query refused id s with
  | (Ok _, s') => (baseController_result ∅ NoData ctx, s')
  | (Err _, s') => (internal_error ctx, s')
  end.

(** [GenController.previewCode]. *)
Definition controller_previewCode (id : jsval) (ctx : response) (s : store) : response :=
  match previewCode now query Vars prepareVars getTemplatePaths render s id with
  | Ok res => baseController_result ∅ (CodeData res) ctx
  | Err _ => internal_error ctx
  end.

(** [ctx.set(name, value)]. *)
Definition set_header (name value : string) (ctx : response) : response :=
  {| status := status ctx; responseBody := responseBody ctx;
     headers := set_entry name value (headers ctx) |}.

(** [GenController.downloadCode]: [tables] is the property of the query;
    the archive is piped to a write stream on one fixed path, and the body
    is a read stream on that path. *)
Definition controller_downloadCode (tables : jsval) (ctx : response) (s : store)
    (fs : gmap string (list (string * string)))
    : response * gmap string (list (string * string)) :=
  match as_string tables with
  | Err _ => (internal_error ctx, fs)
  | Ok tables =>
      let tablesList := Str.split "," tables in
      let zipPath := "app/public/downloads/file.zip" in
      match downloadCode now query Vars prepareVars getTemplatePaths render
              s zipPath tablesList fs with
      | (Ok _, fs') =>
          let ctx := set_header "Content-Type" "application/zip" ctx in
          let ctx := set_header "Content-Disposition"
                       "attachment; filename=likeadmin-gen.zip" ctx in
          ({| status := status ctx;
              responseBody := Some (FileBody zipPath);
              headers := headers ctx |}, fs')
      | (Err _, fs') => (internal_error ctx, fs')
      end
  end.

End GenController.

(** ** [listToTree] of [app/util/index.js] *)

(** The objects of the array are taken by their position: the children of
    an object are the positions of the objects pushed onto its [child]
    property, [None] while that property is [null] or [undefined].  The
    array holds distinct objects, and their [child] arrays are not
    shared. *)
Record treeNode : Type := {
  fields : jsobj;
  children : option (list nat)
}.

(** [idValMap.set(key, value)]. *)
Fixpoint map_set (key : jsval) (value : nat) (m : list (jsval * nat)) : list (jsval * nat) :=
  match m with
  | [] => [(key, value)]
  | (k, v) :: rest =>
      if strict_eq k key then (k, value) :: rest else (k, v) :: map_set key value rest
  end.

(** [idValMap.get(key)]. *)
Fixpoint map_get (key : jsval) (m : list (jsval * nat)) : option nat :=
  match m with
  | [] => None
  | (k, v) :: rest => if strict_eq k key then Some v else map_get key rest
  end.

(** The first loop of [listToTree]. *)
Definition buildIdValMap (id : string) (arr : list treeNode) : list (jsval * nat) :=
  foldl (fun idValMap item =>
           if truthy (prop (fields item.2) id)
           then map_set (prop (fields item.2) id) item.1 idValMap
           else idValMap)
        [] (zip (seq 0 (length arr)) arr).

(** One turn of the second loop, on the objects as they are by now and
    the roots collected so far. *)
Definition attach (pid : string) (idValMap : list (jsval * nat))
    (state : list treeNode * list nat) (item : nat * treeNode) : list treeNode * list nat :=
  let '(objects, mapList) := state in
  let '(i, m) := item in
  if truthy (prop (fields m) pid) then
    match map_get (prop (fields m) pid) idValMap with
    | Some p =>
        match objects !! p with
        | Some pNode =>
            let cVal := match children pNode with
                        | None => [i]
                        | Some cVal => (cVal ++ [i])%list
                        end in
            (<[p := {| fields := fields pNode; children := Some cVal |}]> objects, mapList)
        | None => (objects, mapList)
        end
    | None => (objects, (mapList ++ [i])%list)
    end
  else (objects, (mapList ++ [i])%list).

(** [listToTree(arr, id, pid, child)]: the positions of the roots, and the
    objects with their children. *)
Definition listToTree (arr : list treeNode) (id pid : string) : list nat * list treeNode :=
  let idValMap := buildIdValMap id arr in
  let '(objects, mapList) :=
    foldl (attach pid idValMap) (arr, []) (zip (seq 0 (length arr)) arr) in
  (mapList, objects).

(** The children of an object as a list. *)
Definition childList (node : treeNode) : list nat := default [] (children node).

Definition sample_menu : list treeNode :=
  [ {| fields := object [ ("id", JNum 1); ("pid", JNum 0); ("name", JStr "system") ];
       children := None |};
    {| fields := object [ ("id", JNum 2); ("pid", JNum 1); ("name", JStr "admin") ];
       children := None |};
    {| fields := object [ ("id", JNum 3); ("pid", JNum 1); ("name", JStr "role") ];
       children := None |};
    {| fields := object [ ("id", JNum 4); ("pid", JNum 9); ("name", JStr "orphan") ];
       children := None |};
    {| fields := object [ ("id", JNum 5); ("pid", JNum 2); ("name", JStr "add") ];
       children := None |} ].

(** For the statements: the position [idValMap] gives for the [pid] of an
    object, when the second loop looks it up. *)
Definition parentIndex (pid : string) (idValMap : list (jsval * nat)) (m : treeNode)
    : option nat :=
  if truthy (prop (fields m) pid) then map_get (prop (fields m) pid) idValMap else None.

(** * Properties *)

(** ** Reading properties of objects *)

Lemma prop_insert (o : jsobj) (k : string) (v : jsval) (k' : string) :
  prop (<[k := v]> o) k' = if String.eqb k k' then v else prop o k'.
Proof.
  unfold prop. destruct (String.eqb_spec k k') as [->|Hne].
  - by rewrite lookup_insert_eq.
  - by rewrite lookup_insert_ne.
Qed.

Lemma prop_object_cons k v l k' :
  prop (object ((k, v) :: l)) k' = if String.eqb k k' then v else prop (object l) k'.
Proof. unfold object. cbn [list_to_map foldr]. simpl. apply prop_insert. Qed.

Lemma prop_object_nil k : prop (object []) k = JUndef.
Proof. reflexivity. Qed.

Lemma prop_if (b : bool) (x y : jsobj) k :
  prop (if b then x else y) k = if b then prop x k else prop y k.
Proof. by destruct b. Qed.

(** A guarded assignment to [k] is not seen through another property. *)
Lemma prop_when (b : bool) k v (col : jsobj) k' :
  String.eqb k k' = false -> prop (if b then <[k := v]> col else col) k' = prop col k'.
Proof. intros H. destruct b; [rewrite prop_insert, H|]; reflexivity. Qed.

Lemma prop_when2 (b : bool) k1 v1 k2 v2 (col : jsobj) k' :
  String.eqb k1 k' = false -> String.eqb k2 k' = false ->
  prop (if b then <[k1 := v1]> (<[k2 := v2]> col) else col) k' = prop col k'.
Proof. intros H1 H2. destruct b; [rewrite !prop_insert, H1, H2|]; reflexivity. Qed.

Ltac prop_simpl :=
  repeat (rewrite ?prop_if, ?prop_insert, ?prop_object_cons, ?prop_object_nil;
          cbn [String.eqb Ascii.eqb Bool.eqb]).

Lemma contains_elem_of (src : list string) (s : string) :
  util.contains src (JStr s) = true <-> s ∈ src.
Proof. unfold util.contains. by rewrite bool_decide_eq_true. Qed.

Lemma contains_not_elem_of (src : list string) (s : string) :
  util.contains src (JStr s) = false <-> s ∉ src.
Proof. unfold util.contains. by rewrite bool_decide_eq_false. Qed.

(** ** Strings *)

Lemma str_app_cons c (a b : string) : String c a ++ b = String c (a ++ b).
Proof. reflexivity. Qed.

Lemma str_app_nil_l (a : string) : "" ++ a = a.
Proof. reflexivity. Qed.

Lemma str_app_nil_r (a : string) : a ++ "" = a.
Proof. induction a as [|c a IH]; [reflexivity|]. by rewrite str_app_cons, IH. Qed.

Lemma str_app_assoc (a b c : string) : (a ++ b) ++ c = a ++ (b ++ c).
Proof. induction a as [|x a IH]; [reflexivity|]. by rewrite !str_app_cons, IH. Qed.

Lemma str_length_app (a b : string) :
  String.length (a ++ b) = (String.length a + String.length b)%nat.
Proof.
  induction a as [|c a IH]; [reflexivity|].
  rewrite str_app_cons. cbn [String.length]. by rewrite IH.
Qed.

Lemma substring_all s : String.substring 0 (String.length s) s = s.
Proof. induction s as [|c s IH]; [reflexivity|]. cbn. by rewrite IH. Qed.

Lemma substring_app_r pre suf :
  String.substring (String.length pre) (String.length suf) (pre ++ suf) = suf.
Proof.
  induction pre as [|c pre IH]; [apply substring_all|].
  rewrite str_app_cons. exact IH.
Qed.

Lemma substring_split n s :
  (n <= String.length s)%nat ->
  s = String.substring 0 n s ++ String.substring n (String.length s - n) s.
Proof.
  revert s. induction n as [|n IH]; intros s Hle.
  - cbn. rewrite Nat.sub_0_r, substring_all. by destruct s.
  - destruct s as [|c s]; [cbn in Hle; lia|].
    cbn in *. rewrite str_app_cons. f_equal. apply IH. lia.
Qed.

(** [endsWith] is the suffix test. *)
Lemma endsWith_spec suf s :
  Str.endsWith suf s = true <-> exists pre, s = pre ++ suf.
Proof.
  unfold Str.endsWith, Str.slice. split.
  - intros H. apply andb_prop in H as [Hle Heq].
    apply Nat.leb_le in Hle. apply String.eqb_eq in Heq.
    exists (String.substring 0 (String.length s - String.length suf) s).
    pose proof (substring_split (String.length s - String.length suf) s) as Hs.
    rewrite Heq in Hs. apply Hs. lia.
  - intros [pre ->]. rewrite str_length_app. apply andb_true_intro. split.
    + apply Nat.leb_le. lia.
    + apply String.eqb_eq.
      replace (String.length pre + String.length suf - String.length suf)%nat
        with (String.length pre) by lia.
      replace (String.length pre + String.length suf - String.length pre)%nat
        with (String.length suf) by lia.
      apply substring_app_r.
Qed.

Lemma split_nonempty sep s : Str.split sep s <> [].
Proof.
  destruct s as [|c s]; cbn; [discriminate|].
  destruct (Ascii.eqb c sep); [discriminate|].
  destruct (Str.split sep s); discriminate.
Qed.

Lemma split_sep_free sep s : Forall (sep_free sep) (Str.split sep s).
Proof.
  induction s as [|c s IH]; cbn.
  - constructor; [|constructor]. intros [|x a] b; discriminate.
  - destruct (Ascii.eqb_spec c sep) as [->|Hne].
    + constructor; [|exact IH]. intros [|x a] b; discriminate.
    + destruct (Str.split sep s) as [|w ws] eqn:Hs.
      * by destruct (split_nonempty sep s).
      * inversion IH as [|? ? Hw Hws]; subst. constructor; [|exact Hws].
        intros [|x a] b Heq.
        -- rewrite str_app_nil_l in Heq. congruence.
        -- rewrite str_app_cons in Heq. injection Heq as -> Heq. by apply (Hw a b).
Qed.

(** Joining the words of a split with the separator gives the string
    back. *)
Lemma split_concat sep s :
  String.concat (String sep "") (Str.split sep s) = s.
Proof.
  induction s as [|c s IH]; [reflexivity|]. cbn [Str.split].
  destruct (Ascii.eqb_spec c sep) as [->|Hne].
  - destruct (Str.split sep s) as [|w ws] eqn:Hs; [by destruct (split_nonempty sep s)|].
    cbn [String.concat]. cbn [String.concat] in IH. by rewrite <- IH.
  - destruct (Str.split sep s) as [|w ws] eqn:Hs; [by destruct (split_nonempty sep s)|].
    rewrite <- IH. destruct ws; reflexivity.
Qed.

Lemma concat_last sep (ws : list string) :
  ws <> [] ->
  String.concat sep ws = List.last ws "" \/
  exists pre, String.concat sep ws = pre ++ sep ++ List.last ws "".
Proof.
  induction ws as [|w ws IH]; [done|]. intros _.
  destruct ws as [|w' ws]; [by left|]. right.
  destruct IH as [IH|[pre IH]]; [done| |].
  - exists w. cbn [String.concat] in *. rewrite IH. reflexivity.
  - exists (w ++ sep ++ pre). cbn [String.concat] in *. rewrite IH.
    change (List.last (w :: w' :: ws) "") with (List.last (w' :: ws) "").
    by rewrite !str_app_assoc.
Qed.

Lemma join_cons w ws : Str.join (w :: ws) = w ++ Str.join ws.
Proof.
  unfold Str.join. destruct ws; cbn [String.concat]; [by rewrite str_app_nil_r|reflexivity].
Qed.

(** ** [util.toCamelCase], [util.toPascalCase] and [toModuleName] *)

Lemma capitalize_all_ok ws ws' :
  util.capitalize_all ws = Ok ws' ->
  ws' = map util.capitalize ws /\ Forall (fun w => w <> "") ws.
Proof.
  revert ws'. induction ws as [|w ws IH]; intros ws' H; cbn in H.
  - injection H as <-. by split.
  - destruct w as [|c w]; [discriminate|]. cbn in H.
    destruct (util.capitalize_all ws) as [r|e]; [|discriminate]. cbn in H.
    injection H as <-. destruct (IH r eq_refl) as [-> HF]. split; [reflexivity|].
    constructor; [discriminate|exact HF].
Qed.

(** Where [toPascalCase] is defined it is [toCamelCase] with the first
    letter in upper case. *)
Lemma pascal_of_camel x p :
  util.toPascalCase x = Ok p -> p = util.capitalize (util.toCamelCase x).
Proof.
  unfold util.toPascalCase, util.toCamelCase. intros H.
  destruct (Str.split "_" x) as [|w ws] eqn:Hs; [by destruct (split_nonempty "_" x)|].
  destruct (util.capitalize_all (w :: ws)) as [r|e] eqn:Hc; [|discriminate].
  cbn in H. injection H as <-.
  apply capitalize_all_ok in Hc as [-> HF]. inversion HF as [|? ? Hw _]; subst.
  cbn [map]. rewrite !join_cons. destruct w as [|c w]; [done|]. reflexivity.
Qed.

(** The module name is the part of the table name after its last
    underscore, the whole name when it has none. *)
Lemma toModuleName_spec name :
  (name = toModuleName name \/ exists pre, name = pre ++ "_" ++ toModuleName name)
  /\ sep_free "_" (toModuleName name).
Proof.
  unfold toModuleName. cbv zeta. split.
  - pose proof (concat_last "_" _ (split_nonempty "_" name)) as H.
    rewrite split_concat in H. exact H.
  - pose proof (split_sep_free "_" name) as HF.
    pose proof (split_nonempty "_" name) as Hne.
    induction HF as [|w ws Hw HF IH]; [done|].
    destruct ws as [|w' ws]; [exact Hw|]. apply IH. discriminate.
Qed.

(** ** The column classifier *)

Section ClassifierFacts.

Variable now : Z.

Lemma baseColumn_columnName tableId column ct len :
  prop (baseColumn now tableId column ct len) "columnName" = prop column "columnName".
Proof. unfold baseColumn. prop_simpl. reflexivity. Qed.

(** [typePass] only writes the widget and the logical type. *)
Lemma typePass_other ct len col k :
  String.eqb "htmlType" k = false -> String.eqb "javaType" k = false ->
  prop (typePass ct len col) k = prop col k.
Proof.
  intros Hh Hj. unfold typePass.
  repeat (rewrite ?prop_if, ?prop_insert, ?Hh, ?Hj).
  repeat match goal with |- context [if ?b then _ else _] => destruct b end; reflexivity.
Qed.

(** [flagPass] only writes the requiredness and the visibility flags. *)
Lemma flagPass_other col k :
  String.eqb "isRequired" k = false -> String.eqb "isInsert" k = false ->
  String.eqb "isEdit" k = false -> String.eqb "isList" k = false ->
  String.eqb "isQuery" k = false ->
  prop (flagPass col) k = prop col k.
Proof.
  intros H1 H2 H3 H4 H5. unfold flagPass. cbv zeta.
  rewrite (prop_when _ _ _ _ _ H5), (prop_when _ _ _ _ _ H4),
    (prop_when2 _ _ _ _ _ _ _ H1 H3), (prop_when _ _ _ _ _ H2), (prop_when _ _ _ _ _ H1).
  reflexivity.
Qed.

(** [namePass] only writes the operator and the widget. *)
Lemma namePass_other lowerColName col k :
  String.eqb "queryType" k = false -> String.eqb "htmlType" k = false ->
  prop (namePass lowerColName col) k = prop col k.
Proof.
  intros H1 H2. unfold namePass. cbv zeta.
  repeat (rewrite ?prop_if, ?prop_insert, ?H1, ?H2).
  repeat match goal with |- context [if ?b then _ else _] => destruct b end; reflexivity.
Qed.

(** On a row with a textual type and a textual name [initColumn] returns,
    and its result is the composition of the four passes. *)
Lemma initColumn_ok tableId column raw name :
  prop column "columnType" = JStr raw ->
  prop column "columnName" = JStr name ->
  initColumn now tableId column =
  Ok (namePass (Str.toLowerCase name)
        (flagPass (typePass (getDbType raw) (getColumnLength raw)
           (baseColumn now tableId column (getDbType raw) (getColumnLength raw))))).
Proof.
  intros Ht Hn. unfold initColumn. rewrite Ht. cbn [as_string bind].
  rewrite flagPass_other, typePass_other, baseColumn_columnName, Hn by reflexivity.
  reflexivity.
Qed.

Lemma namePass_queryType lowerColName col :
  prop (namePass lowerColName col) "queryType" =
  if Str.endsWith "name" lowerColName
     || bool_decide (lowerColName = "title") || bool_decide (lowerColName = "mobile")
  then JStr "LIKE" else prop col "queryType".
Proof.
  unfold namePass. cbv zeta.
  assert (Hc : util.contains ["title"; "mobile"] (JStr lowerColName)
               = bool_decide (lowerColName = "title") || bool_decide (lowerColName = "mobile")).
  { unfold util.contains. rewrite <- bool_decide_or. apply bool_decide_ext. split.
    - intros H. apply elem_of_cons in H as [H|H]; [by left|].
      apply elem_of_cons in H as [H|H]; [by right|]. by apply elem_of_nil in H.
    - intros [->| ->]; [apply list_elem_of_here|apply list_elem_of_further, list_elem_of_here]. }
  rewrite Hc, orb_assoc.
  destruct (Str.endsWith "name" lowerColName || bool_decide (lowerColName = "title")
            || bool_decide (lowerColName = "mobile")).
  all: repeat (rewrite ?prop_if, ?prop_insert; cbn [String.eqb Ascii.eqb Bool.eqb]).
  all: repeat match goal with |- context [if ?b then _ else _] => destruct b end; reflexivity.
Qed.

Lemma namePass_htmlType_kept lowerColName col :
  nameOverride lowerColName = false ->
  prop (namePass lowerColName col) "htmlType" = prop col "htmlType".
Proof.
  unfold nameOverride, namePass. intros H. cbv zeta.
  repeat (apply orb_false_elim in H; destruct H as [H ?]).
  repeat match goal with H : _ = false |- _ => rewrite H; clear H end.
  cbn [orb]. rewrite prop_when by reflexivity. reflexivity.
Qed.

Lemma javaType_after_typePass ct len col lowerColName :
  prop (namePass lowerColName (flagPass (typePass ct len col))) "javaType"
  = prop (typePass ct len col) "javaType".
Proof. rewrite namePass_other, flagPass_other by reflexivity. reflexivity. Qed.

Lemma number_type_no_comma ct :
  ct ∈ sqlConstants.columnTypeNumber -> Str.includes "," ct = false.
Proof.
  intros Hin. unfold sqlConstants.columnTypeNumber in Hin.
  repeat (apply elem_of_cons in Hin as [->|Hin]; [reflexivity|]). by apply elem_of_nil in Hin.
Qed.

Lemma number_type_not_textual ct :
  ct ∈ sqlConstants.columnTypeNumber ->
  util.contains (sqlConstants.columnTypeStr ++ sqlConstants.columnTypeText) (JStr ct) = false
  /\ util.contains sqlConstants.columnTypeTime (JStr ct) = false.
Proof.
  intros Hin. unfold sqlConstants.columnTypeNumber in Hin.
  repeat (apply elem_of_cons in Hin as [->|Hin]; [split; reflexivity|]).
  by apply elem_of_nil in Hin.
Qed.

(** The flag [isList] of a classified column is never a number:
    [flagPass] assigns it [genConstants.require], which is not declared. *)
Lemma flagPass_isList col :
  prop col "isList" = JUndef -> prop (flagPass col) "isList" = JUndef.
Proof.
  intros H. unfold flagPass. cbv zeta. rewrite prop_when by reflexivity.
  match goal with |- prop (if ?b then _ else _) _ = _ => destruct b end.
  - rewrite prop_insert. reflexivity.
  - rewrite prop_when2, !prop_when by reflexivity. exact H.
Qed.

Lemma initColumn_isList tableId column col :
  initColumn now tableId column = Ok col -> prop col "isList" = JUndef.
Proof.
  unfold initColumn. destruct (as_string (prop column "columnType")) as [raw|]; [|discriminate].
  cbn [bind]. destruct (as_string _) as [name|]; [|discriminate]. cbn [bind].
  intros [= <-]. rewrite namePass_other by reflexivity. apply flagPass_isList.
  rewrite typePass_other by reflexivity. reflexivity.
Qed.

(** C4 (amended).  For a column named [create_time], [update_time] or
    [delete_time] the classifier assigns the logical type date
    ([core.TsTime]) and the widget [datetime] for every raw SQL type whose
    base type is outside the character and text families; inside these
    families the type rule comes first and the column is a string with the
    widget [input] or [textarea]. *)
Theorem audit_time_columns tableId column name raw :
  prop column "columnName" = JStr name ->
  name ∈ ["create_time"; "update_time"; "delete_time"] ->
  prop column "columnType" = JStr raw ->
  exists col,
    initColumn now tableId column = Ok col /\
    if util.contains (sqlConstants.columnTypeStr ++ sqlConstants.columnTypeText)
                     (JStr (getDbType raw))
    then prop col "javaType" = JStr "string" /\
         prop col "htmlType" =
           (if (500 <=? getColumnLength raw)
               || util.contains sqlConstants.columnTypeText (JStr (getDbType raw))
            then JStr "textarea" else JStr "input")
    else prop col "javaType" = JStr "core.TsTime" /\
         prop col "htmlType" = JStr "datetime".
Proof.
  intros Hn Hin Ht. eexists. split; [exact (initColumn_ok _ _ _ _ Ht Hn)|].
  rewrite javaType_after_typePass.
  assert (Hov : nameOverride (Str.toLowerCase name) = false).
  { repeat (apply elem_of_cons in Hin as [->|Hin]; [reflexivity|]). by apply elem_of_nil in Hin. }
  rewrite (namePass_htmlType_kept _ _ Hov), flagPass_other by reflexivity.
  assert (Htn : util.contains sqlConstants.columnTimeName (JStr name) = true).
  { repeat (apply elem_of_cons in Hin as [->|Hin]; [reflexivity|]). by apply elem_of_nil in Hin. }
  unfold typePass. rewrite baseColumn_columnName, Hn, Htn.
  destruct (util.contains (_ ++ _) _).
  - destruct (_ || _); prop_simpl; split; reflexivity.
  - destruct (util.contains sqlConstants.columnTypeTime _); prop_simpl; split; reflexivity.
Qed.

(** C5 (amended).  For a column whose base type is in the numeric family
    and whose name is not one of the temporal names, the classifier
    assigns the widget [input] unless one of the name rules replaces the
    widget, and the logical type [int] when the raw declaration has no
    scale component. *)
Theorem numeric_columns tableId column name raw :
  prop column "columnName" = JStr name ->
  prop column "columnType" = JStr raw ->
  getDbType raw ∈ sqlConstants.columnTypeNumber ->
  name ∉ sqlConstants.columnTimeName ->
  exists col,
    initColumn now tableId column = Ok col /\
    (nameOverride (Str.toLowerCase name) = false -> prop col "htmlType" = JStr "input") /\
    (Str.includes "," raw = false -> prop col "javaType" = JStr "int").
Proof.
  intros Hn Ht Hnum Htime. eexists. split; [exact (initColumn_ok _ _ _ _ Ht Hn)|].
  rewrite javaType_after_typePass.
  destruct (number_type_not_textual _ Hnum) as [Hs Hd].
  apply contains_not_elem_of in Htime. apply contains_elem_of in Hnum as Hnum'.
  assert (Htp : forall k, prop (typePass (getDbType raw) (getColumnLength raw)
                     (baseColumn now tableId column (getDbType raw) (getColumnLength raw))) k
              = prop (<["javaType" := JStr "int"]> (<["htmlType" := JStr "input"]>
                     (baseColumn now tableId column (getDbType raw) (getColumnLength raw)))) k).
  { intros k. unfold typePass.
    rewrite Hs, Hd, baseColumn_columnName, Hn, Htime, Hnum', (number_type_no_comma _ Hnum).
    reflexivity. }
  split.
  - intros Hov. rewrite (namePass_htmlType_kept _ _ Hov), flagPass_other, Htp by reflexivity.
    prop_simpl. reflexivity.
  - intros _. rewrite Htp. prop_simpl. reflexivity.
Qed.

(** C6 (amended).  The classifier assigns the operator [LIKE] exactly
    when the lower-cased column name ends with [name] or is [title] or
    [mobile]; every other column gets [=]. *)
Theorem queryType_by_name tableId column name raw :
  prop column "columnName" = JStr name ->
  prop column "columnType" = JStr raw ->
  exists col,
    initColumn now tableId column = Ok col /\
    (prop col "queryType" = JStr "LIKE" \/ prop col "queryType" = JStr "=") /\
    (prop col "queryType" = JStr "LIKE" <->
     (exists pre, Str.toLowerCase name = pre ++ "name")
     \/ Str.toLowerCase name = "title" \/ Str.toLowerCase name = "mobile").
Proof.
  intros Hn Ht. eexists. split; [exact (initColumn_ok _ _ _ _ Ht Hn)|].
  rewrite namePass_queryType, flagPass_other, typePass_other by reflexivity.
  unfold baseColumn. prop_simpl.
  rewrite <- endsWith_spec.
  destruct (Str.endsWith "name" (Str.toLowerCase name)) eqn:He; cbn [orb].
  { split; [by left|]. split; [by left|done]. }
  do 2 case_bool_decide; cbn [orb].
  - split; [by left|]. split; [tauto|done].
  - split; [by left|]. split; [tauto|done].
  - split; [by left|]. split; [tauto|done].
  - split; [by right|]. split; [discriminate|]. intros [?|[?|?]]; done.
Qed.

End ClassifierFacts.

(** C4, counterexample: [create_time varchar(20)] is classified by its
    character type, as a string with the widget [input]. *)
Lemma create_time_varchar_is_string :
  exists col,
    initColumn 0 (JNum 1) (liveColumn "create_time" "varchar(20)" (JStr "0") (JStr "1") 5)
    = Ok col /\
    prop col "javaType" = JStr "string" /\ prop col "htmlType" = JStr "input" /\
    prop col "javaType" <> JStr "core.TsTime" /\ prop col "htmlType" <> JStr "datetime".
Proof.
  eexists. split; [reflexivity|]. vm_compute. repeat split; discriminate.
Qed.

Lemma audit_time_columns_witness :
  exists col,
    initColumn 0 (JNum 1) (liveColumn "create_time" "int(11)" (JStr "0") (JStr "1") 5)
    = Ok col /\
    prop col "javaType" = JStr "core.TsTime" /\ prop col "htmlType" = JStr "datetime".
Proof.
  apply (audit_time_columns 0 (JNum 1)
           (liveColumn "create_time" "int(11)" (JStr "0") (JStr "1") 5)
           "create_time" "int(11)").
  - reflexivity.
  - apply contains_elem_of. reflexivity.
  - reflexivity.
Defined.

(** C5, counterexample: [status tinyint(1)] is in the numeric family and
    gets the widget [radio] by its name. *)
Lemma status_tinyint_is_radio :
  util.contains sqlConstants.columnTypeNumber (JStr (getDbType "tinyint(1)")) = true /\
  exists col,
    initColumn 0 (JNum 1) (liveColumn "status" "tinyint(1)" (JStr "0") (JStr "1") 3)
    = Ok col /\
    prop col "htmlType" = JStr "radio" /\ prop col "htmlType" <> JStr "input".
Proof.
  split; [reflexivity|]. eexists. split; [reflexivity|]. vm_compute. split; [reflexivity|discriminate].
Qed.

Lemma numeric_columns_witness :
  exists col,
    initColumn 0 (JNum 1) (liveColumn "stock" "int(11)" (JStr "0") (JStr "1") 4) = Ok col /\
    prop col "htmlType" = JStr "input" /\ prop col "javaType" = JStr "int".
Proof.
  destruct (numeric_columns 0 (JNum 1)
              (liveColumn "stock" "int(11)" (JStr "0") (JStr "1") 4) "stock" "int(11)")
    as (col & Hinit & Hwidget & Htype).
  - reflexivity.
  - reflexivity.
  - apply contains_elem_of. reflexivity.
  - apply contains_not_elem_of. reflexivity.
  - exists col. split; [exact Hinit|]. split; [apply Hwidget|apply Htype]; reflexivity.
Defined.

(** The scale component of a raw type is not seen: the test for it reads
    the type without its parenthesised part. *)
Example decimal_scale_is_int :
  exists col,
    initColumn 0 (JNum 1) (liveColumn "price" "decimal(10,2)" (JStr "0") (JStr "1") 4)
    = Ok col /\
    prop col "columnType" = JStr "decimal" /\ prop col "javaType" = JStr "int".
Proof. eexists. split; [reflexivity|]. vm_compute. by split. Qed.

(** C6, counterexample: the lower-cased name [sub_title] ends with
    [title] and gets the operator [=]. *)
Lemma sub_title_is_equality :
  Str.endsWith "title" (Str.toLowerCase "sub_title") = true /\
  exists col,
    initColumn 0 (JNum 1) (liveColumn "sub_title" "varchar(64)" (JStr "0") (JStr "1") 2)
    = Ok col /\
    prop col "queryType" = JStr "=" /\ prop col "queryType" <> JStr "LIKE".
Proof.
  split; [reflexivity|]. eexists. split; [reflexivity|]. vm_compute. split; [reflexivity|discriminate].
Qed.

Lemma queryType_by_name_witness :
  exists col,
    initColumn 0 (JNum 1) (liveColumn "goods_name" "varchar(64)" (JStr "0") (JStr "1") 2)
    = Ok col /\
    prop col "queryType" = JStr "LIKE".
Proof.
  destruct (queryType_by_name 0 (JNum 1)
              (liveColumn "goods_name" "varchar(64)" (JStr "0") (JStr "1") 2)
              "goods_name" "varchar(64)")
    as (col & Hinit & _ & Hlike).
  - reflexivity.
  - reflexivity.
  - exists col. split; [exact Hinit|]. apply Hlike. left. exists "goods_". reflexivity.
Defined.

(** ** The importer and the delete operation *)

Section StoreFacts.

Variable now : Z.
Variable query : string -> list (string * sqlarg) -> result (list jsobj).
Variable refused : store -> write -> bool.

Lemma grows_refl s : grows s s.
Proof. by split. Qed.

Lemma grows_trans s1 s2 s3 : grows s1 s2 -> grows s2 s3 -> grows s1 s3.
Proof. intros [? ?] [? ?]. split; by etrans. Qed.

Lemma record_of_prop values row k :
  record_of values row -> String.eqb "id" k = false -> prop row k = prop values k.
Proof. intros -> Hk. by rewrite prop_insert, Hk. Qed.

Lemma GenTable_create_spec values s :
  match GenTable_create refused values s with
  | (Ok row, s') => record_of values row /\ GenTable s' = (GenTable s ++ [row])%list
                    /\ GenTableColumn s' = GenTableColumn s
  | (Err _, s') => s' = s
  end.
Proof.
  unfold GenTable_create. destruct (refused s _); [reflexivity|]. cbn.
  split; [|done]. unfold record_of, prop. rewrite lookup_insert_eq. reflexivity.
Qed.

Lemma GenTableColumn_create_spec values s :
  match GenTableColumn_create refused values s with
  | (Ok row, s') => record_of values row /\ GenTable s' = GenTable s
                    /\ GenTableColumn s' = (GenTableColumn s ++ [row])%list
  | (Err _, s') => s' = s
  end.
Proof.
  unfold GenTableColumn_create. destruct (refused s _); [reflexivity|]. cbn.
  split; [|done]. unfold record_of, prop. rewrite lookup_insert_eq. reflexivity.
Qed.

Lemma columns_persisted_grows id columns s s' :
  grows s s' -> columns_persisted now id columns s -> columns_persisted now id columns s'.
Proof.
  intros [_ Hc] H. unfold columns_persisted. eapply Forall_impl; [exact H|].
  intros column (col & row & ? & ? & Hin). exists col, row. repeat split; try done.
  destruct Hc as [k ->]. apply elem_of_app. by left.
Qed.

Lemma tables_persisted_grows dbTbs s s' :
  grows s s' -> tables_persisted now query dbTbs s -> tables_persisted now query dbTbs s'.
Proof.
  intros Hg H. unfold tables_persisted. eapply Forall_impl; [exact H|].
  intros dbTb (g & row & columns & ? & ? & Hin & ? & Hcols).
  exists g, row, columns. repeat split; try done.
  - destruct Hg as [[k ->] _]. apply elem_of_app. by left.
  - by eapply columns_persisted_grows.
Qed.

(** The inner loop only appends, and when it returns every column has
    its record. *)
Lemma importColumns_spec id columns s :
  match importColumns now refused id columns s with
  | (Ok _, s') => grows s s' /\ columns_persisted now id columns s'
  | (Err _, s') => grows s s'
  end.
Proof.
  revert s. induction columns as [|column rest IH]; intros s; cbn [importColumns].
  - cbn. split; [apply grows_refl|constructor].
  - unfold mbind at 1, lift. destruct (initColumn now id column) as [col|e] eqn:Hinit;
      [|apply grows_refl].
    unfold mbind, try_catch.
    pose proof (GenTableColumn_create_spec col s) as Hc.
    destruct (GenTableColumn_create refused col s) as [[row|e] s1].
    + destruct Hc as (Hrec & Ht & Hcs).
      assert (Hg : grows s s1).
      { split; [by rewrite Ht|rewrite Hcs; by apply prefix_app_r]. }
      specialize (IH s1).
      destruct (importColumns now refused id rest s1) as [[u|e] s2].
      * destruct IH as [Hg2 Hp]. split; [by eapply grows_trans|].
        constructor; [|exact Hp]. exists col, row. repeat split; try done.
        destruct Hg2 as [_ [k ->]]. rewrite Hcs.
        apply elem_of_app. left. apply elem_of_app. right. apply list_elem_of_here.
      * by eapply grows_trans.
    + subst s1. cbn. apply grows_refl.
Qed.

(** The outer loop only appends, and when it returns every table and
    every column has its record. *)
Lemma importTables_spec dbTbs s :
  match importTables now query refused dbTbs s with
  | (Ok _, s') => grows s s' /\ tables_persisted now query dbTbs s'
  | (Err _, s') => grows s s'
  end.
Proof.
  revert s. induction dbTbs as [|dbTb rest IH]; intros s; cbn [importTables].
  - cbn. split; [apply grows_refl|constructor].
  - unfold mbind at 1, lift. destruct (initTable now dbTb) as [g|e] eqn:Hinit;
      [|apply grows_refl].
    unfold mbind at 1, try_catch.
    pose proof (GenTable_create_spec g s) as Hc.
    destruct (GenTable_create refused g s) as [[row|e] s1]; [|subst s1; apply grows_refl].
    destruct Hc as (Hrec & Ht & Hcs).
    assert (Hg : grows s s1).
    { split; [rewrite Ht; by apply prefix_app_r|by rewrite Hcs]. }
    unfold mbind at 1, lift.
    destruct (getDbTableColumnsQueryByName query (prop dbTb "tableName"))
      as [columns|e] eqn:Hq; [|exact Hg].
    unfold mbind at 1.
    pose proof (importColumns_spec (prop row "id") columns s1) as Hcol.
    destruct (importColumns now refused (prop row "id") columns s1) as [[u|e] s2];
      [|by eapply grows_trans].
    destruct Hcol as [Hg2 Hp]. specialize (IH s2).
    destruct (importTables now query refused rest s2) as [[u'|e] s3].
    + destruct IH as [Hg3 Hrest].
      split; [eapply grows_trans; [|exact Hg3]; by eapply grows_trans|].
      constructor; [|exact Hrest]. exists g, row, columns. repeat split; try done.
      * destruct Hg3 as [[k3 ->] _]. destruct Hg2 as [[k2 ->] _]. rewrite Ht.
        do 2 (apply elem_of_app; left). apply elem_of_app. right. apply list_elem_of_here.
      * by eapply columns_persisted_grows.
    + eapply grows_trans; [|exact IH]. by eapply grows_trans.
Qed.

(** A transaction that throws leaves the records as they were; one that
    returns has run its body. *)
Lemma transaction_spec {A} (body : M store A) s :
  match transaction refused body s with
  | (Ok a, s') => body s = (Ok a, s')
  | (Err _, s') => GenTable s' = GenTable s /\ GenTableColumn s' = GenTableColumn s
  end.
Proof.
  unfold transaction. destruct (body s) as [[a|e] s1]; [|by split].
  destruct (refused s1 Commit); [by split|reflexivity].
Qed.

Lemma importTable_ok tableNames dbTbs s u s' :
  getDbTablesQueryByNames query tableNames = Ok dbTbs ->
  importTable now query refused tableNames s = (Ok u, s') ->
  grows s s' /\ tables_persisted now query dbTbs s'.
Proof.
  intros Hq. unfold importTable, mbind, try_catch, lift. rewrite Hq.
  destruct dbTbs as [|dbTb rest]; [discriminate|]. cbn [length Nat.eqb].
  pose proof (transaction_spec (importTables now query refused (dbTb :: rest)) s) as Htx.
  destruct (transaction refused _ s) as [[u'|e] s1]; [|discriminate].
  intros [= _ <-].
  pose proof (importTables_spec (dbTb :: rest) s) as Hsp. rewrite Htx in Hsp. exact Hsp.
Qed.

Lemma importColumns_completes id columns s :
  (forall s0 w, refused s0 w = false) ->
  Forall (fun column =>
            forall genTableId, exists col, initColumn now genTableId column = Ok col)
         columns ->
  exists s', importColumns now refused id columns s = (Ok tt, s').
Proof.
  intros Hall Hcols. revert s.
  induction Hcols as [|column rest Hcol _ IH]; intros s; cbn [importColumns].
  - by eexists.
  - destruct (Hcol id) as [col Hinit]. unfold mbind at 1, lift. rewrite Hinit.
    unfold mbind, try_catch, GenTableColumn_create. rewrite Hall. apply IH.
Qed.

Lemma importTables_completes dbTbs s :
  (forall s0 w, refused s0 w = false) ->
  importable now query dbTbs ->
  exists s', importTables now query refused dbTbs s = (Ok tt, s').
Proof.
  intros Hall Hok. revert s.
  induction Hok as [|dbTb rest (genTable & columns & Hinit & Hquery & Hcols) _ IH];
    intros s; cbn [importTables].
  - by eexists.
  - unfold mbind at 1, lift. rewrite Hinit.
    unfold mbind at 1, try_catch, GenTable_create. rewrite Hall.
    unfold mbind at 1, lift. rewrite Hquery. unfold mbind at 1.
    match goal with |- context [importColumns now refused ?id columns ?s1] =>
      destruct (importColumns_completes id columns s1 Hall Hcols) as [s2 Hs2];
      rewrite Hs2 end.
    apply IH.
Qed.

(** C2.  When at least one requested name is a live table, [importTable]
    either returns with a record for every live table found and for every
    live column of each, or throws and leaves the stored records as they
    were; and it does return when nothing fails, that is when the live
    schema can be read and classified and the database refuses no write.
    When no requested name is a live table it throws ['表不存在!'] (the
    table does not exist) and writes nothing. *)
Theorem importTable_all_or_nothing tableNames s :
  match getDbTablesQueryByNames query tableNames with
  | Err _ =>
      importTable now query refused tableNames s
      = (Err (Error "ImportTable Find tables err"), s)
  | Ok [] =>
      importTable now query refused tableNames s = (Err (Error "表不存在!"), s)
  | Ok dbTbs =>
      match importTable now query refused tableNames s with
      | (Ok _, s') => grows s s' /\ tables_persisted now query dbTbs s'
      | (Err e, s') =>
          e = Error "ImportTable Transaction err" /\
          GenTable s' = GenTable s /\ GenTableColumn s' = GenTableColumn s
      end /\
      (importable now query dbTbs ->
       (forall s0 w, refused s0 w = false) ->
       (importTable now query refused tableNames s).1 = Ok tt)
  end.
Proof.
  unfold importTable, mbind, try_catch, lift.
  destruct (getDbTablesQueryByNames query tableNames) as [[|dbTb rest]|e];
    [reflexivity| |reflexivity].
  cbn [length Nat.eqb]. split.
  - pose proof (transaction_spec (importTables now query refused (dbTb :: rest)) s) as Htx.
    destruct (transaction refused _ s) as [[u|e] s1].
    + pose proof (importTables_spec (dbTb :: rest) s) as Hsp. rewrite Htx in Hsp. exact Hsp.
    + cbn. by destruct Htx.
  - intros Hok Hall. unfold transaction.
    destruct (importTables_completes (dbTb :: rest) s Hall Hok) as [s' Hs'].
    rewrite Hs', Hall. reflexivity.
Qed.

Lemma initTable_names table T g :
  prop table "tableName" = JStr T ->
  initTable now table = Ok g ->
  prop g "tableName" = JStr T /\
  prop g "entityName" = JStr (toClassName T) /\
  prop g "moduleName" = JStr (toModuleName T).
Proof.
  intros HT. unfold initTable. rewrite HT. cbn [as_string bind].
  destruct (as_string (prop table "tableComment")) as [c|]; [|discriminate].
  cbn [bind]. intros [= <-]. prop_simpl. by repeat split.
Qed.

(** C3 (amended).  For every table name [T] successfully imported, the
    persisted table record has [entityName] equal to the lower camel case
    ([util.toCamelCase]) of [T] without the configured prefix, that is its
    PascalCase with the first letter left as it is in [T], and [moduleName]
    equal to the last underscore-delimited segment of [T]. *)
Theorem imported_names tableNames dbTbs s u s' dbTb T :
  getDbTablesQueryByNames query tableNames = Ok dbTbs ->
  importTable now query refused tableNames s = (Ok u, s') ->
  dbTb ∈ dbTbs ->
  prop dbTb "tableName" = JStr T ->
  let stripped :=
    if Str.startsWith dbTablePrefix T
    then Str.slice (String.length dbTablePrefix) T else T in
  exists row,
    row ∈ GenTable s' /\
    prop row "tableName" = JStr T /\
    prop row "entityName" = JStr (util.toCamelCase stripped) /\
    (forall pascal, util.toPascalCase stripped = Ok pascal ->
                    pascal = util.capitalize (util.toCamelCase stripped)) /\
    prop row "moduleName" = JStr (toModuleName T) /\
    (T = toModuleName T \/ exists pre, T = pre ++ "_" ++ toModuleName T) /\
    sep_free "_" (toModuleName T).
Proof.
  intros Hq Himp Hin HT stripped.
  destruct (importTable_ok _ _ _ _ _ Hq Himp) as [_ Hp].
  unfold tables_persisted in Hp. rewrite Forall_forall in Hp.
  destruct (Hp dbTb Hin) as (g & row & columns & Hinit & Hrec & Hrow & _).
  destruct (initTable_names _ _ _ HT Hinit) as (Hn & He & Hm).
  exists row. split; [exact Hrow|].
  rewrite !(record_of_prop _ _ _ Hrec) by reflexivity.
  repeat split; try done.
  - intros pascal. apply pascal_of_camel.
  - apply toModuleName_spec.
  - apply toModuleName_spec.
Qed.

Lemma matches_elem_of column keys (row : jsobj) :
  matches column keys row = true <-> prop row column ∈ keys.
Proof. unfold matches. by rewrite bool_decide_eq_true. Qed.

(** C8.  When [delTable] returns, the table records left are exactly
    those whose [id] is not among the given ids and the column records left
    exactly those whose [tableId] is not among them, each as it was; when
    it throws, nothing is removed. *)
Theorem delTable_removes_exactly ids s :
  match delTable refused ids s with
  | (Ok _, s') =>
      (forall row, row ∈ GenTable s' <-> row ∈ GenTable s /\ prop row "id" ∉ ids) /\
      (forall row, row ∈ GenTableColumn s' <->
                   row ∈ GenTableColumn s /\ prop row "tableId" ∉ ids)
  | (Err e, s') =>
      e = Error "DelTable Transaction failed" /\
      GenTable s' = GenTable s /\ GenTableColumn s' = GenTableColumn s
  end.
Proof.
  unfold delTable, try_catch.
  pose proof (transaction_spec (GenTable_destroy refused "id" ids ;;
                                GenTableColumn_destroy refused "tableId" ids) s) as Htx.
  destruct (transaction refused _ s) as [[u|e] s1]; [|cbn; by destruct Htx].
  unfold mbind, GenTable_destroy, GenTableColumn_destroy in Htx.
  destruct (refused s _); [discriminate|]. cbn in Htx.
  destruct (refused _ _); [discriminate|]. injection Htx as _ <-. cbn.
  split; intros row; rewrite list_elem_of_filter, negb_True, Is_true_true, matches_elem_of; tauto.
Qed.

(** [delTable] returns whenever the database refuses none of its
    writes. *)
Lemma delTable_completes ids s :
  (forall s' w, refused s' w = false) -> (delTable refused ids s).1 = Ok tt.
Proof.
  intros Hall. unfold delTable, try_catch, transaction, mbind,
    GenTable_destroy, GenTableColumn_destroy.
  rewrite ?Hall. cbn. rewrite ?Hall. reflexivity.
Qed.

End StoreFacts.

(** The import of the sample table [demo_order] returns, with one table
    record and five column records. *)
Example import_demo_order :
  let r := importTable 0 (sample_query text_flag) accept_all ["demo_order"] empty_store in
  r.1 = Ok tt /\ length (GenTable r.2) = 1%nat /\ length (GenTableColumn r.2) = 5%nat.
Proof. repeat split; reflexivity. Qed.

Lemma importTable_all_or_nothing_witness :
  (importTable 0 (sample_query text_flag) accept_all ["la_shop_goods"] empty_store).1 = Ok tt.
Proof.
  pose proof (importTable_all_or_nothing 0 (sample_query text_flag) accept_all
                ["la_shop_goods"] empty_store) as H.
  assert (Hq : getDbTablesQueryByNames (sample_query text_flag) ["la_shop_goods"]
               = Ok [ object [ ("tableName", JStr "la_shop_goods");
                               ("tableComment", JStr "商品表") ] ]) by reflexivity.
  rewrite Hq in H. cbv beta iota in H. destruct H as [_ H]. apply H; [|reflexivity].
  constructor; [|constructor].
  eexists _, [ liveColumn "id" "int(11)" (JStr "1") (JStr "0") 1;
               liveColumn "goods_name" "varchar(64)" (JStr "0") (JStr "1") 2;
               liveColumn "content" "text" (JStr "0") (JStr "0") 3 ].
  split; [reflexivity|]. split; [reflexivity|].
  repeat constructor; intros genTableId; eexists; apply initColumn_ok; reflexivity.
Defined.

(** When the database refuses the fourth column of the second table, the
    loop has already written a table record and column records; the
    transaction of [importTable] leaves none of them. *)
Example import_rolls_back :
  let loop := importTables 0 (sample_query text_flag) refuse_remark sample_tables empty_store in
  let call := importTable 0 (sample_query text_flag) refuse_remark
                ["la_user_tag"; "demo_order"] empty_store in
  is_ok loop.1 = false /\ length (GenTable loop.2) = 1%nat
  /\ length (GenTableColumn loop.2) = 3%nat
  /\ call.1 = Err (Error "ImportTable Transaction err")
  /\ GenTable call.2 = [] /\ GenTableColumn call.2 = [].
Proof. repeat split; reflexivity. Qed.

(** C3, counterexample: the table [demo_order] is persisted with the
    entity name [demoOrder], where its PascalCase is [DemoOrder]. *)
Lemma demo_order_entity_is_not_pascal :
  let s' := (importTable 0 (sample_query text_flag) accept_all ["demo_order"] empty_store).2 in
  map (fun row => (prop row "tableName", prop row "entityName")) (GenTable s')
  = [ (JStr "demo_order", JStr "demoOrder") ] /\
  util.toPascalCase "demo_order" = Ok "DemoOrder" /\
  JStr "demoOrder" <> JStr "DemoOrder".
Proof. split; [reflexivity|split; [reflexivity|discriminate]]. Qed.

Lemma imported_names_witness :
  exists row,
    row ∈ GenTable (importTable 0 (sample_query text_flag) accept_all
                      ["la_shop_goods"] empty_store).2 /\
    prop row "tableName" = JStr "la_shop_goods" /\
    prop row "entityName" = JStr "shopGoods" /\
    prop row "moduleName" = JStr "goods".
Proof.
  destruct (imported_names 0 (sample_query text_flag) accept_all ["la_shop_goods"]
              [ object [ ("tableName", JStr "la_shop_goods"); ("tableComment", JStr "商品表") ] ]
              empty_store tt
              (importTable 0 (sample_query text_flag) accept_all
                 ["la_shop_goods"] empty_store).2
              (object [ ("tableName", JStr "la_shop_goods"); ("tableComment", JStr "商品表") ])
              "la_shop_goods")
    as (row & Hin & Hname & Hentity & _ & Hmodule & _).
  - reflexivity.
  - reflexivity.
  - apply list_elem_of_here.
  - reflexivity.
  - exists row. repeat split; assumption.
Defined.

(** ** The synchronizer *)

Lemma promise_has_no_property {A} (r : result A) k : prop (promise r) k = JUndef.
Proof. reflexivity. Qed.

(** On the promise of a call that is not awaited, the guard
    [col.isList === 0] fails and neither [dictType] nor [queryType] is
    copied, whatever the stored record holds. *)
Lemma mergeColumn_promise {A} (r : result A) prevCol :
  prop (mergeColumn (promise r) prevCol) "dictType" = JUndef /\
  prop (mergeColumn (promise r) prevCol) "queryType" = JUndef.
Proof.
  unfold mergeColumn. cbv zeta.
  rewrite !(prop_insert (promise r)). cbn [String.eqb Ascii.eqb Bool.eqb].
  rewrite promise_has_no_property.
  replace (strict_eq JUndef (JNum 0)) with false by reflexivity.
  rewrite !prop_when2 by reflexivity. rewrite !prop_insert. by split.
Qed.

(** The widget and the requiredness of the stored record are copied when
    it was required, not a primary key and insertable, or was editable. *)
Lemma mergeColumn_keeps_widget col prevCol :
  (strict_eq (prop prevCol "isRequired") (JNum 1)
   && strict_eq (prop prevCol "isPk") (JNum 0)
   && strict_eq (prop prevCol "isInsert") (JNum 1))
  || strict_eq (prop prevCol "isEdit") (JNum 1) = true ->
  prop (mergeColumn col prevCol) "htmlType" = prop prevCol "htmlType" /\
  prop (mergeColumn col prevCol) "isRequired" = prop prevCol "isRequired".
Proof.
  intros H. unfold mergeColumn. cbv zeta. rewrite H. rewrite !prop_insert. by split.
Qed.

(** How the settings of a stored column get through a sync.  The stored
    column [content] of [la_shop_goods] is not list-visible and has a
    dictionary, an operator and the widget [select] set by hand; it is
    still a live column.  The values that [syncTable] hands to
    [GenTableColumn.update] for it are the stored [id], [htmlType] and
    [isRequired] and nothing else: the guard on [isList] fails on the
    promise, as it would on the awaited result of [initColumn], whose
    [isList] is never [0].  The update therefore assigns no [dictType] and
    no [queryType], and the record keeps the stored ones. *)
Lemma sync_update_values :
  mergeColumn (promise (initColumn 0 (JNum 1) live_content)) stored_content = merged_content /\
  (forall now refused s,
     syncColumns now refused (JNum 1) (buildPrevColMap [stored_content]) [live_content] s
     = (GenTableColumn_update refused merged_content (JNum 11) ;; ret tt) s) /\
  util.contains sqlConstants.columnNameNotList (prop live_content "columnName") = true /\
  prop stored_content "isList" = JNum 0 /\
  prop stored_content "dictType" = JStr "content_kind" /\
  prop stored_content "queryType" = JStr "LIKE" /\
  prop merged_content "dictType" = JUndef /\
  prop merged_content "queryType" = JUndef /\
  prop merged_content "htmlType" = JStr "select" /\
  prop merged_content "isRequired" = JNum 1 /\
  (forall now tableId column prevCol,
     prop (mergeColumn (promise (initColumn now tableId column)) prevCol) "dictType" = JUndef /\
     prop (mergeColumn (promise (initColumn now tableId column)) prevCol) "queryType" = JUndef) /\
  (forall now tableId column,
     match initColumn now tableId column with
     | Ok col => strict_eq (prop col "isList") (JNum 0) = false
     | Err _ => True
     end).
Proof.
  do 10 (split; [reflexivity|]). split.
  - intros now tableId column prevCol. apply mergeColumn_promise.
  - intros now tableId column.
    destruct (initColumn now tableId column) as [col|e] eqn:Hinit; [|exact I].
    by rewrite (initColumn_isList _ _ _ _ Hinit).
Qed.

(** With every live column of [la_shop_goods] stored, [syncTable] returns
    and leaves every stored record as it was, the outdated [columnType]
    of [content] included. *)
Example syncTable_refreshes_nothing :
  syncTable 0 (sample_query text_flag) accept_all (JNum 1) sample_store = (Ok tt, sample_store).
Proof. reflexivity. Qed.

(** A live column that is not stored makes the whole call throw: the
    promise has no method [save]. *)
Example syncTable_new_column_throws :
  let s := {| GenTable := GenTable sample_store; GenTableColumn := [stored_content];
              nextTableId := 4; nextColumnId := 12 |} in
  syncTable 0 (sample_query text_flag) accept_all (JNum 1) s
  = (Err (Error "SyncTable Transaction err"), s).
Proof. reflexivity. Qed.

(** ** The queries of the live-table listing *)

(** A non-empty table-name filter is part of the text of the [WHERE]
    clause. *)
Lemma whereStr_splices (tableName : string) tableComment :
  tableName <> "" ->
  exists before after,
    whereStr (JStr tableName) tableComment = before ++ tableName ++ after.
Proof.
  intros Hne. unfold whereStr. cbv zeta. cbn [truthy toString].
  destruct (String.eqb_spec tableName "") as [->|_]; [done|]. cbn [negb].
  exists ("AND lower(table_name) like lower(" ++ dq ++ "%").
  destruct (truthy tableComment).
  - exists ("%" ++ dq ++ ")" ++ "AND lower(table_comment) like lower(" ++ dq ++ "%"
            ++ toString tableComment ++ "%" ++ dq ++ ")").
    rewrite str_app_nil_l, !str_app_assoc. reflexivity.
  - exists ("%" ++ dq ++ ")").
    rewrite str_app_nil_l, !str_app_assoc. reflexivity.
Qed.

(** C9 (failing input).  For a listing request whose [tableName] and
    [tableComment] are [injected_filter], both queries sent by [dbTables]
    contain the filter verbatim in their text and bind no argument;
    [getDbTablesQueryByNames] sends a fixed text and binds the names. *)
Theorem listing_splices_filter :
  Forall (fun sent => Str.includes injected_filter sent.1 = true /\ sent.2 = [])
         (dbTables_sent listing_request) /\
  length (dbTables_sent listing_request) = 2%nat /\
  (forall tableNames,
     getDbTablesQueryByNames_sent tableNames
     = [ (tablesByNamesSql, [ ("tableNames", SqlList tableNames) ]) ]).
Proof.
  split; [|split; reflexivity].
  repeat constructor; vm_compute; reflexivity.
Qed.

(** ** The renderer and the packager *)

Section RenderFacts.

Variable now : Z.
Variable query : string -> list (string * sqlarg) -> result (list jsobj).
Variable Vars : Type.
Variable prepareVars : jsobj -> list jsobj -> jsobj -> list jsobj -> result Vars.
Variable getTemplatePaths : jsval -> result (list string).
Variable render : string -> Vars -> result string.

(** C10.  For a table record whose [subTableFk] is unset,
    [getSubTableInfo] returns no value, [renderCodeByTable] throws when it
    reads [pkCol] of that missing value, and so does [previewCode] for the
    id of such a stored record: no template map is returned. *)
Theorem flat_table_never_renders s genTable :
  truthy (prop genTable "subTableFk") = false ->
  getSubTableInfo now query s genTable = Ok None /\
  renderCodeByTable now query Vars prepareVars getTemplatePaths render s genTable
  = Err (TypeError "Cannot read properties of undefined (reading 'pkCol')") /\
  (forall id,
     findOne (GenTable s) "id" id = Some genTable ->
     previewCode now query Vars prepareVars getTemplatePaths render s id
     = Err (TypeError "Cannot read properties of undefined (reading 'pkCol')")).
Proof.
  intros Hfk.
  assert (Hsub : getSubTableInfo now query s genTable = Ok None).
  { unfold getSubTableInfo. rewrite Hfk. cbn [negb]. by rewrite orb_true_r. }
  assert (Hren : renderCodeByTable now query Vars prepareVars getTemplatePaths render s genTable
                 = Err (TypeError "Cannot read properties of undefined (reading 'pkCol')")).
  { unfold renderCodeByTable. cbv zeta. rewrite Hsub. reflexivity. }
  repeat split; [exact Hsub|exact Hren|].
  intros id Hfind. unfold previewCode. rewrite Hfind, Hren. reflexivity.
Qed.

(** A call of [genZipCode] that returns has replaced the archive by the
    files of its table. *)
Lemma genZipCode_ok s path tableName fs fs' :
  genZipCode now query Vars prepareVars getTemplatePaths render s path tableName fs
  = (Ok tt, fs') ->
  exists genTable tplCodeMap filePaths,
    findLast (GenTable s) "tableName" tableName = Some genTable /\
    renderCodeByTable now query Vars prepareVars getTemplatePaths render s genTable
    = Ok tplCodeMap /\
    getFilePaths tplCodeMap (prop genTable "moduleName") = Ok filePaths /\
    fs' = <[path := filePaths]> fs.
Proof.
  unfold genZipCode, try_catch.
  destruct (findLast (GenTable s) "tableName" tableName) as [genTable|] eqn:Hfind;
    [|discriminate].
  unfold mbind, lift.
  destruct (renderCodeByTable _ _ _ _ _ _ s genTable) as [tplCodeMap|e] eqn:Hrender;
    [|discriminate].
  unfold genZip.
  destruct (getFilePaths tplCodeMap (prop genTable "moduleName")) as [filePaths|e] eqn:Hpaths;
    [|discriminate].
  intros [= <-]. by exists genTable, tplCodeMap, filePaths.
Qed.

Lemma genZipCodes_last s path names last fs fs' :
  genZipCodes now query Vars prepareVars getTemplatePaths render s path
    (names ++ [last]) fs = (Ok tt, fs') ->
  exists fs0,
    genZipCode now query Vars prepareVars getTemplatePaths render s path (JStr last) fs0
    = (Ok tt, fs').
Proof.
  revert fs. induction names as [|name names IH]; intros fs; cbn [app genZipCodes].
  - unfold mbind.
    destruct (genZipCode _ _ _ _ _ _ s path (JStr last) fs) as [[[]|e] fs1] eqn:H;
      [|discriminate].
    cbn. intros [= <-]. by exists fs.
  - unfold mbind at 1.
    destruct (genZipCode _ _ _ _ _ _ s path (JStr name) fs) as [[[]|e] fs1];
      [|discriminate].
    apply IH.
Qed.

(** Whatever the list of tables, the archive a successful [downloadCode]
    leaves holds the files of the last table alone. *)
Lemma downloadCode_keeps_last s path names last fs :
  match downloadCode now query Vars prepareVars getTemplatePaths render s path
          (names ++ [last]) fs with
  | (Ok _, fs') =>
      is_Some (fs' !! path) /\
      fs' !! path
      = tableFiles now query Vars prepareVars getTemplatePaths render s (JStr last)
  | (Err _, _) => True
  end.
Proof.
  unfold downloadCode, try_catch, mbind.
  destruct (genZipCodes _ _ _ _ _ _ s path (names ++ [last]) fs) as [[[]|e] fs1] eqn:H;
    [|exact I].
  cbn. apply genZipCodes_last in H as [fs0 H].
  apply genZipCode_ok in H as (g & m & f & Hfind & Hrender & Hpaths & ->).
  unfold tableFiles. rewrite Hfind, Hrender, Hpaths, lookup_insert_eq. by split.
Qed.

End RenderFacts.

Lemma flat_table_never_renders_witness :
  previewCode 0 (sample_query numeric_flag) jsobj sample_prepareVars
    sample_getTemplatePaths sample_render sample_store (JNum 3)
  = Err (TypeError "Cannot read properties of undefined (reading 'pkCol')").
Proof.
  apply (flat_table_never_renders 0 (sample_query numeric_flag) jsobj sample_prepareVars
           sample_getTemplatePaths sample_render sample_store flat_note).
  - reflexivity.
  - reflexivity.
Defined.

(** C7 (failing input).  With the two sample tables stored in tree mode
    and a driver that hands the column flags over as numbers, the download
    of [la_shop_goods] alone leaves an archive with the two files of the
    module [goods]; the download of [la_shop_goods] and [la_user_tag]
    returns and leaves an archive with the two files of the module [tag]
    and none of [goods].  In general the archive of a download that
    returns holds the files of the last table of the request alone. *)
Theorem download_keeps_one_table :
  let download names :=
    downloadCode 0 (sample_query numeric_flag) jsobj sample_prepareVars
      sample_getTemplatePaths sample_render sample_store zipPath names ∅ in
  (download ["la_shop_goods"]).1 = Ok zipPath /\
  (download ["la_shop_goods"]).2 !! zipPath
  = Some [ ("nodecode/goods/model.js", "nodecode/model.js.tpl of shopGoods");
           ("vue/goods/api.ts", "vue/api.ts.tpl of shopGoods") ] /\
  (download ["la_shop_goods"; "la_user_tag"]).1 = Ok zipPath /\
  (download ["la_shop_goods"; "la_user_tag"]).2 !! zipPath
  = Some [ ("nodecode/tag/model.js", "nodecode/model.js.tpl of userTag");
           ("vue/tag/api.ts", "vue/api.ts.tpl of userTag") ] /\
  (forall now query Vars prepareVars getTemplatePaths render s path names last fs,
     match downloadCode now query Vars prepareVars getTemplatePaths render s path
             (names ++ [last]) fs with
     | (Ok _, fs') =>
         fs' !! path
         = tableFiles now query Vars prepareVars getTemplatePaths render s (JStr last)
     | (Err _, _) => True
     end).
Proof.
  do 4 (split; [reflexivity|]).
  intros now query Vars prepareVars getTemplatePaths render s path names last fs.
  pose proof (downloadCode_keeps_last now query Vars prepareVars getTemplatePaths render
                s path names last fs) as H.
  destruct (downloadCode _ _ _ _ _ _ s path (names ++ [last]) fs) as [[r|e] fs']; [|exact I].
  by destruct H.
Qed.

(** With the flags as the text the column query produces, no column
    passes the test [isPk === 1] of [getTablePriCol] and the download of
    the same tables throws before any archive is written. *)
Example download_throws_on_text_flags :
  let r := downloadCode 0 (sample_query text_flag) jsobj sample_prepareVars
             sample_getTemplatePaths sample_render sample_store zipPath
             ["la_shop_goods"; "la_user_tag"] ∅ in
  is_ok r.1 = false /\ r.2 !! zipPath = None.
Proof. split; reflexivity. Qed.

(** * Further properties *)



(** ** The parsing of raw types *)

Lemma index_char c s :
  match Str.indexOf (String c "") s with
  | None => sep_free c s
  | Some i =>
      exists pre post, s = pre ++ String c post /\ String.length pre = i /\ sep_free c pre
  end.
Proof.
  unfold Str.indexOf. induction s as [|x s IH].
  - cbn. intros [|y a] b; discriminate.
  - cbn [String.index String.prefix].
    destruct (ascii_dec c x) as [<-|Hne].
    + assert (Hp : String.prefix "" s = true) by (by destruct s).
      rewrite Hp. exists "", s. split; [reflexivity|split; [reflexivity|]].
      intros [|y a] b; discriminate.
    + destruct (String.index 0 (String c "") s) as [i|]; cbn.
      * destruct IH as (pre & post & -> & <- & Hfree).
        exists (String x pre), post. split; [reflexivity|split; [reflexivity|]].
        intros [|y a] b Heq.
        -- rewrite str_app_nil_l in Heq. congruence.
        -- rewrite str_app_cons in Heq. injection Heq as -> Heq. by apply (Hfree a b).
      * intros [|y a] b Heq.
        -- rewrite str_app_nil_l in Heq. congruence.
        -- rewrite str_app_cons in Heq. injection Heq as -> Heq. by apply (IH a b).
Qed.

(** A string that does not include a character is free of it. *)
Lemma sep_free_check c w : Str.includes (String c "") w = false -> sep_free c w.
Proof.
  unfold Str.includes. pose proof (index_char c w) as H.
  by destruct (Str.indexOf (String c "") w).
Qed.

Lemma substring_app_l pre rest :
  String.substring 0 (String.length pre) (pre ++ rest) = pre.
Proof.
  induction pre as [|c pre IH]; [by destruct rest|].
  rewrite str_app_cons. cbn. by rewrite IH.
Qed.

Lemma substring_skip pre rest n :
  String.substring (String.length pre) n (pre ++ rest) = String.substring 0 n rest.
Proof. induction pre as [|c pre IH]; [reflexivity|]. rewrite str_app_cons. exact IH. Qed.

Lemma index_skip pre sub rest :
  String.index (String.length pre) sub (pre ++ rest)
  = (fun i => (String.length pre + i)%nat) <$> String.index 0 sub rest.
Proof.
  induction pre as [|c pre IH].
  - rewrite str_app_nil_l. cbn [String.length].
    destruct (String.index 0 sub rest); reflexivity.
  - rewrite str_app_cons. cbn [String.length String.index]. rewrite IH.
    destruct (String.index 0 sub rest); reflexivity.
Qed.

Lemma index_char_free c pre post :
  sep_free c pre ->
  String.index 0 (String c "") (pre ++ String c post) = Some (String.length pre).
Proof.
  intros Hfree. induction pre as [|x pre IH].
  - rewrite str_app_nil_l. cbn [String.index String.prefix].
    destruct (ascii_dec c c) as [_|Hne]; [|done]. by destruct post.
  - rewrite str_app_cons. cbn [String.index String.prefix].
    destruct (ascii_dec c x) as [<-|Hne].
    { by destruct (Hfree "" pre). }
    rewrite IH; [reflexivity|].
    intros a b Heq. apply (Hfree (String x a) b). by rewrite str_app_cons, Heq.
Qed.

(** X1: the base type is what precedes the first opening parenthesis of the raw
    type, the whole raw type when it has none; it never holds a
    parenthesis. *)
Theorem getDbType_spec raw :
  sep_free "(" (getDbType raw) /\
  (raw = getDbType raw \/ exists rest, raw = getDbType raw ++ String "(" rest).
Proof.
  unfold getDbType. pose proof (index_char "(" raw) as H.
  destruct (Str.indexOf "(" raw) as [i|].
  - destruct H as (pre & post & -> & <- & Hfree).
    unfold Str.substring. rewrite Nat.min_0_l, Nat.max_0_l, Nat.sub_0_r, substring_app_l.
    split; [exact Hfree|]. right. by exists post.
  - split; [exact H|by left].
Qed.

(** X2: the length of a raw type [base(inner)tail] is the integer that opens
    [inner], [0] when [inner] opens with none; a raw type without an
    opening parenthesis has length [0]. *)
Theorem getColumnLength_spec base inner tail :
  sep_free "(" base ->
  sep_free ")" inner ->
  getColumnLength (base ++ String "(" (inner ++ String ")" tail))
  = default 0 (Str.parseInt inner)
  /\ getDbType (base ++ String "(" (inner ++ String ")" tail)) = base
  /\ getColumnLength base = 0.
Proof.
  intros Hb Hi. unfold getColumnLength, getDbType, Str.indexOf, Str.indexOfFrom.
  rewrite (index_char_free "(" base _ Hb).
  rewrite index_skip. cbn [String.index String.prefix].
  destruct (ascii_dec ")" "(") as [|_]; [discriminate|].
  rewrite (index_char_free ")" inner tail Hi). cbn [fmap option_fmap option_map].
  split; [|split].
  - unfold Str.substring.
    replace (Nat.min (String.length base + 1) (String.length base + S (String.length inner)))
      with (String.length (base ++ "(")) by (rewrite str_length_app; cbn; lia).
    replace (Nat.max (String.length base + 1) (String.length base + S (String.length inner))
             - String.length (base ++ "("))%nat
      with (String.length inner) by (rewrite str_length_app; cbn; lia).
    replace (base ++ String "(" (inner ++ String ")" tail))
      with ((base ++ "(") ++ (inner ++ String ")" tail)) by (by rewrite str_app_assoc).
    rewrite substring_skip, substring_app_l. by destruct (Str.parseInt inner).
  - unfold Str.substring. by rewrite Nat.min_0_l, Nat.max_0_l, Nat.sub_0_r, substring_app_l.
  - pose proof (index_char "(" base) as H. unfold Str.indexOf in H.
    destruct (String.index 0 "(" base) as [i|]; [|reflexivity].
    destruct H as (pre & post & -> & _). by destruct (Hb pre post).
Qed.

Lemma getColumnLength_spec_witness :
  getColumnLength ("decimal" ++ String "(" ("10,2" ++ String ")" " unsigned")) = 10
  /\ getDbType ("decimal" ++ String "(" ("10,2" ++ String ")" " unsigned")) = "decimal"
  /\ getColumnLength "decimal" = 0.
Proof.
  apply (getColumnLength_spec "decimal" "10,2" " unsigned").
  - apply sep_free_check. reflexivity.
  - apply sep_free_check. reflexivity.
Defined.

(** ** The classifier, field by field *)

Section ClassifierTable.

Variable now : Z.

Lemma typePass_javaType ct len col :
  prop col "javaType" = JStr "string" ->
  prop (typePass ct len col) "javaType" =
  if util.contains (sqlConstants.columnTypeStr ++ sqlConstants.columnTypeText) (JStr ct)
  then JStr "string"
  else if util.contains sqlConstants.columnTypeTime (JStr ct)
          || util.contains sqlConstants.columnTimeName (prop col "columnName")
  then JStr "core.TsTime"
  else if util.contains sqlConstants.columnTypeNumber (JStr ct)
  then JStr "int"
  else JStr "string".
Proof.
  intros Hj. unfold typePass.
  destruct (util.contains (_ ++ _) _).
  { destruct (_ || _); prop_simpl; exact Hj. }
  destruct (util.contains sqlConstants.columnTypeTime _); cbn [orb].
  { prop_simpl. reflexivity. }
  destruct (util.contains sqlConstants.columnTimeName _).
  { prop_simpl. reflexivity. }
  destruct (util.contains sqlConstants.columnTypeNumber (JStr ct)) eqn:Hn; [|exact Hj].
  apply contains_elem_of in Hn. rewrite (number_type_no_comma _ Hn).
  cbv zeta. prop_simpl. reflexivity.
Qed.

(** X3: the logical type of a classified column is decided by the base type
    and the column name alone, in this order: string for the character and
    text families, date for the temporal family and the temporal names, int
    for the numeric family, string otherwise.  It is never the float
    type. *)
Theorem javaType_table tableId column name raw :
  prop column "columnName" = JStr name ->
  prop column "columnType" = JStr raw ->
  exists col,
    initColumn now tableId column = Ok col /\
    prop col "javaType" =
      (if util.contains (sqlConstants.columnTypeStr ++ sqlConstants.columnTypeText)
                        (JStr (getDbType raw))
       then JStr "string"
       else if util.contains sqlConstants.columnTypeTime (JStr (getDbType raw))
               || util.contains sqlConstants.columnTimeName (JStr name)
       then JStr "core.TsTime"
       else if util.contains sqlConstants.columnTypeNumber (JStr (getDbType raw))
       then JStr "int"
       else JStr "string") /\
    prop col "javaType" <> prop nodeConstants "typeFloat".
Proof.
  intros Hn Ht. eexists. split; [exact (initColumn_ok _ _ _ _ _ Ht Hn)|].
  rewrite javaType_after_typePass, typePass_javaType, baseColumn_columnName, Hn
    by (unfold baseColumn; prop_simpl; reflexivity).
  split; [reflexivity|].
  repeat match goal with |- context [if ?b then _ else _] => destruct b end; discriminate.
Qed.

Lemma typePass_htmlType ct len col :
  prop col "htmlType" = JUndef ->
  prop (typePass ct len col) "htmlType" =
  if util.contains (sqlConstants.columnTypeStr ++ sqlConstants.columnTypeText) (JStr ct)
  then (if (500 <=? len) || util.contains sqlConstants.columnTypeText (JStr ct)
        then JStr "textarea" else JStr "input")
  else if util.contains sqlConstants.columnTypeTime (JStr ct)
          || util.contains sqlConstants.columnTimeName (prop col "columnName")
  then JStr "datetime"
  else if util.contains sqlConstants.columnTypeNumber (JStr ct)
  then JStr "input"
  else JUndef.
Proof.
  intros Hh. unfold typePass.
  destruct (util.contains (_ ++ _) _).
  { destruct (_ || _); prop_simpl; reflexivity. }
  destruct (util.contains sqlConstants.columnTypeTime _); cbn [orb].
  { prop_simpl. reflexivity. }
  destruct (util.contains sqlConstants.columnTimeName _).
  { prop_simpl. reflexivity. }
  destruct (util.contains sqlConstants.columnTypeNumber (JStr ct)); [|exact Hh].
  cbv zeta. destruct (Str.includes "," ct); prop_simpl; reflexivity.
Qed.

(** X4: when no name rule applies, the widget of a classified column is
    decided by the base type, the length and the temporal names: a
    character column is an [input] below the length 500 and a [textarea]
    from 500 on, a text column always a [textarea]; a column of a type
    outside the four families gets no widget at all. *)
Theorem htmlType_table tableId column name raw :
  prop column "columnName" = JStr name ->
  prop column "columnType" = JStr raw ->
  nameOverride (Str.toLowerCase name) = false ->
  exists col,
    initColumn now tableId column = Ok col /\
    prop col "htmlType" =
      if util.contains (sqlConstants.columnTypeStr ++ sqlConstants.columnTypeText)
                       (JStr (getDbType raw))
      then (if (500 <=? getColumnLength raw)
               || util.contains sqlConstants.columnTypeText (JStr (getDbType raw))
            then JStr "textarea" else JStr "input")
      else if util.contains sqlConstants.columnTypeTime (JStr (getDbType raw))
              || util.contains sqlConstants.columnTimeName (JStr name)
      then JStr "datetime"
      else if util.contains sqlConstants.columnTypeNumber (JStr (getDbType raw))
      then JStr "input"
      else JUndef.
Proof.
  intros Hn Ht Hov. eexists. split; [exact (initColumn_ok _ _ _ _ _ Ht Hn)|].
  rewrite (namePass_htmlType_kept _ _ Hov), flagPass_other by reflexivity.
  rewrite typePass_htmlType, baseColumn_columnName, Hn
    by (unfold baseColumn; prop_simpl; reflexivity).
  reflexivity.
Qed.

(** X5: A name rule decides the widget whatever the SQL type, and the rules
    are tried in a fixed order: [radio] for a name that ends with [status]
    or is [is_show] or [is_disable], else [select] for [type] and [sex],
    then [imageUpload], [fileUpload] and [editor]. *)
Theorem htmlType_by_name tableId column name raw :
  prop column "columnName" = JStr name ->
  prop column "columnType" = JStr raw ->
  nameOverride (Str.toLowerCase name) = true ->
  exists col,
    initColumn now tableId column = Ok col /\
    prop col "htmlType" =
      let lowerColName := Str.toLowerCase name in
      if Str.endsWith "status" lowerColName
         || util.contains [ "is_show"; "is_disable" ] (JStr lowerColName)
      then JStr "radio"
      else if Str.endsWith "type" lowerColName || Str.endsWith "sex" lowerColName
      then JStr "select"
      else if Str.endsWith "image" lowerColName then JStr "imageUpload"
      else if Str.endsWith "file" lowerColName then JStr "fileUpload"
      else JStr "editor".
Proof.
  intros Hn Ht Hov. eexists. split; [exact (initColumn_ok _ _ _ _ _ Ht Hn)|].
  cbv zeta. unfold nameOverride in Hov. unfold namePass. cbv zeta.
  set (l := Str.toLowerCase name) in *.
  destruct (Str.endsWith "status" l || util.contains ["is_show"; "is_disable"] (JStr l)).
  { prop_simpl. reflexivity. }
  destruct (Str.endsWith "type" l || Str.endsWith "sex" l) eqn:H2.
  { prop_simpl. reflexivity. }
  apply orb_false_elim in H2 as [H2 H3]. rewrite H2, H3 in Hov. cbn [orb] in Hov.
  destruct (Str.endsWith "image" l); [prop_simpl; reflexivity|].
  destruct (Str.endsWith "file" l); [prop_simpl; reflexivity|].
  cbn [orb] in Hov. rewrite Hov. prop_simpl. reflexivity.
Qed.

Lemma flagPass_flags col name :
  prop col "columnName" = JStr name ->
  prop col "isInsert" = JUndef -> prop col "isEdit" = JUndef ->
  prop col "isList" = JUndef -> prop col "isQuery" = JUndef ->
  prop (flagPass col) "isInsert" = JUndef /\
  prop (flagPass col) "isEdit" = JUndef /\
  prop (flagPass col) "isList" = JUndef /\
  prop (flagPass col) "isQuery" = JUndef /\
  prop (flagPass col) "isRequired" =
    if util.contains sqlConstants.columnNameNotEdit (JStr name) then JNum 0 else JUndef.
Proof.
  intros Hn Hi He Hl Hq. split; [|split; [|split; [|split]]].
  - unfold flagPass. cbv zeta. rewrite !(prop_when _ _ _ _ "isInsert") by reflexivity.
    rewrite prop_when2 by reflexivity.
    match goal with |- prop (if ?b then _ else _) _ = _ => destruct b end.
    + rewrite prop_insert. reflexivity.
    + rewrite prop_when by reflexivity. exact Hi.
  - unfold flagPass. cbv zeta. rewrite !(prop_when _ _ _ _ "isEdit") by reflexivity.
    match goal with |- prop (if ?b then _ else _) _ = _ => destruct b end.
    + rewrite !prop_insert. reflexivity.
    + rewrite !(prop_when _ _ _ _ "isEdit") by reflexivity. exact He.
  - by apply flagPass_isList.
  - unfold flagPass. cbv zeta.
    match goal with |- prop (if ?b then _ else _) _ = _ => destruct b end.
    + rewrite prop_insert. reflexivity.
    + rewrite prop_when, prop_when2, !prop_when by reflexivity. exact Hq.
  - unfold flagPass. cbv zeta.
    rewrite !(prop_when _ _ _ _ "isRequired") by reflexivity.
    rewrite !(prop_when _ _ _ _ "columnName") by reflexivity. rewrite Hn.
    destruct (util.contains sqlConstants.columnNameNotEdit (JStr name)); cbn [negb].
    + rewrite !(prop_when _ _ _ _ "isRequired") by reflexivity.
      rewrite prop_insert. reflexivity.
    + rewrite prop_insert. reflexivity.
Qed.

(** X6: A classified column never carries a number in its four visibility
    flags, and never keeps the requiredness of the live column: [isInsert],
    [isEdit], [isList] and [isQuery] are undefined, and [isRequired] is [0]
    for the columns that are not editable and undefined for all the
    others. *)
Theorem initColumn_flags tableId column name raw :
  prop column "columnName" = JStr name ->
  prop column "columnType" = JStr raw ->
  exists col,
    initColumn now tableId column = Ok col /\
    prop col "isInsert" = JUndef /\ prop col "isEdit" = JUndef /\
    prop col "isList" = JUndef /\ prop col "isQuery" = JUndef /\
    prop col "isRequired" =
      if util.contains sqlConstants.columnNameNotEdit (JStr name) then JNum 0 else JUndef.
Proof.
  intros Hn Ht. eexists. split; [exact (initColumn_ok _ _ _ _ _ Ht Hn)|].
  rewrite !namePass_other by reflexivity.
  apply flagPass_flags.
  - by rewrite typePass_other, baseColumn_columnName by reflexivity.
  - by rewrite typePass_other by reflexivity.
  - by rewrite typePass_other by reflexivity.
  - by rewrite typePass_other by reflexivity.
  - by rewrite typePass_other by reflexivity.
Qed.

(** X7: [initColumn] returns exactly for the rows whose type and name are
    strings, and throws a [TypeError] for every other row; what it returns
    keeps the name, the comment, the position and the key flags of the
    row, takes the name as field name and stores the type without its
    parenthesised part. *)
Theorem initColumn_identity tableId column :
  match prop column "columnType", prop column "columnName" with
  | JStr raw, JStr name =>
      exists col,
        initColumn now tableId column = Ok col /\
        prop col "tableId" = tableId /\
        prop col "columnName" = JStr name /\
        prop col "javaField" = JStr name /\
        prop col "columnType" = JStr (getDbType raw) /\
        prop col "columnLength" = JNum (getColumnLength raw) /\
        prop col "columnComment" = prop column "columnComment" /\
        prop col "sort" = prop column "sort" /\
        prop col "isPk" = prop column "isPk" /\
        prop col "isIncrement" = prop column "isIncrement"
  | _, _ => exists m, initColumn now tableId column = Err (TypeError m)
  end.
Proof.
  destruct (prop column "columnType") as [| | | |raw] eqn:Ht;
    try (eexists; unfold initColumn; rewrite Ht; reflexivity).
  destruct (prop column "columnName") as [| | | |name] eqn:Hn.
  5: { eexists. split; [exact (initColumn_ok _ _ _ _ _ Ht Hn)|].
       rewrite !namePass_other, !flagPass_other, !typePass_other by reflexivity.
       unfold baseColumn. prop_simpl. rewrite Hn. by repeat split. }
  all: eexists; unfold initColumn; rewrite Ht; cbn [as_string bind];
    rewrite flagPass_other, typePass_other, baseColumn_columnName, Hn by reflexivity;
    reflexivity.
Qed.

End ClassifierTable.

(** ** Names *)

Lemma sep_free_app c a b : sep_free c a -> sep_free c b -> sep_free c (a ++ b).
Proof.
  intros Ha Hb. induction a as [|h a IH]; [exact Hb|].
  intros [|x xs] y Heq; rewrite str_app_cons in Heq.
  - rewrite str_app_nil_l in Heq. injection Heq as -> _. by apply (Ha "" a).
  - rewrite str_app_cons in Heq. injection Heq as -> Heq.
    apply (IH (fun p q E => Ha (String x p) q (f_equal (String x) E)) xs y Heq).
Qed.

Lemma sep_free_nil c : sep_free c "".
Proof. intros [|x a] b; discriminate. Qed.

Lemma upper_underscore h : Str.upper h = "_"%char -> h = "_"%char.
Proof.
  destruct h as [[] [] [] [] [] [] [] []]; vm_compute; intros H; try discriminate H; reflexivity.
Qed.

Lemma capitalize_sep_free w : sep_free "_" w -> sep_free "_" (util.capitalize w).
Proof.
  intros Hw. destruct w as [|h w]; [exact Hw|]. cbn [util.capitalize].
  intros [|x a] b Heq.
  - rewrite str_app_nil_l in Heq. injection Heq as Hu _.
    apply upper_underscore in Hu as ->. by apply (Hw "" w).
  - rewrite str_app_cons in Heq. injection Heq as _ Heq.
    apply (Hw (String h a) b). by rewrite str_app_cons, Heq.
Qed.

Lemma join_sep_free c ws : Forall (sep_free c) ws -> sep_free c (Str.join ws).
Proof.
  induction 1 as [|w ws Hw _ IH]; [apply sep_free_nil|].
  rewrite join_cons. by apply sep_free_app.
Qed.

Lemma toCamelCase_sep_free s : sep_free "_" (util.toCamelCase s).
Proof.
  unfold util.toCamelCase. pose proof (split_sep_free "_" s) as HF.
  destruct (Str.split "_" s) as [|w ws]; [apply sep_free_nil|].
  inversion HF as [|? ? Hw Hws]; subst. apply join_sep_free. constructor; [exact Hw|].
  clear -Hws. induction Hws as [|x xs Hx _ IH]; constructor; [by apply capitalize_sep_free|exact IH].
Qed.

Lemma capitalize_all_err ws :
  match util.capitalize_all ws with
  | Ok ws' => ("" ∉ ws) /\ ws' = map util.capitalize ws
  | Err _ => "" ∈ ws
  end.
Proof.
  induction ws as [|w ws IH]; cbn.
  - split; [apply not_elem_of_nil|reflexivity].
  - destruct w as [|c w]; cbn; [apply list_elem_of_here|].
    destruct (util.capitalize_all ws) as [r|e]; cbn.
    + destruct IH as [Hnin ->]. split; [|reflexivity].
      intros Hin. apply elem_of_cons in Hin as [Heq|Hin]; [discriminate|done].
    + by apply list_elem_of_further.
Qed.

(** X8: [toPascalCase] throws exactly when the name has an empty segment (it
    is empty, begins or ends with an underscore, or has two underscores in
    a row); otherwise it is [toCamelCase] with the first letter in upper
    case, and free of underscores. *)
Theorem toPascalCase_spec s :
  match util.toPascalCase s with
  | Ok pascal =>
      ("" ∉ Str.split "_" s) /\
      pascal = util.capitalize (util.toCamelCase s) /\
      sep_free "_" pascal
  | Err e => ("" ∈ Str.split "_" s) /\ exists m, e = TypeError m
  end.
Proof.
  destruct (util.toPascalCase s) as [pascal|e] eqn:Hp.
  - pose proof (pascal_of_camel _ _ Hp) as ->.
    split; [|split; [reflexivity|apply capitalize_sep_free, toCamelCase_sep_free]].
    unfold util.toPascalCase in Hp. pose proof (capitalize_all_err (Str.split "_" s)) as H.
    destruct (util.capitalize_all (Str.split "_" s)); [by destruct H|discriminate].
  - unfold util.toPascalCase in Hp. pose proof (capitalize_all_err (Str.split "_" s)) as H.
    destruct (util.capitalize_all (Str.split "_" s)) as [r|e'] eqn:Hc; [discriminate|].
    cbn in Hp. injection Hp as <-. split; [exact H|].
    clear H. revert e' Hc. induction (Str.split "_" s) as [|w ws IH]; intros e' Hc; cbn in Hc.
    + discriminate.
    + destruct w as [|c w]; cbn in Hc; [injection Hc as <-; by eexists|].
      destruct (util.capitalize_all ws) as [r|e'']; cbn in Hc; [discriminate|].
      injection Hc as <-. by apply IH.
Qed.

Lemma prefix_app p x : String.prefix p (p ++ x) = true.
Proof.
  induction p as [|c p IH]; [by destruct x|].
  rewrite str_app_cons. cbn. destruct (ascii_dec c c); [exact IH|done].
Qed.

Lemma slice_app p x : Str.slice (String.length p) (p ++ x) = x.
Proof.
  unfold Str.slice. rewrite substring_skip, str_length_app.
  replace (String.length p + String.length x - String.length p)%nat
    with (String.length x) by lia.
  apply substring_all.
Qed.

(** X9: [toClassName] strips the prefix [la_] once, and only at the head of
    the name: the class name of [la_] followed by [x] is the camel case of
    [x], and a name that does not begin with [la_] is converted as it
    is. *)
Theorem toClassName_prefix x :
  toClassName (dbTablePrefix ++ x) = util.toCamelCase x /\
  (Str.startsWith dbTablePrefix x = false -> toClassName x = util.toCamelCase x) /\
  sep_free "_" (toClassName x).
Proof.
  unfold toClassName. cbv zeta. split; [|split].
  - unfold Str.startsWith. rewrite prefix_app. cbn [andb negb].
    change (genConfig.isRemoveTablePrefix && negb (dbTablePrefix =? "")%string) with true.
    cbn [andb]. by rewrite slice_app.
  - intros ->. by rewrite andb_false_r.
  - apply toCamelCase_sep_free.
Qed.

Lemma split_sep_free_id sep s : sep_free sep s -> Str.split sep s = [s].
Proof.
  induction s as [|c s IH]; intros Hs; [reflexivity|]. cbn [Str.split].
  destruct (Ascii.eqb_spec c sep) as [->|Hne]; [by destruct (Hs "" s)|].
  rewrite IH; [reflexivity|]. intros a b Heq. apply (Hs (String c a) b).
  by rewrite str_app_cons, Heq.
Qed.

(** X10: [toCamelCase] removes every underscore, so converting a second time
    changes nothing more. *)
Theorem toCamelCase_no_underscore s :
  sep_free "_" (util.toCamelCase s) /\
  util.toCamelCase (util.toCamelCase s) = util.toCamelCase s.
Proof.
  split; [apply toCamelCase_sep_free|].
  unfold util.toCamelCase at 1. rewrite split_sep_free_id by apply toCamelCase_sep_free.
  cbn [map]. unfold Str.join. reflexivity.
Qed.

(** X11: the module name of a name without underscore is the name itself, so
    taking the module name twice changes nothing more. *)
Theorem toModuleName_idempotent name :
  toModuleName (toModuleName name) = toModuleName name /\
  (sep_free "_" name -> toModuleName name = name).
Proof.
  assert (H : forall s, sep_free "_" s -> toModuleName s = s).
  { intros s Hs. unfold toModuleName. cbv zeta. by rewrite split_sep_free_id. }
  split; [|apply H]. apply H, toModuleName_spec.
Qed.

(** ** More on the importer, the delete operation and the synchronizer *)

Section StoreMore.

Variable now : Z.
Variable query : string -> list (string * sqlarg) -> result (list jsobj).
Variable refused : store -> write -> bool.

Lemma importColumns_count id columns s u s' :
  importColumns now refused id columns s = (Ok u, s') ->
  GenTable s' = GenTable s /\
  length (GenTableColumn s') = (length (GenTableColumn s) + length columns)%nat.
Proof.
  revert s. induction columns as [|column rest IH]; intros s; cbn [importColumns].
  - intros [= _ <-]. split; [reflexivity|cbn; lia].
  - unfold mbind at 1, lift. destruct (initColumn now id column) as [col|e]; [|discriminate].
    unfold mbind, try_catch.
    pose proof (GenTableColumn_create_spec refused col s) as Hc.
    destruct (GenTableColumn_create refused col s) as [[row|e] s1]; [|discriminate].
    destruct Hc as (_ & Ht & Hcs). intros H. apply IH in H as [Ht' Hlen].
    split; [congruence|]. rewrite Hlen, Hcs, length_app. cbn. lia.
Qed.

(** The number of live columns of a live table, [0] when the column query
    fails. *)
Lemma importTables_count dbTbs s u s' :
  importTables now query refused dbTbs s = (Ok u, s') ->
  length (GenTable s') = (length (GenTable s) + length dbTbs)%nat /\
  length (GenTableColumn s') =
    (length (GenTableColumn s)
     + sum_list (map (fun dbTb =>
                        match getDbTableColumnsQueryByName query (prop dbTb "tableName") with
                        | Ok columns => length columns
                        | Err _ => 0%nat
                        end) dbTbs))%nat.
Proof.
  revert s. induction dbTbs as [|dbTb rest IH]; intros s; cbn [importTables].
  - intros [= _ <-]. cbn. lia.
  - unfold mbind at 1, lift. destruct (initTable now dbTb) as [g|e]; [|discriminate].
    unfold mbind at 1, try_catch.
    pose proof (GenTable_create_spec refused g s) as Hc.
    destruct (GenTable_create refused g s) as [[row|e] s1]; [|discriminate].
    destruct Hc as (_ & Ht & Hcs).
    unfold mbind at 1, lift.
    destruct (getDbTableColumnsQueryByName query (prop dbTb "tableName"))
      as [columns|e] eqn:Hq; [|discriminate].
    unfold mbind at 1.
    destruct (importColumns now refused (prop row "id") columns s1) as [[u1|e] s2] eqn:Hcol;
      [|discriminate].
    apply importColumns_count in Hcol as [Ht2 Hlen2].
    intros H. apply IH in H as [Hlt Hlc].
    rewrite Hlt, Hlc, Ht2, Hlen2, Ht, Hcs, length_app. cbn [length map sum_list foldr].
    split; [lia|]. rewrite Hq. unfold id. lia.
Qed.

(** X12: A successful import adds exactly one table record per live table found
    and one column record per live column of these tables. *)
Theorem importTable_counts tableNames dbTbs s u s' :
  getDbTablesQueryByNames query tableNames = Ok dbTbs ->
  importTable now query refused tableNames s = (Ok u, s') ->
  length (GenTable s') = (length (GenTable s) + length dbTbs)%nat /\
  length (GenTableColumn s') =
    (length (GenTableColumn s)
     + sum_list (map (fun dbTb =>
                        match getDbTableColumnsQueryByName query (prop dbTb "tableName") with
                        | Ok columns => length columns
                        | Err _ => 0%nat
                        end) dbTbs))%nat.
Proof.
  intros Hq. unfold importTable, mbind, try_catch, lift. rewrite Hq.
  destruct dbTbs as [|dbTb rest]; [discriminate|]. cbn [length Nat.eqb].
  pose proof (transaction_spec refused (importTables now query refused (dbTb :: rest)) s) as Htx.
  destruct (transaction refused _ s) as [[u'|e] s1]; [|discriminate].
  intros [= _ <-]. by apply importTables_count in Htx.
Qed.

End StoreMore.

Section DeleteMore.

Variable refused : store -> write -> bool.

Lemma delTable_ok ids s u s' :
  delTable refused ids s = (Ok u, s') ->
  GenTable s' = filter (fun row => negb (matches "id" ids row)) (GenTable s) /\
  GenTableColumn s' = filter (fun row => negb (matches "tableId" ids row)) (GenTableColumn s).
Proof.
  unfold delTable, try_catch.
  pose proof (transaction_spec refused (GenTable_destroy refused "id" ids ;;
                                GenTableColumn_destroy refused "tableId" ids) s) as Htx.
  destruct (transaction refused _ s) as [[u'|e] s1]; [|discriminate].
  intros [= _ <-].
  unfold mbind, GenTable_destroy, GenTableColumn_destroy in Htx.
  destruct (refused s _); [discriminate|]. cbn in Htx.
  destruct (refused _ _); [discriminate|]. by injection Htx as _ <-.
Qed.

Lemma matches_app column a b (row : jsobj) :
  matches column (a ++ b) row = matches column a row || matches column b row.
Proof.
  unfold matches. rewrite <- bool_decide_or. apply bool_decide_ext. apply elem_of_app.
Qed.

Lemma filter_filter_matches column a b (rows : list jsobj) :
  filter (fun row => negb (matches column b row))
         (filter (fun row => negb (matches column a row)) rows)
  = filter (fun row => negb (matches column (a ++ b) row)) rows.
Proof.
  induction rows as [|row rows IH]; [reflexivity|].
  rewrite (filter_cons _ row rows), (filter_cons (fun row => negb (matches column (a ++ b) row))).
  rewrite matches_app. destruct (matches column a row) eqn:Ha; cbn [negb orb].
  - rewrite decide_False by (cbn; tauto). rewrite decide_False by (cbn; tauto). exact IH.
  - rewrite decide_True by exact I. rewrite filter_cons.
    destruct (matches column b row); cbn [negb].
    + rewrite !decide_False by (cbn; tauto). exact IH.
    + rewrite !decide_True by exact I. by rewrite IH.
Qed.

(** X13: deleting two lists of ids one after the other leaves the same records
    as deleting them in one call, and deleting the empty list of ids
    leaves every record in place. *)
Theorem delTable_compose a b s u1 s1 u2 s2 u3 s3 :
  delTable refused a s = (Ok u1, s1) ->
  delTable refused b s1 = (Ok u2, s2) ->
  delTable refused (a ++ b) s = (Ok u3, s3) ->
  GenTable s3 = GenTable s2 /\ GenTableColumn s3 = GenTableColumn s2 /\
  (a = [] -> GenTable s1 = GenTable s /\ GenTableColumn s1 = GenTableColumn s).
Proof.
  intros H1 H2 H3.
  apply delTable_ok in H1 as [Ht1 Hc1]. apply delTable_ok in H2 as [Ht2 Hc2].
  apply delTable_ok in H3 as [Ht3 Hc3].
  rewrite Ht3, Hc3, Ht2, Hc2, Ht1, Hc1, !filter_filter_matches. repeat split.
  - subst a. clear. induction (GenTable s) as [|row rows IH]; [reflexivity|].
    rewrite filter_cons. cbn. by rewrite IH.
  - subst a. clear. induction (GenTableColumn s) as [|row rows IH]; [reflexivity|].
    rewrite filter_cons. cbn. by rewrite IH.
Qed.

End DeleteMore.

Section SyncMore.

Variable now : Z.
Variable query : string -> list (string * sqlarg) -> result (list jsobj).
Variable refused : store -> write -> bool.

Lemma update_GenTable values id s r s' :
  GenTableColumn_update refused values id s = (r, s') -> GenTable s' = GenTable s.
Proof.
  unfold GenTableColumn_update. destruct (refused s _); by intros [= _ <-].
Qed.

Lemma syncColumns_GenTable id prevColMap columns s r s' :
  syncColumns now refused id prevColMap columns s = (r, s') -> GenTable s' = GenTable s.
Proof.
  revert s. induction columns as [|column rest IH]; intros s; cbn [syncColumns].
  - by intros [= _ <-].
  - cbv zeta. unfold mbind at 1, lift.
    destruct (hasOwnProperty prevColMap _) as [[|]|e]; [| |by intros [= _ <-]].
    + unfold mbind at 1.
      destruct (GenTableColumn_update refused _ _ s) as [[u|e] s1] eqn:Hu.
      * intros H. apply IH in H. apply update_GenTable in Hu. congruence.
      * intros [= _ <-]. by apply update_GenTable in Hu.
    + unfold mbind at 1, throw. by intros [= _ <-].
Qed.

Lemma syncTable_cases id s r s' :
  syncTable now query refused id s = (r, s') ->
  GenTable s' = GenTable s /\
  (forall e, r = Err e ->
             e = Error "SyncTable Transaction err" /\ GenTableColumn s' = GenTableColumn s).
Proof.
  assert (Hfail :
            (Err (Error "SyncTable Transaction err") : result unit, s) = (r, s') ->
            GenTable s' = GenTable s /\
            (forall e, r = Err e ->
               e = Error "SyncTable Transaction err"
               /\ GenTableColumn s' = GenTableColumn s)).
  { intros [= <- <-]. split; [reflexivity|]. by intros e [= <-]. }
  unfold syncTable, try_catch, mbind at 1, get_state.
  destruct (findOne (GenTable s) "id" id) as [genTable|]; [|exact Hfail].
  destruct (length (findAll (GenTableColumn s) "tableId" id) <=? 0)%nat;
    [exact Hfail|].
  unfold mbind at 1, lift.
  destruct (getDbTableColumnsQueryByName query (prop genTable "tableName")) as [columns|e];
    [|exact Hfail].
  destruct (length columns <=? 0)%nat; [exact Hfail|].
  match goal with |- context [transaction refused ?b s] =>
    pose proof (transaction_spec refused b s) as Htx;
    destruct (transaction refused b s) as [[u|e] s1] eqn:Ht end.
  - intros [= <- <-]. split; [|discriminate]. unfold mbind in Htx.
    destruct (syncColumns now refused id _ columns s) as [[u1|e] s2] eqn:Hs; [|discriminate].
    apply syncColumns_GenTable in Hs. unfold GenTableColumn_destroy in Htx.
    destruct (refused s2 _); [discriminate|]. injection Htx as _ <-. exact Hs.
  - unfold throw. intros [= <- <-]. destruct Htx as [Hg Hc]. split; [exact Hg|].
    by intros e0 [= <-].
Qed.

(** X14: [syncTable] never touches a table record; whatever goes wrong it
    throws the one error ['SyncTable Transaction err'], and then the column
    records are as they were too. *)
Theorem syncTable_frame id s :
  GenTable (syncTable now query refused id s).2 = GenTable s /\
  match (syncTable now query refused id s).1 with
  | Ok _ => True
  | Err e =>
      e = Error "SyncTable Transaction err" /\
      GenTableColumn (syncTable now query refused id s).2 = GenTableColumn s
  end.
Proof.
  destruct (syncTable now query refused id s) as [r s'] eqn:H.
  apply syncTable_cases in H as [Hg He]. split; [exact Hg|].
  cbn. destruct r as [u|e]; [exact I|]. by apply He.
Qed.

Lemma insert_by_elem_of key row rows (x : jsobj) :
  x ∈ insert_by key row rows <-> x = row \/ x ∈ rows.
Proof.
  induction rows as [|r rest IH]; cbn [insert_by].
  - rewrite elem_of_cons. by rewrite elem_of_nil.
  - destruct (_ <=? _).
    + by rewrite elem_of_cons.
    + rewrite !elem_of_cons, IH. tauto.
Qed.

Lemma order_by_elem_of key rows (x : jsobj) : x ∈ order_by key rows <-> x ∈ rows.
Proof.
  unfold order_by. induction rows as [|r rest IH]; [reflexivity|].
  cbn [foldr]. by rewrite insert_by_elem_of, IH, elem_of_cons.
Qed.

Lemma findAll_elem_of rows column key (x : jsobj) :
  x ∈ findAll rows column key <-> x ∈ rows /\ prop x column = key.
Proof.
  unfold findAll. rewrite order_by_elem_of, list_elem_of_filter, Is_true_true, matches_elem_of.
  rewrite elem_of_cons, elem_of_nil. tauto.
Qed.

(** Every entry of [prevColMap] is one of the stored columns, under its
    own name. *)
Lemma buildPrevColMap_lookup genTableCols key row :
  buildPrevColMap genTableCols !! key = Some row ->
  row ∈ genTableCols /\ toString (prop row "columnName") = key.
Proof.
  unfold buildPrevColMap.
  assert (G : forall rows (acc : gmap string jsobj) k r,
             foldl (fun map row => assign (toString (prop row "columnName")) row map) acc rows
               !! k = Some r ->
             (r ∈ rows /\ toString (prop r "columnName") = k) \/ acc !! k = Some r).
  { induction rows as [|x rows IH]; intros acc k r; cbn [foldl]; [by right|].
    intros H. apply IH in H as [[Hin Hk]|H].
    - left. split; [by apply list_elem_of_further|exact Hk].
    - unfold assign in H. destruct (_ =? "__proto__")%string; [by right|].
      rewrite lookup_insert in H. case_decide as Hd.
      + injection H as <-. left. split; [apply list_elem_of_here|exact Hd].
      + by right. }
  intros H. apply G in H as [H|H]; [exact H|]. by rewrite lookup_empty in H.
Qed.

Lemma syncColumns_known id prevColMap columns s u s' :
  syncColumns now refused id prevColMap columns s = (Ok u, s') ->
  Forall (fun column =>
            is_Some (prevColMap !! toString (prop column "columnName"))) columns.
Proof.
  revert s. induction columns as [|column rest IH]; intros s; cbn [syncColumns];
    [constructor|].
  cbv zeta. unfold mbind at 1, lift, hasOwnProperty.
  destruct (prevColMap !! "hasOwnProperty"); [discriminate|].
  case_bool_decide as Hk.
  - unfold mbind at 1. destruct (GenTableColumn_update refused _ _ s) as [[u1|e] s1];
      [|discriminate].
    intros H. constructor; [exact Hk|by eapply IH].
  - unfold mbind at 1, throw. discriminate.
Qed.

Lemma syncColumns_length id prevColMap columns s u s' :
  syncColumns now refused id prevColMap columns s = (Ok u, s') ->
  length (GenTableColumn s') = length (GenTableColumn s).
Proof.
  revert s. induction columns as [|column rest IH]; intros s;
    cbn [syncColumns]; [by intros [= _ <-]|].
  cbv zeta. unfold mbind at 1, lift.
  destruct (hasOwnProperty _ _) as [[|]|e]; [| |discriminate].
  - unfold mbind at 1, GenTableColumn_update. destruct (refused s _); [discriminate|].
    intros H. apply IH in H. cbn in H. by rewrite length_map in H.
  - unfold mbind at 1, throw. discriminate.
Qed.

(** X15: A call of [syncTable] that returns has found every live column among
    the stored columns of the table: it never adds a column record. *)
Theorem syncTable_adds_nothing id s u s' :
  syncTable now query refused id s = (Ok u, s') ->
  exists genTable columns,
    findOne (GenTable s) "id" id = Some genTable /\
    getDbTableColumnsQueryByName query (prop genTable "tableName") = Ok columns /\
    columns <> [] /\
    Forall (fun column =>
              exists prevCol,
                prevCol ∈ GenTableColumn s /\ prop prevCol "tableId" = id /\
                toString (prop prevCol "columnName") = toString (prop column "columnName"))
           columns /\
    (length (GenTableColumn s') <= length (GenTableColumn s))%nat.
Proof.
  unfold syncTable, try_catch, mbind at 1, get_state.
  destruct (findOne (GenTable s) "id" id) as [genTable|] eqn:Hfind; [|discriminate].
  destruct (length (findAll (GenTableColumn s) "tableId" id) <=? 0)%nat; [discriminate|].
  unfold mbind at 1, lift.
  destruct (getDbTableColumnsQueryByName query (prop genTable "tableName"))
    as [columns|e] eqn:Hquery; [|discriminate].
  destruct (length columns <=? 0)%nat eqn:Hlen; [discriminate|].
  match goal with |- context [transaction refused ?b s] =>
    pose proof (transaction_spec refused b s) as Htx;
    destruct (transaction refused b s) as [[u1|e] s1] eqn:Ht end; [|discriminate].
  intros [= _ <-]. exists genTable, columns. split; [reflexivity|]. split; [exact Hquery|].
  split; [by destruct columns|].
  unfold mbind in Htx.
  destruct (syncColumns now refused id _ columns s) as [[u2|e] s2] eqn:Hs; [|discriminate].
  split.
  - apply syncColumns_known in Hs. eapply Forall_impl; [exact Hs|].
    intros column [prevCol Hp]. apply buildPrevColMap_lookup in Hp as [Hin Hk].
    apply findAll_elem_of in Hin as [Hin Hid]. by exists prevCol.
  - unfold GenTableColumn_destroy in Htx. destruct (refused s2 _); [discriminate|].
    injection Htx as _ <-. cbn.
    etrans; [apply length_filter|]. by rewrite (syncColumns_length _ _ _ _ _ _ Hs).
Qed.

Lemma prop_lookup (o : jsobj) k v : prop o k = v -> v = JUndef \/ o !! k = Some v.
Proof. unfold prop. destruct (o !! k); cbn; intros <-; [by right|by left]. Qed.

(** Writing back values that a record already holds leaves the record as
    it is. *)
Lemma assign_defined_same (values row : jsobj) :
  (forall k v, values !! k = Some v -> v = JUndef \/ row !! k = Some v) ->
  assign_defined values row = row.
Proof.
  intros H. apply map_eq. intros k. unfold assign_defined.
  destruct (filter (fun kv : string * jsval => kv.2 <> JUndef) values !! k) as [v|] eqn:Hf.
  - apply map_lookup_filter_Some in Hf as [Hv Hd]. cbn in Hd.
    rewrite (lookup_union_Some_l _ _ _ v).
    + by destruct (H k v Hv).
    + by apply map_lookup_filter_Some.
  - by rewrite lookup_union_r.
Qed.

Lemma mergeColumn_values (col prevCol : jsobj) :
  (forall k v, col !! k = Some v -> v = JUndef \/ prevCol !! k = Some v) ->
  forall k v, mergeColumn col prevCol !! k = Some v -> v = JUndef \/ prevCol !! k = Some v.
Proof.
  intros Hcol k v. unfold mergeColumn. cbv zeta.
  repeat match goal with |- context [if ?b then _ else _] => destruct b end;
    repeat (rewrite lookup_insert; case_decide; [intros [= <-]; subst; by apply prop_lookup|]);
    apply Hcol.
Qed.

Lemma NoDup_fmap_eq {A B} (f : A -> B) (l : list A) x y :
  NoDup (f <$> l) -> x ∈ l -> y ∈ l -> f x = f y -> x = y.
Proof.
  induction l as [|a l IH]; [by intros _ ?%elem_of_nil|].
  rewrite fmap_cons, NoDup_cons. intros [Hnin Hnd] Hx Hy Hf.
  apply elem_of_cons in Hx as [->|Hx]; apply elem_of_cons in Hy as [->|Hy]; try done.
  - destruct Hnin. rewrite Hf. by apply list_elem_of_fmap_2.
  - destruct Hnin. rewrite <- Hf. by apply list_elem_of_fmap_2.
  - by apply IH.
Qed.

Lemma map_same {A} (f : A -> A) (l : list A) :
  (forall x, x ∈ l -> f x = x) -> map f l = l.
Proof.
  induction l as [|a l IH]; [reflexivity|]. intros H. cbn.
  rewrite (H a) by apply list_elem_of_here. f_equal. apply IH.
  intros x Hx. apply H. by apply list_elem_of_further.
Qed.

(** With distinct ids, the loop of [syncTable] changes no column record:
    each update writes the stored record back onto itself. *)
Lemma syncColumns_same id (prevColMap : gmap string jsobj) columns s u s' :
  NoDup ((fun row => prop row "id") <$> GenTableColumn s) ->
  (forall k r, prevColMap !! k = Some r -> r ∈ GenTableColumn s) ->
  syncColumns now refused id prevColMap columns s = (Ok u, s') ->
  GenTableColumn s' = GenTableColumn s.
Proof.
  revert s. induction columns as [|column rest IH]; intros s Hnd Hin;
    cbn [syncColumns]; [by intros [= _ <-]|].
  cbv zeta. unfold mbind at 1, lift, hasOwnProperty.
  destruct (prevColMap !! "hasOwnProperty"); [discriminate|].
  case_bool_decide as Hk; [|unfold mbind at 1, throw; discriminate].
  destruct Hk as [prevCol Hk]. rewrite Hk. cbn [default].
  unfold mbind at 1, GenTableColumn_update. destruct (refused s _); [discriminate|].
  set (s1 := {| GenTable := GenTable s |}).
  assert (Hsame : GenTableColumn s1 = GenTableColumn s).
  { cbn. apply map_same. intros row Hrow.
    destruct (matches "id" [prop prevCol "id"] row) eqn:Hm; [|reflexivity].
    apply matches_elem_of in Hm. apply elem_of_cons in Hm as [Hm|Hm];
      [|by apply elem_of_nil in Hm].
    assert (row = prevCol) as ->.
    { eapply (NoDup_fmap_eq (fun row : jsobj => prop row "id")); eauto. }
    apply assign_defined_same, mergeColumn_values. intros k v H.
    unfold promise in H. by rewrite lookup_empty in H. }
  intros H. apply IH in H; [by rewrite H|by rewrite Hsame|].
  intros k r Hr. rewrite Hsame. by eapply Hin.
Qed.

(** X16: when the stored column records have distinct ids, a call of
    [syncTable] that returns has changed no record and added none: the
    column records left are the stored ones without those of the table
    whose name is no longer a live column. *)
Theorem syncTable_only_deletes id s u s' :
  NoDup ((fun row => prop row "id") <$> GenTableColumn s) ->
  syncTable now query refused id s = (Ok u, s') ->
  exists genTable columns,
    findOne (GenTable s) "id" id = Some genTable /\
    getDbTableColumnsQueryByName query (prop genTable "tableName") = Ok columns /\
    GenTableColumn s' =
      filter (fun row =>
                negb (matches "id"
                        (delColIds (buildPrevColMap (findAll (GenTableColumn s) "tableId" id))
                                   columns) row))
             (GenTableColumn s) /\
    (forall row, row ∈ GenTableColumn s' -> row ∈ GenTableColumn s).
Proof.
  intros Hnd. unfold syncTable, try_catch, mbind at 1, get_state.
  destruct (findOne (GenTable s) "id" id) as [genTable|] eqn:Hfind; [|discriminate].
  destruct (length (findAll (GenTableColumn s) "tableId" id) <=? 0)%nat; [discriminate|].
  unfold mbind at 1, lift.
  destruct (getDbTableColumnsQueryByName query (prop genTable "tableName"))
    as [columns|e] eqn:Hquery; [|discriminate].
  destruct (length columns <=? 0)%nat eqn:Hlen; [discriminate|].
  match goal with |- context [transaction refused ?b s] =>
    pose proof (transaction_spec refused b s) as Htx;
    destruct (transaction refused b s) as [[u1|e] s1] eqn:Ht end; [|discriminate].
  intros [= _ <-]. exists genTable, columns. split; [reflexivity|]. split; [exact Hquery|].
  unfold mbind in Htx.
  destruct (syncColumns now refused id _ columns s) as [[u2|e] s2] eqn:Hs; [|discriminate].
  apply syncColumns_same in Hs; [|exact Hnd|].
  2: { intros k r Hr. apply buildPrevColMap_lookup in Hr as [Hr _].
       by apply findAll_elem_of in Hr as [Hr _]. }
  unfold GenTableColumn_destroy in Htx. destruct (refused s2 _); [discriminate|].
  injection Htx as _ <-. cbn. rewrite Hs. split; [reflexivity|].
  intros row Hrow. by apply list_elem_of_filter in Hrow as [_ Hrow].
Qed.

Lemma syncTable_ok_columns id s u s' genTable columns :
  NoDup ((fun row => prop row "id") <$> GenTableColumn s) ->
  syncTable now query refused id s = (Ok u, s') ->
  findOne (GenTable s) "id" id = Some genTable ->
  getDbTableColumnsQueryByName query (prop genTable "tableName") = Ok columns ->
  GenTableColumn s' =
    filter (fun row =>
              negb (matches "id"
                      (delColIds (buildPrevColMap (findAll (GenTableColumn s) "tableId" id))
                                 columns) row))
           (GenTableColumn s).
Proof.
  intros Hnd Hsync Hfind Hquery. revert Hsync.
  unfold syncTable, try_catch, mbind at 1, get_state. rewrite Hfind.
  destruct (length (findAll (GenTableColumn s) "tableId" id) <=? 0)%nat; [discriminate|].
  unfold mbind at 1, lift. rewrite Hquery.
  destruct (length columns <=? 0)%nat; [discriminate|].
  match goal with |- context [transaction refused ?b s] =>
    pose proof (transaction_spec refused b s) as Htx;
    destruct (transaction refused b s) as [[u1|e] s1] end; [|discriminate].
  intros [= _ <-]. unfold mbind in Htx.
  destruct (syncColumns now refused id _ columns s) as [[u2|e] s2] eqn:Hs; [|discriminate].
  apply syncColumns_same in Hs; [|exact Hnd|].
  2: { intros k r Hr. apply buildPrevColMap_lookup in Hr as [Hr _].
       by apply findAll_elem_of in Hr as [Hr _]. }
  unfold GenTableColumn_destroy in Htx. destruct (refused s2 _); [discriminate|].
  injection Htx as _ <-. cbn. by rewrite Hs.
Qed.

(** An id that the sync deletes is the id of an entry of [prevColMap]
    whose name is no longer the name of a live column. *)
Lemma delColIds_elem_of (prevColMap : gmap string jsobj) columns id :
  id ∈ delColIds prevColMap columns ->
  exists key prevCol,
    prevColMap !! key = Some prevCol /\ prop prevCol "id" = id /\
    prop prevCol "columnName" ∉ map (fun col : jsobj => prop col "columnName") columns.
Proof.
  unfold delColIds. cbv zeta. intros H.
  apply list_elem_of_In, in_map_iff in H as (prevCol & Hid & Hin).
  apply list_elem_of_In, list_elem_of_filter in Hin as [Hnot Hin].
  apply list_elem_of_In, in_map_iff in Hin as ([key v] & Heq & Hin). cbn in Heq. subst v.
  apply list_elem_of_In, elem_of_map_to_list in Hin.
  exists key, prevCol. split; [exact Hin|]. split; [exact Hid|].
  intros Hmem. apply negb_prop_elim in Hnot. apply Hnot. by apply bool_decide_pack.
Qed.

Lemma syncColumns_completes id prevColMap columns s :
  (forall s0 w, refused s0 w = false) ->
  prevColMap !! "hasOwnProperty" = None ->
  Forall (fun column => is_Some (prevColMap !! toString (prop column "columnName")))
         columns ->
  exists s', syncColumns now refused id prevColMap columns s = (Ok tt, s').
Proof.
  intros Hall Hown Hknown. revert s.
  induction Hknown as [|column rest Hk _ IH]; intros s; cbn [syncColumns].
  - by eexists.
  - cbv zeta. unfold mbind at 1, lift, hasOwnProperty. rewrite Hown.
    rewrite bool_decide_eq_true_2 by exact Hk.
    unfold mbind at 1, GenTableColumn_update. rewrite Hall. apply IH.
Qed.

(** C1.  For every sync of a table whose live columns include a column
    already stored under the same [columnName], the stored record is,
    after the sync, still the one record of its [id], with the stored
    [dictType], [queryType], [htmlType] and [isRequired], whether the call
    returns or throws: the sync carries the four settings over in every
    case, so also when the column is not list-visible and when the prior
    record was required, not a primary key and insertable, or editable;
    an [htmlType] of [select] set by hand survives.  The ids of the stored
    column records are taken to be distinct.  And the sync does return
    when every live column is stored and the database refuses no
    write. *)
Theorem sync_keeps_settings id s genTable columns column prevCol :
  NoDup ((fun row => prop row "id") <$> GenTableColumn s) ->
  findOne (GenTable s) "id" id = Some genTable ->
  getDbTableColumnsQueryByName query (prop genTable "tableName") = Ok columns ->
  column ∈ columns ->
  prevCol ∈ GenTableColumn s ->
  prop prevCol "tableId" = id ->
  prop prevCol "columnName" = prop column "columnName" ->
  let prevColMap := buildPrevColMap (findAll (GenTableColumn s) "tableId" id) in
  let r := syncTable now query refused id s in
  (exists row,
     row ∈ GenTableColumn r.2 /\ prop row "id" = prop prevCol "id" /\
     (forall row', row' ∈ GenTableColumn r.2 ->
                   prop row' "id" = prop prevCol "id" -> row' = row) /\
     prop row "dictType" = prop prevCol "dictType" /\
     prop row "queryType" = prop prevCol "queryType" /\
     prop row "htmlType" = prop prevCol "htmlType" /\
     prop row "isRequired" = prop prevCol "isRequired") /\
  (Forall (fun c => is_Some (prevColMap !! toString (prop c "columnName"))) columns ->
   prevColMap !! "hasOwnProperty" = None ->
   (forall s0 w, refused s0 w = false) ->
   r.1 = Ok tt).
Proof.
  intros Hnd Hfind Hquery Hcolumn Hprev Htable Hname. cbv zeta. split.
  - assert (Hrows : prevCol ∈ GenTableColumn (syncTable now query refused id s).2 /\
                    forall row, row ∈ GenTableColumn (syncTable now query refused id s).2 ->
                                row ∈ GenTableColumn s).
    { destruct (syncTable now query refused id s) as [[u|e] s'] eqn:Hsync; cbn [snd].
      - rewrite (syncTable_ok_columns id s u s' genTable columns Hnd Hsync Hfind Hquery).
        split; [|by intros row [_ Hrow]%list_elem_of_filter].
        apply list_elem_of_filter. split; [|exact Hprev].
        apply negb_prop_intro. intros Hdel%Is_true_true%matches_elem_of.
        apply delColIds_elem_of in Hdel as (key & other & Hkey & Hid & Hgone).
        apply buildPrevColMap_lookup in Hkey as [Hother _].
        apply findAll_elem_of in Hother as [Hother _].
        assert (other = prevCol) as ->.
        { eapply (NoDup_fmap_eq (fun row : jsobj => prop row "id")); eauto. }
        apply Hgone. rewrite Hname. apply list_elem_of_In.
        apply (in_map (fun col : jsobj => prop col "columnName")).
        by apply list_elem_of_In.
      - apply syncTable_cases in Hsync as [_ Herr].
        destruct (Herr e eq_refl) as [_ ->]. by split. }
    destruct Hrows as [Hin Hsub]. exists prevCol. split; [exact Hin|].
    split; [reflexivity|]. split; [|by repeat split].
    intros row' Hrow' Hid. eapply (NoDup_fmap_eq (fun row : jsobj => prop row "id")); eauto.
  - intros Hknown Hown Hall.
    unfold syncTable, try_catch, mbind at 1, get_state. rewrite Hfind.
    assert (Hstored : (length (findAll (GenTableColumn s) "tableId" id) <=? 0)%nat = false).
    { assert (Hmem : prevCol ∈ findAll (GenTableColumn s) "tableId" id)
        by by apply findAll_elem_of.
      destruct (findAll (GenTableColumn s) "tableId" id); [by apply elem_of_nil in Hmem|].
      reflexivity. }
    rewrite Hstored. unfold mbind at 1, lift. rewrite Hquery.
    assert (Hlive : (length columns <=? 0)%nat = false).
    { destruct columns; [by apply elem_of_nil in Hcolumn|reflexivity]. }
    rewrite Hlive. unfold transaction, mbind at 1.
    destruct (syncColumns_completes id _ columns s Hall Hown Hknown) as [s1 Hs1].
    rewrite Hs1. unfold GenTableColumn_destroy. rewrite !Hall. reflexivity.
Qed.

End SyncMore.

Lemma sync_keeps_settings_witness :
  (syncTable 0 (sample_query text_flag) accept_all (JNum 1) sample_store).1 = Ok tt /\
  exists row,
    row ∈ GenTableColumn
            (syncTable 0 (sample_query text_flag) accept_all (JNum 1) sample_store).2 /\
    prop row "id" = JNum 11 /\
    prop row "dictType" = JStr "content_kind" /\ prop row "queryType" = JStr "LIKE" /\
    prop row "htmlType" = JStr "select" /\ prop row "isRequired" = JNum 1.
Proof.
  destruct (sync_keeps_settings 0 (sample_query text_flag) accept_all (JNum 1) sample_store
              (object [ ("id", JNum 1); ("tableName", JStr "la_shop_goods");
                        ("entityName", JStr "shopGoods"); ("moduleName", JStr "goods");
                        ("genTpl", JStr "tree"); ("subTableFk", JStr "goods_id") ])
              [ liveColumn "id" "int(11)" (JStr "1") (JStr "0") 1;
                liveColumn "goods_name" "varchar(64)" (JStr "0") (JStr "1") 2;
                live_content ]
              live_content stored_content)
    as [(row & Hin & Hid & _ & Hdict & Hquery & Hwidget & Hrequired) Hreturns].
  - apply (bool_decide_unpack _). vm_compute. exact I.
  - reflexivity.
  - reflexivity.
  - do 2 apply list_elem_of_further. apply list_elem_of_here.
  - do 2 apply list_elem_of_further. apply list_elem_of_here.
  - reflexivity.
  - reflexivity.
  - split.
    + apply Hreturns; [|reflexivity|reflexivity].
      repeat constructor; vm_compute; by eexists.
    + exists row. split; [exact Hin|]. split; [by rewrite Hid|].
      split; [by rewrite Hdict|]. split; [by rewrite Hquery|].
      split; [by rewrite Hwidget|by rewrite Hrequired].
Defined.

(** ** More on the renderer and the packager *)

Lemma lookup_set_entry key value res k :
  lookup_entry k (set_entry key value res)
  = if String.eqb key k then Some value else lookup_entry k res.
Proof.
  induction res as [|[k0 v0] rest IH]; cbn [set_entry lookup_entry].
  - rewrite String.eqb_sym. by destruct (String.eqb k key).
  - destruct (String.eqb_spec k0 key) as [->|Hne]; cbn [lookup_entry].
    + rewrite String.eqb_sym. by destruct (String.eqb k key).
    + rewrite IH. destruct (String.eqb_spec k0 k) as [->|Hne'].
      * by rewrite (proj2 (String.eqb_neq key k)).
      * reflexivity.
Qed.

Lemma set_entry_keys key value res :
  NoDup res.*1 -> NoDup (set_entry key value res).*1 /\
  (forall k, k ∈ (set_entry key value res).*1 <-> k = key \/ k ∈ res.*1).
Proof.
  induction res as [|[k0 v0] rest IH]; cbn [set_entry]; intros Hnd.
  - split; [apply NoDup_singleton|]. intros k. cbn. rewrite elem_of_cons, elem_of_nil. tauto.
  - cbn in Hnd. apply NoDup_cons in Hnd as [Hnin Hnd].
    destruct (String.eqb_spec k0 key) as [->|Hne].
    + split; [by apply NoDup_cons|]. intros k. cbn. rewrite elem_of_cons. tauto.
    + destruct (IH Hnd) as [Hnd' Hk]. split.
      * cbn. apply NoDup_cons. split; [|exact Hnd']. rewrite Hk. tauto.
      * intros k. cbn. rewrite !elem_of_cons, Hk. tauto.
Qed.

Section RenderMore.

Variable now : Z.
Variable query : string -> list (string * sqlarg) -> result (list jsobj).
Variable Vars : Type.
Variable prepareVars : jsobj -> list jsobj -> jsobj -> list jsobj -> result Vars.
Variable getTemplatePaths : jsval -> result (list string).
Variable render : string -> Vars -> result string.

Lemma renderAll_spec vars tplPaths res0 :
  NoDup res0.*1 ->
  match renderAll Vars render vars tplPaths res0 with
  | Ok res =>
      NoDup res.*1 /\
      (forall tplPath,
         lookup_entry tplPath res =
         if bool_decide (tplPath ∈ tplPaths)
         then match render tplPath vars with Ok code => Some code | Err _ => None end
         else lookup_entry tplPath res0) /\
      Forall (fun tplPath => is_ok (render tplPath vars) = true) tplPaths
  | Err _ => Exists (fun tplPath => is_ok (render tplPath vars) = false) tplPaths
  end.
Proof.
  revert res0. induction tplPaths as [|p rest IH]; intros res0 Hnd; cbn [renderAll].
  - split; [exact Hnd|]. split; [|constructor]. intros tplPath.
    by rewrite bool_decide_eq_false_2 by apply not_elem_of_nil.
  - destruct (render p vars) as [code|e] eqn:Hr; cbn [bind];
      [|apply Exists_cons_hd; by rewrite Hr].
    destruct (set_entry_keys p code res0 Hnd) as [Hnd' _]. specialize (IH _ Hnd').
    destruct (renderAll Vars render vars rest (set_entry p code res0)) as [res|e];
      [|by apply Exists_cons_tl].
    destruct IH as (Hres & Hlook & Hall). split; [exact Hres|]. split.
    + intros tplPath. rewrite Hlook, lookup_set_entry.
      destruct (String.eqb_spec p tplPath) as [->|Hne].
      * rewrite (bool_decide_eq_true_2 (tplPath ∈ tplPath :: rest)) by apply list_elem_of_here.
        rewrite Hr. by case_bool_decide.
      * case_bool_decide as Hin.
        -- by rewrite bool_decide_eq_true_2 by (by apply list_elem_of_further).
        -- rewrite bool_decide_eq_false_2; [reflexivity|].
           intros H. apply elem_of_cons in H as [H|H]; congruence.
    + constructor; [by rewrite Hr|exact Hall].
Qed.

(** X17: A call of [renderCodeByTable] that returns gives a complete map: one
    entry per template of the mode, each with the rendering of that
    template, and no other entry; the templates are rendered with the
    context that [prepareVars] builds from the table record, its stored
    columns in the order of [sort], the classified primary-key column of
    the live table and the live columns.  It returns only for a table with
    a name and a sub-table key, stored under that name, with a live column
    whose [isPk] is the number [1]. *)
Theorem renderCodeByTable_complete s genTable tplCodeMap :
  renderCodeByTable now query Vars prepareVars getTemplatePaths render s genTable
  = Ok tplCodeMap ->
  exists table pkCol vars tplPaths,
    getTemplatePaths (prop genTable "genTpl") = Ok tplPaths /\
    NoDup tplCodeMap.*1 /\
    (forall tplPath,
       lookup_entry tplPath tplCodeMap =
       if bool_decide (tplPath ∈ tplPaths)
       then match render tplPath vars with Ok code => Some code | Err _ => None end
       else None) /\
    Forall (fun tplPath => is_ok (render tplPath vars) = true) tplPaths /\
    truthy (prop genTable "tableName") = true /\
    truthy (prop genTable "subTableFk") = true /\
    findOne (GenTable s) "tableName" (prop genTable "tableName") = Some table /\
    exists cols priCol,
      getDbTableColumnsQueryByName query (prop genTable "tableName") = Ok cols /\
      priCol ∈ cols /\ prop priCol "isPk" = JNum 1 /\
      getTablePriCol cols = Some priCol /\
      initColumn now (prop table "id") priCol = Ok pkCol /\
      prepareVars genTable
        (findAll (GenTableColumn s) "tableId" (prop genTable "id")) pkCol cols
      = Ok vars.
Proof.
  unfold renderCodeByTable. cbv zeta.
  destruct (getSubTableInfo now query s genTable) as [[[pkCol cols]|]|e] eqn:Hsub;
    cbn [bind]; [|discriminate|discriminate].
  destruct (prepareVars genTable _ pkCol cols) as [vars|e] eqn:Hvars; cbn [bind];
    [|discriminate].
  destruct (getTemplatePaths (prop genTable "genTpl")) as [tplPaths|e] eqn:Hp;
    cbn [bind]; [|discriminate].
  intros Hr. pose proof (renderAll_spec vars tplPaths [] (NoDup_nil_2)) as Hspec.
  rewrite Hr in Hspec. destruct Hspec as (Hnd & Hlook & Hall).
  unfold getSubTableInfo in Hsub.
  destruct (truthy (prop genTable "tableName")); [|discriminate].
  destruct (truthy (prop genTable "subTableFk")); [|discriminate].
  cbn [negb orb] in Hsub.
  destruct (findOne (GenTable s) "tableName" (prop genTable "tableName")) as [table|];
    [|discriminate].
  destruct (getDbTableColumnsQueryByName query (prop genTable "tableName")) as [cols'|e];
    [|discriminate].
  cbn [bind] in Hsub.
  destruct (getTablePriCol cols') as [priCol|] eqn:Hfind; [|discriminate].
  destruct (initColumn now (prop table "id") priCol) as [pkCol'|e] eqn:Hinit;
    [|discriminate].
  cbn [bind] in Hsub. injection Hsub as <- <-.
  exists table, pkCol', vars, tplPaths. split; [reflexivity|]. split; [exact Hnd|].
  split; [exact Hlook|]. split; [exact Hall|].
  split; [reflexivity|]. split; [reflexivity|]. split; [reflexivity|].
  pose proof Hfind as Hfind'. unfold getTablePriCol in Hfind'.
  apply find_some in Hfind' as [Hin Hpk].
  exists cols', priCol. split; [reflexivity|]. split; [by apply list_elem_of_In|].
  split; [unfold strict_eq in Hpk; by apply bool_decide_eq_true in Hpk|].
  split; [exact Hfind|]. split; [exact Hinit|exact Hvars].
Qed.

Lemma filePathsOf_spec tplCodeMap moduleName acc :
  match filePathsOf tplCodeMap moduleName acc with
  | Ok filePath =>
      Forall (fun entry => is_Some (lookup_entry entry.1 fmtMap)) tplCodeMap /\
      (forall file code,
         lookup_entry file filePath = Some code ->
         lookup_entry file acc = Some code \/
         exists tplPath fmt,
           (tplPath, code) ∈ tplCodeMap /\
           lookup_entry tplPath fmtMap = Some fmt /\
           file = Str.replace "%s" (toString moduleName) fmt)
  | Err _ => Exists (fun entry => lookup_entry entry.1 fmtMap = None) tplCodeMap
  end.
Proof.
  revert acc. induction tplCodeMap as [|[tplPath code] rest IH]; intros acc;
    cbn [filePathsOf].
  - split; [constructor|]. intros file c H. by left.
  - destruct (lookup_entry tplPath fmtMap) as [fmt|] eqn:Hfmt; [|by apply Exists_cons_hd].
    specialize (IH (set_entry (Str.replace "%s" (toString moduleName) fmt) code acc)).
    destruct (filePathsOf rest moduleName _) as [filePath|e]; [|by apply Exists_cons_tl].
    destruct IH as [Hall Hfiles]. split.
    + constructor; [cbn [fst]; rewrite Hfmt; by eexists|exact Hall].
    + intros file c H. apply Hfiles in H as [H|(t & f & Hin & Hf & ->)].
      * rewrite lookup_set_entry in H.
        destruct (String.eqb_spec (Str.replace "%s" (toString moduleName) fmt) file)
          as [<-|Hne]; [|by left].
        injection H as <-. right. exists tplPath, fmt.
        split; [apply list_elem_of_here|by split].
      * right. exists t, f. split; [by apply list_elem_of_further|by split].
Qed.

(** X18: [getFilePaths] returns exactly when every template of the map has a
    path pattern, and every file it returns holds the code of a template
    whose pattern, with the module name in place of [%s], is the path of the
    file. *)
Theorem getFilePaths_spec tplCodeMap moduleName :
  match getFilePaths tplCodeMap moduleName with
  | Ok filePath =>
      Forall (fun entry => is_Some (lookup_entry entry.1 fmtMap)) tplCodeMap /\
      (forall file code,
         lookup_entry file filePath = Some code ->
         exists tplPath fmt,
           (tplPath, code) ∈ tplCodeMap /\
           lookup_entry tplPath fmtMap = Some fmt /\
           file = Str.replace "%s" (toString moduleName) fmt)
  | Err e =>
      Exists (fun entry => lookup_entry entry.1 fmtMap = None) tplCodeMap /\
      exists m, e = Error ("getFilePaths error: " ++ m)
  end.
Proof.
  unfold getFilePaths. pose proof (filePathsOf_spec tplCodeMap moduleName []) as H.
  destruct (filePathsOf tplCodeMap moduleName []) as [filePath|e].
  - destruct H as [Hall Hfiles]. split; [exact Hall|].
    intros file code Hl. by destruct (Hfiles file code Hl) as [?|?].
  - split; [exact H|by eexists].
Qed.

Lemma genZipCode_frame s path tableName fs p :
  p <> path ->
  (genZipCode now query Vars prepareVars getTemplatePaths render s path tableName fs).2 !! p
  = fs !! p.
Proof.
  intros Hne. unfold genZipCode, try_catch.
  destruct (findLast (GenTable s) "tableName" tableName) as [genTable|]; [|reflexivity].
  unfold mbind, lift.
  destruct (renderCodeByTable _ _ _ _ _ _ s genTable) as [tplCodeMap|e]; [|reflexivity].
  unfold genZip. destruct (getFilePaths tplCodeMap _) as [filePaths|e]; [|reflexivity].
  cbn. by rewrite lookup_insert_ne.
Qed.

Lemma downloadCode_other_paths s path tableNames fs p :
  p <> path ->
  (downloadCode now query Vars prepareVars getTemplatePaths render s path tableNames fs).2
    !! p = fs !! p.
Proof.
  intros Hne.
  assert (H : forall names fs0,
             (genZipCodes now query Vars prepareVars getTemplatePaths render s path names fs0).2
               !! p = fs0 !! p).
  { induction names as [|name names IH]; intros fs0; cbn [genZipCodes]; [reflexivity|].
    unfold mbind.
    pose proof (genZipCode_frame s path (JStr name) fs0 p Hne) as Hf.
    destruct (genZipCode _ _ _ _ _ _ s path (JStr name) fs0) as [[u|e] fs1]; cbn in Hf.
    - by rewrite IH.
    - exact Hf. }
  unfold downloadCode, try_catch, mbind. specialize (H tableNames fs).
  destruct (genZipCodes _ _ _ _ _ _ s path tableNames fs) as [[u|e] fs1]; exact H.
Qed.

(** X19: [downloadCode] writes to no other path than the one it is given, and
    for an empty list of tables it returns the path and writes nothing at
    all. *)
Theorem downloadCode_frame s path tableNames fs :
  (forall p, p <> path ->
     (downloadCode now query Vars prepareVars getTemplatePaths render s path tableNames fs).2
       !! p = fs !! p) /\
  downloadCode now query Vars prepareVars getTemplatePaths render s path [] fs
  = (Ok path, fs).
Proof.
  split; [|reflexivity]. intros p Hne. by apply downloadCode_other_paths.
Qed.

End RenderMore.

(** ** The listing of the imported tables *)

Section ListingProps.

Variable findAndCountAll :
  gmap string condition -> option Z -> option Z -> result (jsval * list jsobj).

Lemma prop_insert_ne (o : jsobj) k k' v : k <> k' -> prop (<[k := v]> o) k' = prop o k'.
Proof. intros H. unfold prop. by rewrite lookup_insert_ne. Qed.

(** X20: when the request of [list] has an [endTime], the condition on
    [createTime] is the upper bound alone: whatever [startTime] the request
    carries, the answer is the one of the request without it. *)
Theorem list_upper_bound_wins listReq :
  truthy (prop listReq "endTime") = true ->
  listWhere listReq !! "createTime" = Some (OpLte (prop listReq "endTime")) /\
  forall startTime,
    GenService_list findAndCountAll (<["startTime" := startTime]> listReq)
    = GenService_list findAndCountAll listReq.
Proof.
  intros He. split.
  - unfold listWhere. rewrite He. by rewrite lookup_insert_eq.
  - intros v.
    assert (Hw : listWhere (<["startTime" := v]> listReq) = listWhere listReq).
    { unfold listWhere.
      rewrite (prop_insert_ne listReq "startTime" "tableName") by done.
      rewrite (prop_insert_ne listReq "startTime" "tableComment") by done.
      rewrite (prop_insert_ne listReq "startTime" "endTime") by done.
      rewrite He.
      destruct (truthy (prop (<["startTime":=v]> listReq) "startTime")),
        (truthy (prop listReq "startTime"));
        by rewrite ?insert_insert_eq. }
    unfold GenService_list. rewrite Hw.
    rewrite (prop_insert_ne listReq "startTime" "pageSize") by done.
    by rewrite (prop_insert_ne listReq "startTime" "pageNo") by done.
Qed.

End ListingProps.

Lemma list_upper_bound_wins_witness :
  truthy (prop (object [ ("startTime", JNum 1700000000); ("endTime", JNum 1600000000) ])
            "endTime") = true /\
  listWhere (object [ ("startTime", JNum 1700000000); ("endTime", JNum 1600000000) ])
    !! "createTime" = Some (OpLte (JNum 1600000000)).
Proof.
  split; [reflexivity|].
  exact (proj1 (list_upper_bound_wins
                  (fun _ _ _ => Ok (JNum 0, []))
                  (object [ ("startTime", JNum 1700000000); ("endTime", JNum 1600000000) ])
                  eq_refl)).
Defined.

(** ** The responses *)

Lemma or_default_defined v d : d <> JUndef -> or_default v d <> JUndef.
Proof.
  intros Hd. unfold or_default, strict_eq.
  destruct (bool_decide_reflect (v = JUndef)); [exact Hd|assumption].
Qed.

(** X21: [result] of [baseController] always answers with a body of the
    uniform shape that carries the data it was given, and leaves the
    headers alone; no field of the answer is [undefined], and the success
    message never goes with a code other than [200]. *)
Theorem result_message options data ctx :
  exists code message,
    responseBody (baseController_result options data ctx)
    = Some (JsonBody code data message) /\
    headers (baseController_result options data ctx) = headers ctx /\
    status (baseController_result options data ctx) <> JUndef /\
    code <> JUndef /\ message <> JUndef /\
    (message = JStr "请求成功" -> code = JNum 200) /\
    (prop options "code" = JUndef -> prop options "message" = JUndef ->
     code = JNum 200 /\ message = JStr "请求成功").
Proof.
  unfold baseController_result. eexists _, _. split; [reflexivity|]. cbn.
  split; [reflexivity|]. split; [by apply or_default_defined|].
  split; [by apply or_default_defined|].
  pose proof (or_default_defined (prop options "message") (JStr "请求成功")) as Hm.
  unfold strict_eq.
  destruct (bool_decide_reflect (or_default (prop options "code") (JNum 200) = JNum 200))
    as [Hc|Hc]; cbn [negb].
  - split; [by apply Hm|]. split; [done|]. intros _ ->. split; [exact Hc|reflexivity].
  - destruct (bool_decide_reflect
                (or_default (prop options "message") (JStr "请求成功") = JStr "请求成功"))
      as [Hs|Hs].
    + split; [done|]. split; [done|]. intros Hu. by rewrite Hu in Hc.
    + split; [by apply Hm|]. split; [done|]. intros Hu. by rewrite Hu in Hc.
Qed.

Lemma result_message_witness :
  exists code message,
    responseBody (baseController_result (object [ ("code", JNum 400) ]) NoData empty_response)
    = Some (JsonBody code NoData message) /\
    message <> JStr "请求成功".
Proof.
  destruct (result_message (object [ ("code", JNum 400) ]) NoData empty_response)
    as (code & message & Hb & _ & _ & _ & _ & Hm & _).
  exists code, message. split; [exact Hb|].
  intros Heq. specialize (Hm Heq). subst code. by vm_compute in Hb.
Defined.

Section ControllerProps.

Variable now : Z.
Variable query : string -> list (string * sqlarg) -> result (list jsobj).
Variable refused : store -> write -> bool.
Variable Vars : Type.
Variable prepareVars : jsobj -> list jsobj -> jsobj -> list jsobj -> result Vars.
Variable getTemplatePaths : jsval -> result (list string).
Variable render : string -> Vars -> result string.

(** X22: the [delTable] action answers either the uniform success, and then
    exactly the records of the given tables and their columns are gone, or
    [500] with the plain text, and then every record is still there. *)
Theorem controller_delTable_spec ids ctx s :
  let r := controller_delTable refused ids ctx s in
  (status r.1 = JNum 200 /\
   responseBody r.1 = Some (JsonBody (JNum 200) NoData (JStr "请求成功")) /\
   GenTable r.2 = filter (fun row => negb (matches "id" ids row)) (GenTable s) /\
   GenTableColumn r.2
   = filter (fun row => negb (matches "tableId" ids row)) (GenTableColumn s))
  \/
  (status r.1 = JNum 500 /\
   responseBody r.1 = Some (TextBody "Internal Server Error") /\
   GenTable r.2 = GenTable s /\ GenTableColumn r.2 = GenTableColumn s).
Proof.
  cbn zeta. unfold controller_delTable.
  destruct (delTable refused ids s) as [[u|e] s'] eqn:Hd.
  - left. cbn [fst snd]. split; [reflexivity|]. split; [reflexivity|].
    revert Hd. unfold delTable, try_catch.
    pose proof (transaction_spec refused
                  (GenTable_destroy refused "id" ids ;;
                   GenTableColumn_destroy refused "tableId" ids) s) as Htx.
    destruct (transaction refused _ s) as [[u'|e] s1]; [|discriminate].
    intros [= _ <-].
    unfold mbind, GenTable_destroy, GenTableColumn_destroy in Htx.
    destruct (refused s _); [discriminate|]. cbn in Htx.
    destruct (refused _ _); [discriminate|]. by injection Htx as _ <-.
  - right. cbn [fst snd]. split; [reflexivity|]. split; [reflexivity|].
    revert Hd. unfold delTable, try_catch.
    pose proof (transaction_spec refused
                  (GenTable_destroy refused "id" ids ;;
                   GenTableColumn_destroy refused "tableId" ids) s) as Htx.
    destruct (transaction refused _ s) as [[u'|e'] s1]; [discriminate|].
    unfold throw. intros [= _ <-]. exact Htx.
Qed.

Lemma preview_keys (tplCodeMap : list (string * string)) : forall acc,
  let res := foldl (fun res entry => set_entry (Str.replace ".tpl" "" entry.1) entry.2 res)
                   acc tplCodeMap in
  (NoDup acc.*1 -> NoDup res.*1) /\
  (forall file code,
     lookup_entry file res = Some code ->
     lookup_entry file acc = Some code \/
     exists tplPath, file = Str.replace ".tpl" "" tplPath /\ (tplPath, code) ∈ tplCodeMap) /\
  (forall file, is_Some (lookup_entry file acc) -> is_Some (lookup_entry file res)) /\
  (forall tplPath code,
     (tplPath, code) ∈ tplCodeMap ->
     is_Some (lookup_entry (Str.replace ".tpl" "" tplPath) res)).
Proof.
  induction tplCodeMap as [|[tplPath code] rest IH]; intros acc; cbn zeta; cbn [foldl].
  - split; [done|]. split; [by left|]. split; [done|]. intros t c H. by apply elem_of_nil in H.
  - destruct (IH (set_entry (Str.replace ".tpl" "" tplPath) code acc))
      as (Hnd & Hfrom & Hkeep & Hall).
    cbn zeta in *. cbn [fst snd] in *. split; [|split; [|split]].
    + intros H. apply Hnd. by apply set_entry_keys.
    + intros file c H. apply Hfrom in H as [H|(t & -> & Hin)].
      * rewrite lookup_set_entry in H.
        destruct (String.eqb_spec (Str.replace ".tpl" "" tplPath) file) as [<-|Hne].
        -- injection H as <-. right. exists tplPath. split; [reflexivity|apply list_elem_of_here].
        -- by left.
      * right. exists t. split; [reflexivity|by apply list_elem_of_further].
    + intros file H. apply Hkeep. rewrite lookup_set_entry.
      by destruct (String.eqb (Str.replace ".tpl" "" tplPath) file).
    + intros t c Hin. apply elem_of_cons in Hin as [[= -> ->]|Hin].
      * apply Hkeep. by rewrite lookup_set_entry, String.eqb_refl.
      * by apply (Hall t c).
Qed.

(** X23: the [previewCode] action answers [500] with the plain text, or
    the uniform success with a map that holds, for every template rendered
    for the stored table of that id, one entry under the path of the
    template without its first [.tpl], and nothing else. *)
Theorem controller_previewCode_spec id ctx s :
  let r := controller_previewCode now query Vars prepareVars getTemplatePaths render
             id ctx s in
  r = internal_error ctx
  \/
  exists genTable tplCodeMap res,
    findOne (GenTable s) "id" id = Some genTable /\
    renderCodeByTable now query Vars prepareVars getTemplatePaths render s genTable
    = Ok tplCodeMap /\
    status r = JNum 200 /\
    responseBody r = Some (JsonBody (JNum 200) (CodeData res) (JStr "请求成功")) /\
    NoDup res.*1 /\
    (forall file code,
       lookup_entry file res = Some code ->
       exists tplPath, file = Str.replace ".tpl" "" tplPath /\ (tplPath, code) ∈ tplCodeMap) /\
    (forall tplPath code,
       (tplPath, code) ∈ tplCodeMap ->
       is_Some (lookup_entry (Str.replace ".tpl" "" tplPath) res)).
Proof.
  cbn zeta. unfold controller_previewCode, previewCode.
  destruct (findOne (GenTable s) "id" id) as [genTable|] eqn:Hf; [|by left].
  destruct (renderCodeByTable _ _ _ _ _ _ s genTable) as [tplCodeMap|e] eqn:Hr; cbn [bind];
    [|by left].
  right. exists genTable, tplCodeMap. eexists. split; [reflexivity|]. split; [exact Hr|].
  split; [reflexivity|]. split; [reflexivity|].
  destruct (preview_keys tplCodeMap []) as (Hnd & Hfrom & _ & Hall). cbn zeta in *.
  split; [apply Hnd, NoDup_nil_2|]. split; [|exact Hall].
  intros file code H. by destruct (Hfrom file code H) as [?|?].
Qed.

(** X24: the [syncTable] action never touches a table record; it answers
    either the uniform success or [500] with the plain text, and in the
    second case the column records are as they were too. *)
Theorem controller_syncTable_spec id ctx s :
  let r := controller_syncTable now query refused id ctx s in
  GenTable r.2 = GenTable s /\
  ((status r.1 = JNum 200 /\
    responseBody r.1 = Some (JsonBody (JNum 200) NoData (JStr "请求成功")))
   \/
   (status r.1 = JNum 500 /\
    responseBody r.1 = Some (TextBody "Internal Server Error") /\
    GenTableColumn r.2 = GenTableColumn s)).
Proof.
  cbn zeta. unfold controller_syncTable.
  destruct (syncTable now query refused id s) as [[u|e] s'] eqn:Hs;
    apply syncTable_cases in Hs as [Hg He]; cbn [fst snd]; (split; [exact Hg|]).
  - left. by split.
  - right. split; [reflexivity|]. split; [reflexivity|]. by destruct (He e eq_refl).
Qed.

Lemma genZipCodes_nil_or_last {S} (names : list S) :
  names = [] \/ exists front last, names = (front ++ [last])%list.
Proof.
  destruct names as [|name names] using rev_ind; [by left|right]. by eexists _, _.
Qed.

(** X25: the [downloadCode] action opens a write stream on no other path
    than that of the archive; it answers [500] with the plain text, or
    else a read stream on the path of the archive with the two headers of
    a download, and then the archive last piped to that path holds the
    files of the last table of the list.  Whether these bytes are on the
    disk when the stream is read is not settled by the action, which does
    not wait for the write stream. *)
Theorem controller_downloadCode_spec tables ctx s fs :
  let r := controller_downloadCode now query Vars prepareVars getTemplatePaths render
             tables ctx s fs in
  (forall p, p <> "app/public/downloads/file.zip" -> r.2 !! p = fs !! p) /\
  (r.1 = internal_error ctx
   \/
   exists names files,
     tables = JStr names /\
     tableFiles now query Vars prepareVars getTemplatePaths render s
       (JStr (List.last (Str.split "," names) "")) = Some files /\
     r.2 !! "app/public/downloads/file.zip" = Some files /\
     responseBody r.1 = Some (FileBody "app/public/downloads/file.zip") /\
     lookup_entry "Content-Type" (headers r.1) = Some "application/zip" /\
     lookup_entry "Content-Disposition" (headers r.1)
     = Some "attachment; filename=likeadmin-gen.zip" /\
     status r.1 = status ctx).
Proof.
  cbn zeta. unfold controller_downloadCode.
  destruct tables as [| |b|n|names]; cbn [as_string];
    try (split; [reflexivity|by left]).
  pose proof (downloadCode_other_paths now query Vars prepareVars getTemplatePaths render
                s "app/public/downloads/file.zip" (Str.split "," names) fs) as Hframe.
  destruct (downloadCode _ _ _ _ _ _ s _ (Str.split "," names) fs) as [[path|e] fs'] eqn:Hd;
    cbn [fst snd] in *.
  2:{ split; [intros p Hp; by apply Hframe|by left]. }
  split; [intros p Hp; by apply Hframe|]. right.
  revert Hd. unfold downloadCode, try_catch, mbind.
  destruct (genZipCodes _ _ _ _ _ _ s _ (Str.split "," names) fs) as [[[]|e] fs1] eqn:Hz;
    [|discriminate].
  cbn [ret]. intros [= _ <-].
  destruct (genZipCodes_nil_or_last (Str.split "," names)) as [Hnil|(front & last & Hsp)];
    [by apply split_nonempty in Hnil|].
  rewrite Hsp in Hz.
  apply genZipCodes_last in Hz as [fs0 Hz].
  apply genZipCode_ok in Hz as (genTable & tplCodeMap & filePaths & Hf & Hr & Hp & ->).
  exists names, filePaths. split; [reflexivity|]. split.
  { rewrite Hsp, last_last. unfold tableFiles. by rewrite Hf, Hr, Hp. }
  rewrite lookup_insert_eq. split; [reflexivity|]. split; [reflexivity|].
  cbn [headers set_header]. rewrite !lookup_set_entry. by cbn.
Qed.

(** X26: a [downloadCode] request without a [tables] parameter, or whose
    first table name is not the name of a stored table, is answered [500]
    with the plain text, and no file is written. *)
Theorem controller_downloadCode_unknown tables ctx s fs :
  (forall names,
     tables = JStr names ->
     findLast (GenTable s) "tableName" (JStr (hd "" (Str.split "," names))) = None) ->
  controller_downloadCode now query Vars prepareVars getTemplatePaths render tables ctx s fs
  = (internal_error ctx, fs).
Proof.
  intros H. unfold controller_downloadCode.
  destruct tables as [| |b|n|names]; cbn [as_string]; try reflexivity.
  specialize (H names eq_refl).
  destruct (Str.split "," names) as [|first rest] eqn:Hsp; cbn [hd] in H.
  - by apply split_nonempty in Hsp.
  - unfold downloadCode, try_catch, mbind. cbn [genZipCodes]. unfold mbind.
    unfold genZipCode at 1. unfold try_catch. by rewrite H.
Qed.

End ControllerProps.

(** ** The listing of the live tables *)

Section LiveListing.

Variable query : string -> list (string * sqlarg) -> result (list jsobj).

(** X27: for a request whose page parameters stay within the numbers of
    the model, [dbTables] returns the page it was asked for, with the
    [total] of the first row of the counting query and the rows of the
    listing query, whose [LIMIT] is [parseInt(pageSize, 10)] and whose
    [OFFSET] is [Number(pageSize) * (Number(pageNo) - 1)]; when a query
    fails or the counting query has no row it throws the one error
    ['Failed to get database tables query.'], whatever went wrong. *)
Theorem dbTables_spec listReq :
  in_range listReq = true ->
  let tableName := prop listReq "tableName" in
  let tableComment := prop listReq "tableComment" in
  let limit := parseInt10 (prop listReq "pageSize") in
  let offset :=
    match Number (prop listReq "pageSize"), Number (prop listReq "pageNo") with
    | Int size, Int no => Some (size * (no - 1))
    | _, _ => None
    end in
  match dbTables query listReq with
  | (Ok page, lists) =>
      prop page "pageNo" = prop listReq "pageNo" /\
      prop page "pageSize" = prop listReq "pageSize" /\
      exists first others,
        query (countSql tableName tableComment) [] = Ok (first :: others) /\
        prop page "count" = prop first "total" /\
        query (listSql tableName tableComment limit offset) [] = Ok lists
  | (Err e, lists) =>
      e = Error "Failed to get database tables query." /\ lists = [] /\
      (is_ok (query (countSql tableName tableComment) []) = false \/
       query (countSql tableName tableComment) [] = Ok [] \/
       is_ok (query (listSql tableName tableComment limit offset) []) = false)
  end.
Proof.
  intros Hrange. cbn zeta.
  assert (Hoffset :
            match toNumber (prop listReq "pageSize"), toNumber (prop listReq "pageNo") with
            | Some size, Some no => Some (size * (no - 1))
            | _, _ => None
            end
            = match Number (prop listReq "pageSize"), Number (prop listReq "pageNo") with
              | Int size, Int no => Some (size * (no - 1))
              | _, _ => None
              end).
  { unfold toNumber.
    by destruct (Number (prop listReq "pageSize")), (Number (prop listReq "pageNo")). }
  unfold dbTables, getDbTablesQuery. rewrite Hoffset.
  destruct (query (countSql _ _) []) as [[|first others]|e] eqn:Hc; cbn [bind].
  - split; [reflexivity|]. split; [reflexivity|]. right. by left.
  - destruct (query (listSql _ _ _ _) []) as [rows|e] eqn:Hl; cbn [bind].
    + split; [reflexivity|]. split; [reflexivity|]. exists first, others.
      split; [reflexivity|]. split; reflexivity.
    + split; [reflexivity|]. split; [reflexivity|]. right. by right.
  - split; [reflexivity|]. split; [reflexivity|]. by left.
Qed.

End LiveListing.

Lemma dbTables_spec_witness :
  let query (text : string) (args : list (string * sqlarg)) : result (list jsobj) :=
    Ok [ object [ ("total", JNum 3); ("tableName", JStr "la_shop_goods") ] ] in
  let listReq := object [ ("pageNo", JStr "2"); ("pageSize", JStr "10") ] in
  in_range listReq = true /\
  match dbTables query listReq with
  | (Ok page, lists) =>
      prop page "count" = JNum 3 /\
      lists = [ object [ ("total", JNum 3); ("tableName", JStr "la_shop_goods") ] ]
  | (Err _, _) => False
  end.
Proof.
  cbv zeta. split; [reflexivity|].
  pose proof (dbTables_spec
                (fun _ _ => Ok [ object [ ("total", JNum 3);
                                          ("tableName", JStr "la_shop_goods") ] ])
                (object [ ("pageNo", JStr "2"); ("pageSize", JStr "10") ]) eq_refl) as H.
  cbv zeta in H.
  destruct (dbTables _ _) as [[page|e] lists].
  - destruct H as (_ & _ & first & others & Hcount & Htotal & Hlist).
    injection Hcount as <- <-. injection Hlist as <-. split; [|reflexivity].
    rewrite Htotal. reflexivity.
  - destruct H as (_ & _ & [H|[H|H]]); by vm_compute in H.
Defined.

(** ** [listToTree] *)

Lemma zip_seq_snoc {A} (l : list A) (x : A) :
  zip (seq 0 (length (l ++ [x]))) (l ++ [x])
  = (zip (seq 0 (length l)) l ++ [(length l, x)])%list.
Proof.
  rewrite length_app. cbn [length]. rewrite seq_app. cbn [seq Nat.add].
  rewrite zip_with_app by by rewrite length_seq. reflexivity.
Qed.

Lemma elem_of_zip_seq {A} (l : list A) i x :
  (i, x) ∈ zip (seq 0 (length l)) l <-> l !! i = Some x.
Proof.
  induction l as [|y l IH] using rev_ind.
  - cbn. rewrite elem_of_nil. by split.
  - rewrite zip_seq_snoc, elem_of_app, IH, list_elem_of_singleton. split.
    + intros [H|[= -> ->]].
      * by apply lookup_app_l_Some.
      * by rewrite lookup_app_r, Nat.sub_diag by lia.
    + intros H. apply lookup_app_Some in H as [H|[Hle H]]; [by left|right].
      apply list_lookup_singleton_Some in H as [Hi ->]. f_equal. lia.
Qed.

Lemma fst_zip_seq {A} (l : list A) : (zip (seq 0 (length l)) l).*1 = seq 0 (length l).
Proof. apply fst_zip. by rewrite length_seq. Qed.

Lemma map_get_set key value m k :
  map_get k (map_set key value m) = if strict_eq key k then Some value else map_get k m.
Proof.
  unfold strict_eq. induction m as [|[k0 v0] rest IH]; cbn [map_set map_get].
  - reflexivity.
  - unfold strict_eq.
    destruct (bool_decide_reflect (k0 = key)) as [->|Hne]; cbn [map_get]; unfold strict_eq.
    + by destruct (bool_decide_reflect (key = k)).
    + rewrite IH. destruct (bool_decide_reflect (k0 = k)) as [->|Hne'].
      * by rewrite bool_decide_eq_false_2 by congruence.
      * reflexivity.
Qed.

(** [idValMap.get] gives the last object of the array with that truthy
    [id], if there is one. *)
Lemma buildIdValMap_get id arr v :
  match map_get v (buildIdValMap id arr) with
  | Some p =>
      exists pNode,
        arr !! p = Some pNode /\ truthy (prop (fields pNode) id) = true /\
        prop (fields pNode) id = v /\
        forall q qNode, (p < q)%nat -> arr !! q = Some qNode -> prop (fields qNode) id <> v
  | None =>
      forall q qNode,
        arr !! q = Some qNode -> truthy (prop (fields qNode) id) = true ->
        prop (fields qNode) id <> v
  end.
Proof.
  induction arr as [|m arr IH] using rev_ind.
  - cbn. intros q qNode H. by rewrite lookup_nil in H.
  - unfold buildIdValMap in *. rewrite zip_seq_snoc, foldl_app. cbn [foldl fst snd].
    set (idValMap := foldl _ [] (zip (seq 0 (length arr)) arr)) in *.
    destruct (truthy (prop (fields m) id)) eqn:Ht.
    + rewrite map_get_set. unfold strict_eq.
      destruct (bool_decide_reflect (prop (fields m) id = v)) as [Hv|Hv].
      * exists m. split; [by rewrite lookup_app_r, Nat.sub_diag by lia|].
        split; [exact Ht|]. split; [exact Hv|]. intros q qNode Hq Hl.
        apply lookup_lt_Some in Hl. rewrite length_app in Hl. cbn in Hl. lia.
      * destruct (map_get v idValMap) as [p|].
        -- destruct IH as (pNode & Hp & Htp & Hvp & Hlast). exists pNode.
           split; [by apply lookup_app_l_Some|]. split; [exact Htp|]. split; [exact Hvp|].
           intros q qNode Hq Hl. apply lookup_app_Some in Hl as [Hl|[_ Hl]].
           ++ by apply (Hlast q).
           ++ apply list_lookup_singleton_Some in Hl as [_ <-]. exact Hv.
        -- intros q qNode Hl Htq. apply lookup_app_Some in Hl as [Hl|[_ Hl]].
           ++ by apply (IH q).
           ++ apply list_lookup_singleton_Some in Hl as [_ <-]. exact Hv.
    + destruct (map_get v idValMap) as [p|].
      * destruct IH as (pNode & Hp & Htp & Hvp & Hlast). exists pNode.
        split; [by apply lookup_app_l_Some|]. split; [exact Htp|]. split; [exact Hvp|].
        intros q qNode Hq Hl. apply lookup_app_Some in Hl as [Hl|[_ Hl]].
        -- by apply (Hlast q).
        -- apply list_lookup_singleton_Some in Hl as [_ <-]. intros Heq.
           rewrite Heq, <- Hvp, Htp in Ht. discriminate.
      * intros q qNode Hl Htq. apply lookup_app_Some in Hl as [Hl|[_ Hl]].
        -- by apply (IH q).
        -- apply list_lookup_singleton_Some in Hl as [_ <-]. congruence.
Qed.

Lemma attach_loop pid idValMap items : forall objects mapList,
  (forall v p, map_get v idValMap = Some p -> (p < length objects)%nat) ->
  let r := foldl (attach pid idValMap) (objects, mapList) items in
  length r.1 = length objects /\
  fields <$> r.1 = fields <$> objects /\
  r.2 = (mapList ++ (filter (fun it => parentIndex pid idValMap it.2 = None) items).*1)%list /\
  forall p,
    childList <$> (r.1 !! p)
    = (fun pNode =>
         (childList pNode
          ++ (filter (fun it => parentIndex pid idValMap it.2 = Some p) items).*1)%list)
        <$> (objects !! p).
Proof.
  induction items as [|[i m] rest IH]; intros objects mapList Hvalid; cbn zeta.
  - cbn [foldl fst snd]. split; [reflexivity|]. split; [reflexivity|].
    split; [by rewrite filter_nil, app_nil_r|].
    intros p. rewrite filter_nil. destruct (objects !! p); cbn; [|reflexivity].
    by rewrite app_nil_r.
  - cbn [foldl]. destruct (parentIndex pid idValMap m) as [p0|] eqn:Hpar.
    + assert (Hm : truthy (prop (fields m) pid) = true
                   /\ map_get (prop (fields m) pid) idValMap = Some p0).
      { unfold parentIndex in Hpar. by destruct (truthy (prop (fields m) pid)). }
      destruct Hm as [Ht Hget]. cbn [attach]. rewrite Ht, Hget.
      destruct (lookup_lt_is_Some_2 objects p0 (Hvalid _ _ Hget)) as [pNode HpNode].
      rewrite HpNode.
      set (cVal := match children pNode with
                   | Some cVal => (cVal ++ [i])%list
                   | None => [i]
                   end).
      assert (HcVal : cVal = (childList pNode ++ [i])%list).
      { unfold cVal, childList. by destruct (children pNode). }
      set (pNode' := {| fields := fields pNode; children := Some cVal |}).
      destruct (IH (<[p0 := pNode']> objects) mapList) as (Hlen & Hfields & Hroots & Hkids).
      { intros v p Hv. rewrite length_insert. by apply (Hvalid v). }
      cbn zeta in *. split; [by rewrite Hlen, length_insert|]. split.
      { rewrite Hfields, list_fmap_insert. apply list_insert_id.
        by rewrite list_lookup_fmap, HpNode. }
      split.
      { rewrite Hroots. rewrite filter_cons_False; [reflexivity|].
        cbn [snd]. by rewrite Hpar. }
      intros p. rewrite Hkids. destruct (decide (p = p0)) as [->|Hne].
      * rewrite list_lookup_insert_eq by by apply (Hvalid _ _ Hget). rewrite HpNode.
        cbn [fmap option_fmap option_map]. f_equal.
        rewrite filter_cons_True by (cbn [snd]; exact Hpar).
        cbn [fmap list_fmap fst]. unfold childList at 1. unfold pNode'. cbn [children default]. unfold id.
        rewrite HcVal, <- app_assoc. reflexivity.
      * rewrite list_lookup_insert_ne by done.
        rewrite filter_cons_False; [reflexivity|]. cbn [snd]. rewrite Hpar. congruence.
    + assert (Hatt : attach pid idValMap (objects, mapList) (i, m)
                     = (objects, (mapList ++ [i])%list)).
      { unfold parentIndex in Hpar. cbn [attach].
        destruct (truthy (prop (fields m) pid)); [|reflexivity]. by rewrite Hpar. }
      rewrite Hatt.
      destruct (IH objects (mapList ++ [i])%list Hvalid) as (Hlen & Hfields & Hroots & Hkids).
      cbn zeta in *. split; [exact Hlen|]. split; [exact Hfields|]. split.
      { rewrite Hroots, filter_cons_True by (cbn [snd]; exact Hpar).
        cbn [fmap list_fmap fst]. by rewrite <- app_assoc. }
      intros p. rewrite Hkids. rewrite filter_cons_False; [reflexivity|].
      cbn [snd]. by rewrite Hpar.
Qed.

Lemma concat_children_insert objects p pNode pNode' i :
  objects !! p = Some pNode ->
  childList pNode' = (childList pNode ++ [i])%list ->
  concat (childList <$> <[p := pNode']> objects) ≡ₚ (concat (childList <$> objects) ++ [i])%list.
Proof.
  revert p. induction objects as [|o objects IH]; intros [|p] Hp Hc; try done.
  - injection Hp as ->. cbn. rewrite Hc, <- !app_assoc.
    apply Permutation_app_head, Permutation_app_comm.
  - cbn. rewrite (IH p Hp Hc). by rewrite app_assoc.
Qed.

Lemma attach_perm pid idValMap items : forall objects mapList,
  (forall v p, map_get v idValMap = Some p -> (p < length objects)%nat) ->
  let r := foldl (attach pid idValMap) (objects, mapList) items in
  (r.2 ++ concat (childList <$> r.1))%list
  ≡ₚ ((mapList ++ concat (childList <$> objects)) ++ items.*1)%list.
Proof.
  induction items as [|[i m] rest IH]; intros objects mapList Hvalid; cbn zeta.
  - cbn. by rewrite app_nil_r.
  - cbn [foldl]. cbn [attach].
    destruct (truthy (prop (fields m) pid)).
    2:{ rewrite (IH objects (mapList ++ [i])%list Hvalid). cbn [fmap list_fmap fst].
        rewrite <- !app_assoc. apply Permutation_app_head. cbn [app].
        by rewrite Permutation_middle. }
    destruct (map_get (prop (fields m) pid) idValMap) as [p0|] eqn:Hget.
    2:{ rewrite (IH objects (mapList ++ [i])%list Hvalid). cbn [fmap list_fmap fst].
        rewrite <- !app_assoc. apply Permutation_app_head. cbn [app].
        by rewrite Permutation_middle. }
    destruct (lookup_lt_is_Some_2 objects p0 (Hvalid _ _ Hget)) as [pNode HpNode].
    rewrite HpNode. rewrite IH.
    2:{ intros v p Hv. rewrite length_insert. by apply (Hvalid v). }
    rewrite (concat_children_insert objects p0 pNode _ i HpNode).
    2:{ unfold childList. cbn [children default]. by destruct (children pNode). }
    cbn [fmap list_fmap fst]. rewrite <- !app_assoc. reflexivity.
Qed.

Lemma buildIdValMap_valid id arr v p :
  map_get v (buildIdValMap id arr) = Some p -> (p < length arr)%nat.
Proof.
  intros H. pose proof (buildIdValMap_get id arr v) as Hg. rewrite H in Hg.
  destruct Hg as (pNode & Hp & _). by apply lookup_lt_Some in Hp.
Qed.

Lemma listToTree_unfold arr id pid :
  listToTree arr id pid
  = ((foldl (attach pid (buildIdValMap id arr)) (arr, []) (zip (seq 0 (length arr)) arr)).2,
     (foldl (attach pid (buildIdValMap id arr)) (arr, []) (zip (seq 0 (length arr)) arr)).1).
Proof. unfold listToTree. by destruct (foldl _ _ _). Qed.

(** The object at [p] is the one [idValMap] gives for the [pid] of [m]
    exactly when it is the last object of the array whose [id] is that
    [pid]. *)
Lemma parentIndex_spec id pid arr m p :
  parentIndex pid (buildIdValMap id arr) m = Some p <->
  truthy (prop (fields m) pid) = true /\
  exists pNode,
    arr !! p = Some pNode /\ prop (fields pNode) id = prop (fields m) pid /\
    forall q qNode, (p < q)%nat -> arr !! q = Some qNode ->
                    prop (fields qNode) id <> prop (fields m) pid.
Proof.
  unfold parentIndex. pose proof (buildIdValMap_get id arr (prop (fields m) pid)) as Hg.
  destruct (truthy (prop (fields m) pid)) eqn:Ht.
  2:{ split; [discriminate|]. by intros [? _]. }
  destruct (map_get _ (buildIdValMap id arr)) as [p'|].
  - destruct Hg as (pNode' & Hp' & Htp' & Hv' & Hlast'). split.
    + intros [= <-]. split; [reflexivity|]. by exists pNode'.
    + intros (_ & pNode & Hp & Hv & Hlast). f_equal.
      destruct (Nat.lt_trichotomy p p') as [Hlt|[Heq|Hgt]]; [|by symmetry|].
      * by destruct (Hlast p' pNode' Hlt Hp').
      * by destruct (Hlast' p pNode Hgt Hp).
  - split; [discriminate|]. intros (_ & pNode & Hp & Hv & _).
    destruct (Hg p pNode Hp); [by rewrite Hv|exact Hv].
Qed.

Lemma parentIndex_none id pid arr m :
  parentIndex pid (buildIdValMap id arr) m = None <->
  (truthy (prop (fields m) pid) = false \/
   forall q qNode, arr !! q = Some qNode -> prop (fields qNode) id <> prop (fields m) pid).
Proof.
  unfold parentIndex. pose proof (buildIdValMap_get id arr (prop (fields m) pid)) as Hg.
  destruct (truthy (prop (fields m) pid)) eqn:Ht.
  2:{ split; [by left|reflexivity]. }
  destruct (map_get _ (buildIdValMap id arr)) as [p'|].
  - destruct Hg as (pNode' & Hp' & Htp' & Hv' & Hlast'). split; [discriminate|].
    intros [?|Hno]; [discriminate|]. by destruct (Hno p' pNode' Hp').
  - split; [|reflexivity]. intros _. right. intros q qNode Hq Heq.
    apply (Hg q qNode Hq); [by rewrite Heq|exact Heq].
Qed.

(** X28: the roots [listToTree] returns are, in the order of the array, the
    objects whose [pid] is falsy or is the [id] of no object of the
    array. *)
Theorem listToTree_roots arr id pid :
  (listToTree arr id pid).1 `sublist_of` seq 0 (length arr) /\
  forall j,
    j ∈ (listToTree arr id pid).1 <->
    exists m,
      arr !! j = Some m /\
      (truthy (prop (fields m) pid) = false \/
       forall q qNode, arr !! q = Some qNode ->
                       prop (fields qNode) id <> prop (fields m) pid).
Proof.
  rewrite listToTree_unfold. cbn [fst].
  destruct (attach_loop pid (buildIdValMap id arr) (zip (seq 0 (length arr)) arr) arr [])
    as (_ & _ & Hroots & _); [apply buildIdValMap_valid|].
  cbn zeta in Hroots. rewrite Hroots, app_nil_l. split.
  - rewrite <- (fst_zip_seq arr) at 2. apply fmap_sublist, sublist_filter.
  - intros j. rewrite list_elem_of_fmap. split.
    + intros ([j' m] & -> & Hin). apply list_elem_of_filter in Hin as [Hpar Hin].
      cbn [fst snd] in *. exists m. split; [by apply elem_of_zip_seq|].
      by apply (parentIndex_none id).
    + intros (m & Hj & Hroot). exists (j, m). split; [reflexivity|].
      apply list_elem_of_filter. split; [|by apply elem_of_zip_seq].
      cbn [snd]. by apply parentIndex_none.
Qed.

(** X29: after [listToTree] every object has the properties it had, and
    its children are the ones it had followed, in the order of the array,
    by the objects whose truthy [pid] is its [id], unless a later object of
    the array has the same [id]: then that one gets them. *)
Theorem listToTree_children arr id pid p node :
  (listToTree arr id pid).2 !! p = Some node ->
  exists pNode added,
    arr !! p = Some pNode /\ fields node = fields pNode /\
    childList node = (childList pNode ++ added)%list /\
    added `sublist_of` seq 0 (length arr) /\
    forall j,
      j ∈ added <->
      exists m,
        arr !! j = Some m /\ truthy (prop (fields m) pid) = true /\
        prop (fields pNode) id = prop (fields m) pid /\
        forall q qNode, (p < q)%nat -> arr !! q = Some qNode ->
                        prop (fields qNode) id <> prop (fields m) pid.
Proof.
  rewrite listToTree_unfold. cbn [snd]. intros Hnode.
  destruct (attach_loop pid (buildIdValMap id arr) (zip (seq 0 (length arr)) arr) arr [])
    as (Hlen & Hfields & _ & Hkids); [apply buildIdValMap_valid|].
  cbn zeta in *. specialize (Hkids p). rewrite Hnode in Hkids.
  destruct (arr !! p) as [pNode|] eqn:Hp; [|discriminate].
  injection Hkids as Hkids.
  exists pNode, (filter (fun it => parentIndex pid (buildIdValMap id arr) it.2 = Some p)
                   (zip (seq 0 (length arr)) arr)).*1.
  split; [reflexivity|]. split.
  { apply (f_equal (fun l => l !! p)) in Hfields.
    rewrite !list_lookup_fmap, Hnode, Hp in Hfields. by injection Hfields. }
  split; [exact Hkids|]. split.
  { rewrite <- (fst_zip_seq arr) at 2. apply fmap_sublist, sublist_filter. }
  intros j. rewrite list_elem_of_fmap. split.
  - intros ([j' m] & -> & Hin). apply list_elem_of_filter in Hin as [Hpar Hin].
    cbn [fst snd] in *. exists m. split; [by apply elem_of_zip_seq|].
    apply parentIndex_spec in Hpar as (Ht & pNode0 & Hp0 & Hv & Hlast).
    rewrite Hp in Hp0. injection Hp0 as <-. by split.
  - intros (m & Hj & Ht & Hv & Hlast). exists (j, m). split; [reflexivity|].
    apply list_elem_of_filter. split; [|by apply elem_of_zip_seq].
    cbn [snd]. apply parentIndex_spec. split; [exact Ht|]. by exists pNode.
Qed.

(** X30: [listToTree] places every object of the array exactly once, among
    the roots or among the children of one object, beside the children the
    objects had; it adds and drops no object. *)
Theorem listToTree_partition arr id pid :
  length (listToTree arr id pid).2 = length arr /\
  ((listToTree arr id pid).1 ++ concat (childList <$> (listToTree arr id pid).2))%list
  ≡ₚ (concat (childList <$> arr) ++ seq 0 (length arr))%list.
Proof.
  rewrite listToTree_unfold. cbn [fst snd].
  destruct (attach_loop pid (buildIdValMap id arr) (zip (seq 0 (length arr)) arr) arr [])
    as (Hlen & _); [apply buildIdValMap_valid|].
  split; [exact Hlen|].
  rewrite (attach_perm pid (buildIdValMap id arr) (zip (seq 0 (length arr)) arr) arr [])
    by apply buildIdValMap_valid.
  by rewrite fst_zip_seq, app_nil_l.
Qed.

(** ** The theorems at the sample data *)

Lemma javaType_table_witness :
  exists col,
    initColumn 0 (JNum 1) (liveColumn "create_time" "int(11)" (JStr "0") (JStr "1") 5)
    = Ok col /\
    prop col "javaType" = JStr "core.TsTime".
Proof.
  destruct (javaType_table 0 (JNum 1)
              (liveColumn "create_time" "int(11)" (JStr "0") (JStr "1") 5)
              "create_time" "int(11)")
    as (col & Hinit & Htype & _).
  - reflexivity.
  - reflexivity.
  - exists col. split; [exact Hinit|]. rewrite Htype. reflexivity.
Defined.

Lemma htmlType_table_witness :
  exists col,
    initColumn 0 (JNum 1) (liveColumn "summary" "varchar(500)" (JStr "0") (JStr "1") 2)
    = Ok col /\
    prop col "htmlType" = JStr "textarea".
Proof.
  destruct (htmlType_table 0 (JNum 1)
              (liveColumn "summary" "varchar(500)" (JStr "0") (JStr "1") 2)
              "summary" "varchar(500)")
    as (col & Hinit & Hwidget).
  - reflexivity.
  - reflexivity.
  - reflexivity.
  - exists col. split; [exact Hinit|]. rewrite Hwidget. reflexivity.
Defined.

Lemma htmlType_by_name_witness :
  exists col,
    initColumn 0 (JNum 1) (liveColumn "cover_image" "int(11)" (JStr "0") (JStr "1") 2)
    = Ok col /\
    prop col "htmlType" = JStr "imageUpload".
Proof.
  destruct (htmlType_by_name 0 (JNum 1)
              (liveColumn "cover_image" "int(11)" (JStr "0") (JStr "1") 2)
              "cover_image" "int(11)")
    as (col & Hinit & Hwidget).
  - reflexivity.
  - reflexivity.
  - reflexivity.
  - exists col. split; [exact Hinit|]. rewrite Hwidget. reflexivity.
Defined.

Lemma initColumn_flags_witness :
  exists col,
    initColumn 0 (JNum 1) (liveColumn "goods_name" "varchar(64)" (JStr "0") (JStr "1") 2)
    = Ok col /\
    prop col "isList" = JUndef /\ prop col "isRequired" = JUndef.
Proof.
  destruct (initColumn_flags 0 (JNum 1)
              (liveColumn "goods_name" "varchar(64)" (JStr "0") (JStr "1") 2)
              "goods_name" "varchar(64)")
    as (col & Hinit & _ & _ & Hlist & _ & Hrequired).
  - reflexivity.
  - reflexivity.
  - exists col. split; [exact Hinit|]. split; [exact Hlist|]. rewrite Hrequired. reflexivity.
Defined.

Lemma toClassName_prefix_witness :
  Str.startsWith dbTablePrefix "shop_la_goods" = false /\
  toClassName "shop_la_goods" = util.toCamelCase "shop_la_goods".
Proof.
  split; [reflexivity|].
  apply (proj1 (proj2 (toClassName_prefix "shop_la_goods"))). reflexivity.
Defined.

Lemma toModuleName_idempotent_witness :
  sep_free "_" "goods" /\ toModuleName "goods" = "goods".
Proof.
  assert (H : sep_free "_" "goods") by (apply sep_free_check; reflexivity).
  split; [exact H|]. exact (proj2 (toModuleName_idempotent "goods") H).
Defined.

Lemma importTable_counts_witness :
  length (GenTable (importTable 0 (sample_query text_flag) accept_all
                      ["la_shop_goods"] empty_store).2) = 1%nat /\
  length (GenTableColumn (importTable 0 (sample_query text_flag) accept_all
                            ["la_shop_goods"] empty_store).2) = 3%nat.
Proof.
  destruct (importTable_counts 0 (sample_query text_flag) accept_all ["la_shop_goods"]
              [ object [ ("tableName", JStr "la_shop_goods"); ("tableComment", JStr "商品表") ] ]
              empty_store tt
              (importTable 0 (sample_query text_flag) accept_all
                 ["la_shop_goods"] empty_store).2)
    as [Htables Hcolumns].
  - reflexivity.
  - reflexivity.
  - split; [exact Htables|]. rewrite Hcolumns. reflexivity.
Defined.

Lemma delTable_compose_witness :
  GenTable (delTable accept_all [JNum 1; JNum 2] sample_store).2
  = GenTable (delTable accept_all [JNum 2] (delTable accept_all [JNum 1] sample_store).2).2.
Proof.
  apply (delTable_compose accept_all [JNum 1] [JNum 2] sample_store
           tt (delTable accept_all [JNum 1] sample_store).2
           tt (delTable accept_all [JNum 2] (delTable accept_all [JNum 1] sample_store).2).2
           tt (delTable accept_all [JNum 1; JNum 2] sample_store).2).
  - reflexivity.
  - reflexivity.
  - reflexivity.
Defined.

Lemma syncTable_adds_nothing_witness :
  (length (GenTableColumn
             (syncTable 0 (sample_query numeric_flag) accept_all (JNum 1) sample_store).2)
   <= length (GenTableColumn sample_store))%nat.
Proof.
  destruct (syncTable_adds_nothing 0 (sample_query numeric_flag) accept_all (JNum 1)
              sample_store tt
              (syncTable 0 (sample_query numeric_flag) accept_all (JNum 1) sample_store).2)
    as (genTable & columns & _ & _ & _ & _ & Hlen).
  - reflexivity.
  - exact Hlen.
Defined.

Lemma syncTable_only_deletes_witness :
  Forall (fun row => row ∈ GenTableColumn sample_store)
         (GenTableColumn
            (syncTable 0 (sample_query numeric_flag) accept_all (JNum 1) sample_store).2).
Proof.
  apply Forall_forall.
  destruct (syncTable_only_deletes 0 (sample_query numeric_flag) accept_all (JNum 1)
              sample_store tt
              (syncTable 0 (sample_query numeric_flag) accept_all (JNum 1) sample_store).2)
    as (genTable & columns & _ & _ & _ & Hrows).
  - apply (bool_decide_unpack _). vm_compute. exact I.
  - reflexivity.
  - exact Hrows.
Defined.

Lemma renderCodeByTable_complete_witness :
  exists table pkCol,
    findOne (GenTable sample_store) "tableName" (JStr "la_shop_goods") = Some table /\
    getTablePriCol (sample_columns numeric_flag "la_shop_goods")
    = Some (liveColumn "id" "int(11)" (JNum 1) (JNum 0) 1) /\
    initColumn 0 (prop table "id") (liveColumn "id" "int(11)" (JNum 1) (JNum 0) 1)
    = Ok pkCol.
Proof.
  destruct (renderCodeByTable_complete 0 (sample_query numeric_flag) jsobj sample_prepareVars
              sample_getTemplatePaths sample_render sample_store
              (object [ ("id", JNum 1); ("tableName", JStr "la_shop_goods");
                        ("entityName", JStr "shopGoods"); ("moduleName", JStr "goods");
                        ("genTpl", JStr "tree"); ("subTableFk", JStr "goods_id") ])
              [ ("nodecode/model.js.tpl", "nodecode/model.js.tpl of shopGoods");
                ("vue/api.ts.tpl", "vue/api.ts.tpl of shopGoods") ])
    as (table & pkCol & vars & tplPaths & _ & _ & _ & _ & _ & _ & Hfind
        & cols & priCol & Hcols & _ & _ & Hpri & Hinit & _).
  - reflexivity.
  - assert (Hlive : Ok cols = Ok (sample_columns numeric_flag "la_shop_goods"))
      by (rewrite <- Hcols; reflexivity).
    injection Hlive as ->.
    assert (Hid : getTablePriCol (sample_columns numeric_flag "la_shop_goods")
                  = Some (liveColumn "id" "int(11)" (JNum 1) (JNum 0) 1)) by reflexivity.
    assert (priCol = liveColumn "id" "int(11)" (JNum 1) (JNum 0) 1) as -> by congruence.
    exists table, pkCol. split; [exact Hfind|]. split; [exact Hid|exact Hinit].
Defined.

Lemma controller_downloadCode_unknown_witness :
  controller_downloadCode 0 (sample_query numeric_flag) jsobj sample_prepareVars
    sample_getTemplatePaths sample_render (JStr "") empty_response sample_store ∅
  = (internal_error empty_response, ∅).
Proof.
  apply (controller_downloadCode_unknown 0 (sample_query numeric_flag) jsobj
           sample_prepareVars sample_getTemplatePaths sample_render
           (JStr "") empty_response sample_store ∅).
  intros names [= <-]. reflexivity.
Defined.

Lemma listToTree_children_witness :
  exists pNode added,
    sample_menu !! 0%nat = Some pNode /\
    childList {| fields := object [ ("id", JNum 1); ("pid", JNum 0); ("name", JStr "system") ];
                 children := Some [ 1%nat; 2%nat ] |}
    = (childList pNode ++ added)%list.
Proof.
  destruct (listToTree_children sample_menu "id" "pid" 0%nat
              {| fields := object [ ("id", JNum 1); ("pid", JNum 0); ("name", JStr "system") ];
                 children := Some [ 1%nat; 2%nat ] |})
    as (pNode & added & Hp & _ & Hkids & _).
  - reflexivity.
  - exists pNode, added. by split.
Defined.
